(** * conversor_video_a_MP4: the transcode engine and its two front ends

    A shallow embedding of [conversor_video_a_MP4.py]: the engine functions

    - [check_ffmpeg]               (is the encoder there),
    - [build_ffmpeg_command]       (remux / re-encode command lines),
    - [get_media_duration]         (ffprobe query, then [ffmpeg -i] text scan),
    - [run_command_show_progress]  (child process with streamed diagnostics),
    - [convert_to_target_size]     (bitrate budget and two-pass sequencing),

    and the two callers, [ConverterGUI.start_conversion] and
    [cli_interactive].

    Conventions of the embedding.

    - A Python [str] is a [string]; a character is a code point below 256.
    - A Python [int] is a [Z].
    - A Python [float] is a binary64 number ([SpecFloat.spec_float]) with
      the Standard Library's correctly rounded arithmetic; the operations
      that raise on floats ([/] by zero, [float] of a large [int],
      [math.floor] of an infinity or NaN) return a [result].
    - Code that raises returns a [result]; code that touches the outside
      (child processes, the file system, the progress callback) is a function
      on an explicit [world], the behaviour of the outside being given by an
      [env] of oracles.
    - A child process is one that exits, and a progress callback one that
      returns. *)

From Stdlib Require Import String Ascii List Bool ZArith QArith Qround Qminmax Lia.
From Stdlib Require Import DecimalString.
From Stdlib Require PrimFloat FloatOps SpecFloat.
Import ListNotations.

Open Scope string_scope.
Open Scope Z_scope.

(** ** Python exceptions and results *)

Inductive exn : Type :=
| RuntimeError (msg : string)
| FileNotFoundError
| OSError
| ValueError
| IndexError
| OverflowError
| ZeroDivisionError.

Inductive result (A : Type) : Type :=
| Ok (a : A)
| Raise (e : exn).

Arguments Ok {A} a.
Arguments Raise {A} e.

Definition is_ok {A} (r : result A) : bool :=
  match r with Ok _ => true | Raise _ => false end.

(** ** Python strings *)

Module PyStr.

Definition code (c : ascii) : N := N_of_ascii c.

(** The characters [str.strip] treats as white space, restricted to code
    points below 256. *)
Definition is_space (c : ascii) : bool :=
  let n := code c in
  ((9 <=? n) && (n <=? 13) || (28 <=? n) && (n <=? 32)
   || (n =? 133) || (n =? 160))%N.

(** The line boundaries of [str.splitlines], restricted to code points
    below 256; a carriage return followed by a line feed is one boundary. *)
Definition is_linebreak (c : ascii) : bool :=
  let n := code c in
  ((10 <=? n) && (n <=? 13) || (28 <=? n) && (n <=? 30) || (n =? 133))%N.

Definition is_digit (c : ascii) : bool :=
  let n := code c in ((48 <=? n) && (n <=? 57))%N.

Definition digit_value (c : ascii) : Z := Z.of_N (code c) - 48.

Definition snoc (s : string) (c : ascii) : string := s ++ String c "".

(** [sub in s] *)
Fixpoint contains (sub s : string) : bool :=
  prefix sub s ||
  match s with
  | EmptyString => false
  | String _ s' => contains sub s'
  end.

(** [s.lstrip()], [s.rstrip()], [s.strip()] *)
Fixpoint lstrip (s : string) : string :=
  match s with
  | EmptyString => EmptyString
  | String c s' => if is_space c then lstrip s' else s
  end.

Fixpoint rstrip (s : string) : string :=
  match s with
  | EmptyString => EmptyString
  | String c s' =>
      match rstrip s' with
      | EmptyString => if is_space c then EmptyString else String c EmptyString
      | r => String c r
      end
  end.

Definition strip (s : string) : string := rstrip (lstrip s).

(** [s.split(sep)] for a non-empty [sep]: the pieces between the leftmost
    non-overlapping occurrences of [sep].  [skip] counts the characters of a
    matched separator that are still to be dropped, [cur] is the piece being
    collected. *)
Fixpoint split_from (sep : string) (skip : nat) (cur s : string) : list string :=
  match s with
  | EmptyString => [cur]
  | String c s' =>
      match skip with
      | S k => split_from sep k cur s'
      | O =>
          if prefix sep s
          then cur :: split_from sep (String.length sep - 1) EmptyString s'
          else split_from sep O (snoc cur c) s'
      end
  end.

Definition split (sep s : string) : list string := split_from sep O EmptyString s.

(** [s.splitlines()] *)
Fixpoint splitlines_from (cur s : string) : list string :=
  match s with
  | EmptyString =>
      match cur with EmptyString => [] | _ => [cur] end
  | String c s' =>
      if (code c =? 13)%N then
        match s' with
        | String c' s'' =>
            if (code c' =? 10)%N
            then cur :: splitlines_from EmptyString s''
            else cur :: splitlines_from EmptyString s'
        | EmptyString => [cur]
        end
      else if is_linebreak c then cur :: splitlines_from EmptyString s'
      else splitlines_from (snoc cur c) s'
  end.

Definition splitlines (s : string) : list string := splitlines_from EmptyString s.

(** [str(n)] for an [int] *)
Definition str_of_int (n : Z) : string := NilZero.string_of_int (Z.to_int n).

(** [s[:n]] *)
Definition take (n : nat) (s : string) : string := substring 0 n s.

(** ["".join(l)] *)
Definition join (l : list string) : string := String.concat "" l.

End PyStr.

(** ** Python floats: binary64

    A [float] is a binary64 number as the Standard Library specifies it
    ([SpecFloat], precision 53, largest exponent 1024): signed zeros,
    infinities, one NaN, and [(-1)^s * m * 2^e].  The arithmetic is the
    library's, rounding to nearest with ties to even after every operation.
    Comparisons and [math.floor] go by the number a float stands for; on
    valid floats that order is the library's [SFcompare]. *)

Module PyFloat.
Import PyStr SpecFloat.

Definition float : Type := spec_float.

Definition prec : Z := 53.
Definition emax : Z := 1024.

Definition add : float -> float -> float := SFadd prec emax.
Definition sub : float -> float -> float := SFsub prec emax.
Definition mul : float -> float -> float := SFmul prec emax.

Definition quotient : float -> float -> float := SFdiv prec emax.

(** [x / y]: a zero divisor raises. *)
Definition div (x y : float) : result float :=
  match y with
  | S754_zero _ => Raise ZeroDivisionError
  | _ => Ok (quotient x y)
  end.

(** The float nearest to an integer; an infinity when the integer is out
    of range. *)
Definition nearest (n : Z) : float := binary_normalize prec emax n 0 false.

(** [float(n)] for an [int]. *)
Definition of_int (n : Z) : result float :=
  match nearest n with
  | S754_infinity _ => Raise OverflowError
  | x => Ok x
  end.

(** The float nearest to [(-1)^neg * mant * 10^k], for [mant >= 0]. *)
Definition of_decimal (neg : bool) (mant k : Z) : float :=
  match mant with
  | Zpos m =>
      match k with
      | Zneg p =>
          quotient (S754_finite neg m 0) (S754_finite false (Pos.pow 10 p) 0)
      | _ => binary_round prec emax neg (m * Z.to_pos (10 ^ k)) 0
      end
  | _ => S754_zero neg
  end.

(** The number a finite float stands for; [0] for the others. *)
Definition to_Q (x : float) : Q :=
  match x with
  | S754_finite s m e =>
      let n := if s then Zneg m else Zpos m in
      match e with
      | Zneg p => n # (2 ^ p)
      | _ => inject_Z (n * 2 ^ e)
      end
  | _ => 0
  end.

(** The numerator of the number over [2 ^ 1074], where the exponent is at
    least [-1074]. *)
Definition scaled (x : float) : Z :=
  match x with
  | S754_finite s m e => (if s then Z.neg m else Z.pos m) * 2 ^ (e + 1074)
  | _ => 0
  end.

(** The order of floats: NaN is not comparable, the zeros are equal. *)
Definition compare (x y : float) : option comparison :=
  match x, y with
  | S754_nan, _ | _, S754_nan => None
  | S754_infinity s1, S754_infinity s2 =>
      Some match s1, s2 with
           | true, false => Lt
           | false, true => Gt
           | _, _ => Eq
           end
  | S754_infinity s, _ => Some (if s then Lt else Gt)
  | _, S754_infinity s => Some (if s then Gt else Lt)
  | _, _ => Some (to_Q x ?= to_Q y)%Q
  end.

(** [x < y] and [x <= y] *)
Definition ltb (x y : float) : bool :=
  match compare x y with
  | Some Lt => true
  | _ => false
  end.

Definition leb (x y : float) : bool :=
  match compare x y with
  | Some (Lt | Eq) => true
  | _ => false
  end.

(** [int(math.floor(x))] *)
Definition floor (x : float) : result Z :=
  match x with
  | S754_nan => Raise ValueError
  | S754_infinity _ => Raise OverflowError
  | _ => Ok (Qfloor (to_Q x))
  end.

(** The white space [float] and [int] allow around a number, restricted
    to code points below 256. *)
Definition is_blank (c : ascii) : bool :=
  let n := code c in
  ((9 <=? n) && (n <=? 13) || (n =? 32) || (n =? 133) || (n =? 160))%N.

Fixpoint ltrim (s : string) : string :=
  match s with
  | EmptyString => EmptyString
  | String c s' => if is_blank c then ltrim s' else s
  end.

Fixpoint rtrim (s : string) : string :=
  match s with
  | EmptyString => EmptyString
  | String c s' =>
      match rtrim s' with
      | EmptyString => if is_blank c then EmptyString else String c EmptyString
      | r => String c r
      end
  end.

Definition trim (s : string) : string := rtrim (ltrim s).

(** The rest of a [digitpart ::= digit (["_"] digit)*] whose first digits
    have value [acc]; [n] counts the digits read. *)
Fixpoint digits_from (acc : Z) (n : nat) (s : string) : Z * nat * string :=
  match s with
  | String c s' =>
      if is_digit c then digits_from (10 * acc + digit_value c) (S n) s'
      else if (code c =? 95)%N then
        match s' with
        | String c' s'' =>
            if is_digit c'
            then digits_from (10 * acc + digit_value c') (S n) s''
            else (acc, n, s)
        | EmptyString => (acc, n, s)
        end
      else (acc, n, s)
  | EmptyString => (acc, n, s)
  end.

Definition digitpart (acc : Z) (s : string) : option (Z * nat * string) :=
  match s with
  | String c s' =>
      if is_digit c then Some (digits_from (10 * acc + digit_value c) 1 s')
      else None
  | EmptyString => None
  end.

(** [exponent ::= ("e" | "E") ["+" | "-"] digitpart], optional. *)
Definition exponent (s : string) : option (Z * string) :=
  match s with
  | String c s' =>
      if (code c =? 101)%N || (code c =? 69)%N then
        let '(neg, t) :=
          match s' with
          | String "+"%char t => (false, t)
          | String "-"%char t => (true, t)
          | _ => (false, s')
          end in
        match digitpart 0 t with
        | Some (v, _, rest) => Some (if neg then - v else v, rest)
        | None => None
        end
      else Some (0, s)
  | EmptyString => Some (0, s)
  end.

(** Mantissa [mant] with [fn] fraction digits, then the exponent: the
    mantissa and the power of ten. *)
Definition finish (mant : Z) (fn : nat) (rest : string) : option (Z * Z) :=
  match exponent rest with
  | Some (e, EmptyString) => Some (mant, e - Z.of_nat fn)
  | _ => None
  end.

(** [floatnumber ::= digitpart ["." [digitpart]] [exponent]
                   | "." digitpart [exponent]] *)
Definition floatnumber (s : string) : option (Z * Z) :=
  match s with
  | String "."%char s' =>
      match digitpart 0 s' with
      | Some (f, fn, rest) => finish f fn rest
      | None => None
      end
  | _ =>
      match digitpart 0 s with
      | Some (i, _, String "."%char rest) =>
          match digitpart i rest with
          | Some (m, fn, rest') => finish m fn rest'
          | None => finish i 0 rest
          end
      | Some (i, _, rest) => finish i 0 rest
      | None => None
      end
  end.

(** ASCII letters in lower case, as the names [inf] and [nan] are read. *)
Definition fold_case (c : ascii) : ascii :=
  let n := code c in
  if ((65 <=? n) && (n <=? 90))%N then ascii_of_N (n + 32) else c.

Fixpoint folded (s : string) : string :=
  match s with
  | EmptyString => EmptyString
  | String c s' => String (fold_case c) (folded s')
  end.

(** [float(s)]: surrounding white space, an optional sign, then a decimal
    literal, [inf], [infinity] or [nan].  A literal is rounded to the
    nearest float: too large it gives an infinity, too small a zero.
    Anything else raises [ValueError]. *)
Definition float_of_string (s : string) : result float :=
  let t := trim s in
  let '(neg, u) :=
    match t with
    | String "+"%char u => (false, u)
    | String "-"%char u => (true, u)
    | _ => (false, t)
    end in
  if (folded u =? "inf")%string || (folded u =? "infinity")%string
  then Ok (S754_infinity neg)
  else if (folded u =? "nan")%string then Ok S754_nan
  else
    match floatnumber u with
    | Some (mant, k) => Ok (of_decimal neg mant k)
    | None => Raise ValueError
    end.

End PyFloat.

(** ** The outside world *)

(** [subprocess.CompletedProcess], as far as the program reads it. *)
Record completed : Type := {
  returncode : Z;
  stdout : string;
  stderr : string
}.

(** What the reader thread meets on the diagnostic stream of a child, which
    is decoded strictly: a line of text, or bytes that do not decode, at
    which the iteration raises. *)
Inductive piece : Type :=
| Text (line : string)
| Undecodable.

(** What a child started with [subprocess.Popen] does before it exits: what
    it writes to its diagnostic stream, its exit code, and the files it
    leaves behind.  Only a child that exits is represented: one that blocks
    for ever on a full pipe (its standard output is a pipe that nobody
    reads, its diagnostics are no longer read once the reader thread has
    died) is not. *)
Record child : Type := {
  diagnostics : list piece;
  exit_code : Z;
  created : list string
}.

(** The lines read before the first decoding error. *)
Fixpoint readable (ps : list piece) : list string :=
  match ps with
  | Text line :: rest => line :: readable rest
  | _ => []
  end.

(** What the reader thread appends to [stderr_lines] before it ends: at the
    end of the stream, or at the first decoding error, where the thread
    dies. *)
Definition stderr_lines (proc : child) : list string := readable (diagnostics proc).

(** Attempts to start a process: through [subprocess.run] or through
    [subprocess.Popen]. *)
Inductive event : Type :=
| Run (cmd : list string)
| Popen (cmd : list string).

(** The oracles: module globals, and how the operating system answers.
    Every command line of one conversion is issued once, so an answer depends
    on the command line only.  [glob_other] answers [glob.glob] for the
    patterns that are not interpreted here, given the files on disk.
    [fmt_fixed2] and [fmt_float] stand for [f"{x:.2f}"] and [f"{x}"] on
    floats. *)
Record env : Type := {
  FFMPEG_PATH : string;
  FFPROBE_PATH : string;
  os_name : string;
  which : string -> bool;
  subprocess_run : list string -> result completed;
  spawn : list string -> result child;
  mktemp : result string;
  remove_ok : string -> bool;
  glob_other : string -> list string -> list string;
  fmt_fixed2 : PyFloat.float -> string;
  fmt_float : PyFloat.float -> string
}.

(** The mutable outside: the files on disk, the processes started so far
    (oldest first), and the lines handed to the progress callback. *)
Record world : Type := {
  files : list string;
  trace : list event;
  sink : list string
}.

Definition with_files (fs : list string) (w : world) : world :=
  {| files := fs; trace := trace w; sink := sink w |}.

Definition log_event (e : event) (w : world) : world :=
  {| files := files w; trace := (trace w ++ [e])%list; sink := sink w |}.

(** The caller's [on_line]: it sees a line and updates what the caller
    shows.  Only a callback that returns is represented, not one that
    raises. *)
Definition callback : Type := string -> list string -> list string.

Definition deliver (on_line : option callback) (line : string) (w : world) : world :=
  match on_line with
  | Some f => {| files := files w; trace := trace w; sink := f line (sink w) |}
  | None => w
  end.

(** ** Computations that read and change the world and may raise *)

Definition M (A : Type) : Type := world -> result A * world.

Definition ret {A} (a : A) : M A := fun w => (Ok a, w).

Definition raise {A} (e : exn) : M A := fun w => (Raise e, w).

Definition bind {A B} (c : M A) (k : A -> M B) : M B :=
  fun w =>
    match c w with
    | (Ok a, w') => k a w'
    | (Raise e, w') => (Raise e, w')
    end.

Definition lift {A} (r : result A) : M A := fun w => (r, w).

(** [try: c  except Exception: h] *)
Definition try_except {A} (c h : M A) : M A :=
  fun w =>
    match c w with
    | (Ok a, w') => (Ok a, w')
    | (Raise _, w') => h w'
    end.

Declare Scope py_scope.
Delimit Scope py_scope with py.
Notation "x <- c ;; k" := (bind c (fun x => k))
  (at level 100, c at next level, right associativity) : py_scope.
Notation "c ;;; k" := (bind c (fun _ => k))
  (at level 100, right associativity) : py_scope.
Open Scope py_scope.

Definition bind_result {A B} (r : result A) (k : A -> result B) : result B :=
  match r with
  | Ok a => k a
  | Raise e => Raise e
  end.

(** [subprocess.run(cmd, stdout=PIPE, stderr=PIPE, text=True)] *)
Definition run_process (E : env) (cmd : list string) : M completed :=
  fun w => (subprocess_run E cmd, log_event (Run cmd) w).

(** [on_line(line)] under [if on_line:] *)
Definition emit (on_line : option callback) (line : string) : M unit :=
  fun w => (Ok tt, deliver on_line line w).

(** ** Text constants *)

Definition LF : string := String (ascii_of_nat 10) "".
Definition o_acute : string := String (ascii_of_nat 243) "".
Definition n_tilde : string := String (ascii_of_nat 241) "".

(** ** The program *)

Import PyStr.

(** *** [run_command_show_progress] (lines 82-105)

    The reader thread appends each line it reads to [stderr_lines] and
    hands it to [on_line], until the stream ends or a decoding error kills
    the thread; the caller waits for the child and for the reader.  Only
    [FileNotFoundError] is caught at the launch. *)

Definition not_found_msg (E : env) : string :=
  "No se encontr" ++ o_acute ++ " ffmpeg en la ruta: " ++ FFMPEG_PATH E.

Definition reader (on_line : option callback) (lines : list string) (w : world) : world :=
  fold_left (fun w' line => deliver on_line line w') lines w.

Definition run_command_show_progress (E : env) (cmd : list string)
    (on_line : option callback) : M (Z * string) :=
  fun w =>
    let w := log_event (Popen cmd) w in
    match spawn E cmd with
    | Raise FileNotFoundError => (Raise (RuntimeError (not_found_msg E)), w)
    | Raise e => (Raise e, w)
    | Ok proc =>
        let w := reader on_line (stderr_lines proc) w in
        let w := with_files (files w ++ created proc)%list w in
        (Ok (exit_code proc, join (stderr_lines proc)), w)
    end.

(** *** [build_ffmpeg_command] (lines 114-128) *)

Definition build_ffmpeg_command (E : env) (input_path output_path : string)
    (reencode : bool) (crf : Z) (preset : string) (faststart : bool) : list string :=
  let cmd := [FFMPEG_PATH E; "-y"; "-i"; input_path] in
  let cmd :=
    if reencode then
      let cmd := (cmd ++ ["-c:v"; "libx264"; "-preset"; preset; "-crf"; str_of_int crf])%list in
      let cmd := (cmd ++ ["-pix_fmt"; "yuv420p"])%list in
      (cmd ++ ["-c:a"; "aac"; "-b:a"; "128k"])%list
    else
      (cmd ++ ["-c"; "copy"])%list in
  let cmd := if faststart then (cmd ++ ["-movflags"; "+faststart"])%list else cmd in
  (cmd ++ [output_path])%list.

(** *** [get_media_duration] (lines 132-168) *)

Definition ffprobe_cmd (E : env) (input_path : string) : list string :=
  [FFPROBE_PATH E; "-v"; "error"; "-show_entries"; "format=duration";
   "-of"; "default=noprint_wrappers=1:nokey=1"; input_path].

Definition ffmpeg_info_cmd (E : env) (input_path : string) : list string :=
  [FFMPEG_PATH E; "-i"; input_path].

(** Lines 159-162, the body of the inner [try]. *)
Definition parse_duration_line (line : string) : result PyFloat.float :=
  match nth_error (split "Duration:" line) 1 with
  | None => Raise IndexError
  | Some after =>
      match nth_error (split "," after) 0 with
      | None => Raise IndexError
      | Some field =>
          let part := strip field in
          match split ":" part with
          | [h; m; s] =>
              bind_result (PyFloat.float_of_string h) (fun fh =>
              bind_result (PyFloat.float_of_string m) (fun fm =>
              bind_result (PyFloat.float_of_string s) (fun fs =>
              Ok (PyFloat.add
                    (PyFloat.add (PyFloat.mul fh (PyFloat.nearest 3600))
                                 (PyFloat.mul fm (PyFloat.nearest 60)))
                    fs))))
          | _ => Raise ValueError
          end
      end
  end.

(** Lines 155-164, the [for] loop: [Some d] is [return d], [None] is
    falling out of the loop. *)
Fixpoint scan_duration (lines : list string) : option PyFloat.float :=
  match lines with
  | [] => None
  | line :: rest =>
      if contains "Duration:" line then
        match parse_duration_line line with
        | Ok seconds => Some seconds
        | Raise _ => scan_duration rest
        end
      else scan_duration rest
  end.

(** Lines 139-149: [Some d] is [return d], [None] is falling through to the
    fallback. *)
Definition probe_structured (E : env) (input_path : string)
    : M (option PyFloat.float) :=
  if which E (FFPROBE_PATH E) then
    try_except
      (proc <- run_process E (ffprobe_cmd E input_path) ;;
       if (returncode proc =? 0) && negb (strip (stdout proc) =? "")%string then
         try_except
           (d <- lift (PyFloat.float_of_string (strip (stdout proc))) ;;
            ret (Some d))
           (ret None)
       else ret None)
      (ret None)
  else ret None.

(** Lines 152-166. *)
Definition probe_textual (E : env) (input_path : string)
    : M (option PyFloat.float) :=
  try_except
    (proc <- run_process E (ffmpeg_info_cmd E input_path) ;;
     let out := stderr proc in
     ret (scan_duration (splitlines out)))
    (ret None).

Definition get_media_duration (E : env) (input_path : string)
    : M (option PyFloat.float) :=
  r <- probe_structured E input_path ;;
  match r with
  | Some d => ret (Some d)
  | None => probe_textual E input_path
  end.

(** *** [convert_to_target_size] (lines 172-240) *)

Definition no_duration_msg : string :=
  "No se pudo determinar la duraci" ++ o_acute
  ++ "n del archivo; no se puede calcular bitrate para tama" ++ n_tilde
  ++ "o objetivo.".

(** Lines 179-180. *)
Definition require_duration (duration : option PyFloat.float)
    : result PyFloat.float :=
  match duration with
  | None => Raise (RuntimeError no_duration_msg)
  | Some d =>
      if PyFloat.leb d (PyFloat.nearest 0)
      then Raise (RuntimeError no_duration_msg)
      else Ok d
  end.

(** Lines 185-194: [(video_bitrate_k, audio_bitrate_k)].  [float] of an
    [int] out of range raises [OverflowError]; [math.floor] raises it for an
    infinity and [ValueError] for NaN. *)
Definition bitrate_budget (target_mb duration : PyFloat.float) (audio_bitrate_k : Z)
    : result (Z * Z) :=
  let kilobits_total := PyFloat.mul target_mb (PyFloat.nearest 8192) in
  bind_result (PyFloat.div kilobits_total duration) (fun kbps_total =>
  bind_result (PyFloat.of_int audio_bitrate_k) (fun audio_kbps =>
  let video_kbps := PyFloat.sub kbps_total audio_kbps in
  let video_kbps :=
    if PyFloat.ltb video_kbps (PyFloat.nearest 100)
    then PyFloat.nearest 100 else video_kbps in
  bind_result (PyFloat.floor video_kbps) (fun video_bitrate_k =>
  Ok (video_bitrate_k, audio_bitrate_k)))).

(** The value of [video_kbps] at line 189, for a duration that is not zero
    and the float [audio_kbps] of the audio bitrate. *)
Definition video_kbps (target_mb duration audio_kbps : PyFloat.float) : PyFloat.float :=
  PyFloat.sub
    (PyFloat.quotient (PyFloat.mul target_mb (PyFloat.nearest 8192)) duration)
    audio_kbps.

(** A float that is a zero or a number; a number above zero. *)
Definition is_number (x : PyFloat.float) : bool :=
  match x with
  | SpecFloat.S754_zero _ | SpecFloat.S754_finite _ _ _ => true
  | _ => false
  end.

Definition positive_number (x : PyFloat.float) : Prop :=
  exists m e, x = SpecFloat.S754_finite false m e.

(** The duration guard followed by the budget: what the specification calls
    [BitrateAllocator.allocate]. *)
Definition allocate (target_mb : PyFloat.float) (duration : option PyFloat.float)
    (audio_bitrate_k : Z) : result (Z * Z) :=
  bind_result (require_duration duration) (fun d =>
  bitrate_budget target_mb d audio_bitrate_k).

Definition devnull (E : env) : string :=
  if (os_name E =? "nt")%string then "NUL" else "/dev/null".

(** [tempfile.NamedTemporaryFile(delete=False).name]: the file is created
    and stays. *)
Definition named_temporary_file (E : env) : M string :=
  fun w =>
    match mktemp E with
    | Ok p => (Ok p, with_files (p :: files w) w)
    | Raise e => (Raise e, w)
    end.

Definition kbits (n : Z) : string := str_of_int n ++ "k".

(** The command of line 216; the list built at line 202 is overwritten
    before it is used. *)
Definition pass1_cmd (E : env) (input_path passlog : string) (video_bitrate_k : Z)
    (preset : string) : list string :=
  [FFMPEG_PATH E; "-y"; "-i"; input_path; "-passlogfile"; passlog;
   "-c:v"; "libx264"; "-b:v"; kbits video_bitrate_k; "-preset"; preset;
   "-pass"; "1"; "-an"; "-f"; "mp4"; devnull E].

Definition pass2_cmd (E : env) (input_path output_path passlog : string)
    (video_bitrate_k audio_bitrate_k : Z) (preset : string) : list string :=
  [FFMPEG_PATH E; "-y"; "-i"; input_path; "-passlogfile"; passlog;
   "-c:v"; "libx264"; "-b:v"; kbits video_bitrate_k; "-preset"; preset;
   "-pass"; "2"; "-c:a"; "aac"; "-b:a"; kbits audio_bitrate_k;
   "-movflags"; "+faststart"; output_path].

Definition summary_line (E : env) (duration target_mb : PyFloat.float)
    (video_bitrate_k audio_bitrate_k : Z) : string :=
  "Two-pass: duraci" ++ o_acute ++ "n " ++ fmt_fixed2 E duration
  ++ "s, objetivo " ++ fmt_float E target_mb ++ "MB -> video "
  ++ kbits video_bitrate_k ++ ", audio " ++ kbits audio_bitrate_k ++ LF.

Definition pass1_failed_msg (rc : Z) (stderr : string) : string :=
  "Pase 1 de two-pass fall" ++ o_acute ++ " (c" ++ o_acute ++ "digo "
  ++ str_of_int rc ++ "). Salida:" ++ LF ++ take 2000 stderr.

(** [glob.has_magic] *)
Definition has_magic (s : string) : bool :=
  contains "*" s || contains "?" s || contains "[" s.

(** The last component of [stem] is empty. *)
Definition open_dir (stem : string) : bool :=
  match String.length stem with
  | O => true
  | S n => (substring n 1 stem =? "/")%string
  end.

(** [glob.glob(passlog + "*")].  The name is not escaped, so a pattern
    character in it is read as a pattern; and on Windows names match without
    regard to case.  Those answers are left to [glob_other].  Otherwise the
    star is the only pattern, and the matches are the entries of the
    directory of [passlog] whose name continues its last component: with a
    file known by one path, the files [passlog ++ rest] with no separator in
    [rest].  After an empty last component the pattern is a bare star, which
    does not match a name that starts with a dot. *)
Definition matches_star (stem f : string) : bool :=
  let rest := substring (String.length stem) (String.length f) f in
  prefix stem f && negb (contains "/" rest)
  && (negb (open_dir stem) || negb (rest =? "")%string && negb (prefix "." rest)).

Definition glob_star (E : env) (stem : string) (fs : list string) : list string :=
  if has_magic stem || (os_name E =? "nt")%string
  then glob_other E (stem ++ "*") fs
  else filter (matches_star stem) fs.

(** Lines 231-238: every removal is tried, a failed one is passed over. *)
Definition remove_passlogs (E : env) (passlog : string) : M unit :=
  fun w =>
    let fs :=
      fold_left
        (fun fs f =>
           if remove_ok E f then filter (fun g => negb (g =? f)%string) fs else fs)
        (glob_star E passlog (files w)) (files w) in
    (Ok tt, with_files fs w).

(** Lines 216-240: the two passes and the removal of the pass logs. *)
Definition two_pass_encode (E : env) (input_path output_path passlog : string)
    (video_bitrate_k audio_bitrate_k : Z) (preset : string)
    (on_line : option callback) : M (Z * string) :=
  r1 <- run_command_show_progress E
          (pass1_cmd E input_path passlog video_bitrate_k preset) on_line ;;
  let '(rc, stderr) := r1 in
  if negb (rc =? 0) then raise (RuntimeError (pass1_failed_msg rc stderr))
  else
    emit on_line ("Ejecutando pase 2..." ++ LF) ;;;
    r2 <- run_command_show_progress E
            (pass2_cmd E input_path output_path passlog
               video_bitrate_k audio_bitrate_k preset) on_line ;;
    remove_passlogs E passlog ;;;
    ret r2.

Definition convert_to_target_size (E : env) (input_path output_path : string)
    (target_mb : PyFloat.float) (preset : string) (audio_bitrate_k : Z)
    (on_line : option callback) : M (Z * string) :=
  duration <- get_media_duration E input_path ;;
  duration <- lift (require_duration duration) ;;
  budget <- lift (bitrate_budget target_mb duration audio_bitrate_k) ;;
  let '(video_bitrate_k, audio_bitrate_k) := budget in
  passlog <- named_temporary_file E ;;
  emit on_line (summary_line E duration target_mb video_bitrate_k audio_bitrate_k) ;;;
  emit on_line ("Ejecutando pase 1..." ++ LF) ;;;
  try_except (run_process E ["-passlogfile"] ;;; ret tt) (ret tt) ;;;
  two_pass_encode E input_path output_path passlog
    video_bitrate_k audio_bitrate_k preset on_line.

(** ** Shapes of text used in the statements *)

Fixpoint all_chars (p : ascii -> bool) (s : string) : bool :=
  match s with
  | EmptyString => true
  | String c s' => p c && all_chars p s'
  end.

(** [c] does not occur in [s]. *)
Definition lacks (c : ascii) (s : string) : bool :=
  all_chars (fun x => negb (Ascii.eqb x c)) s.

(** A non-empty run of digits and dots: a field of [H:MM:SS.ss]. *)
Definition numeric_char (c : ascii) : bool := is_digit c || (code c =? 46)%N.

Definition numeric (s : string) : bool :=
  negb (s =? "")%string && all_chars numeric_char s.

(** A diagnostic line with a duration field: [ind] before the label, white
    space [sp] after it, the three fields, and whatever follows the comma. *)
Definition hms_line (ind sp H M S rest : string) : string :=
  ind ++ "Duration:" ++ sp ++ H ++ ":" ++ M ++ ":" ++ S ++ "," ++ rest.

(** ** Ways the duration queries go wrong *)

(** The structured query gives nothing: [ffprobe] is not found, cannot be
    run, exits non-zero, prints nothing, or prints no number. *)
Definition structured_query_fails (E : env) (input_path : string) : Prop :=
  which E (FFPROBE_PATH E) = false \/
  match subprocess_run E (ffprobe_cmd E input_path) with
  | Raise _ => True
  | Ok proc =>
      returncode proc <> 0 \/ strip (stdout proc) = "" \/
      is_ok (PyFloat.float_of_string (strip (stdout proc))) = false
  end.

(** The textual fallback gives nothing: [ffmpeg -i] cannot be run, or none
    of its diagnostic lines with the label parses. *)
Definition textual_fallback_fails (E : env) (input_path : string) : Prop :=
  match subprocess_run E (ffmpeg_info_cmd E input_path) with
  | Raise _ => True
  | Ok proc =>
      forall line, In line (splitlines (stderr proc)) ->
        contains "Duration:" line = true ->
        is_ok (parse_duration_line line) = false
  end.

(** The two process starts that belong to the duration query. *)
Definition is_probe (E : env) (input_path : string) (e : event) : Prop :=
  e = Run (ffprobe_cmd E input_path) \/ e = Run (ffmpeg_info_cmd E input_path).

(** ** Encoder options named in the statements *)

(** The options of the encoder that set a quality, a bitrate or a preset. *)
Definition quality_bitrate_flags : list string :=
  ["-crf"; "-qp"; "-q"; "-q:v"; "-q:a"; "-qscale"; "-b"; "-b:v"; "-b:a";
   "-maxrate"; "-minrate"; "-bufsize"; "-preset"].

(** The words that ask for a stream copy: the codec option without a stream
    and the codec name [copy]. *)
Definition stream_copy_flags : list string := ["-c"; "-codec"; "copy"].

(** The world after the duration query has started [probes]. *)
Definition after_probes (probes : list event) (w : world) : world :=
  {| files := files w; trace := (trace w ++ probes)%list; sink := sink w |}.

(** The world in which pass 1 is started: the temporary file exists, the
    two announcements went to the callback, and the attempt of line 212 to
    run a program called [-passlogfile] is on record. *)
Definition before_pass1 (E : env) (on_line : option callback)
    (duration target_mb : PyFloat.float) (video_bitrate_k audio_bitrate_k : Z)
    (passlog : string) (w : world) : world :=
  log_event (Run ["-passlogfile"])
    (deliver on_line ("Ejecutando pase 1..." ++ LF)
       (deliver on_line
          (summary_line E duration target_mb video_bitrate_k audio_bitrate_k)
          (with_files (passlog :: files w) w))).

(** The failure of a run names all of the diagnostic text [diag]. *)
Definition carries_diagnostics (r : result (Z * string)) (diag : string) : Prop :=
  exists msg, r = Raise (RuntimeError msg) /\ contains diag msg = true.

(** ** Sample machines *)

Module Sample.

Definition source : string := "/videos/clip.mkv".
Definition target : string := "/videos/clip.mp4".
Definition passlog : string := "/tmp/tmpk3x9qv_a".

(** A POSIX machine with both binaries installed.  [probe] is the answer of
    [ffprobe], [info] the answer of [ffmpeg -i], [pass1] and [pass2] what
    the encoder does in each pass.  The float formats are right for the
    integral values the samples use. *)
Definition machine (probe info : result completed) (pass1 pass2 : result child)
    (removable : string -> bool) : env :=
  {| FFMPEG_PATH := "/usr/bin/ffmpeg";
     FFPROBE_PATH := "/usr/bin/ffprobe";
     os_name := "posix";
     which := fun _ => true;
     subprocess_run := fun cmd =>
       match cmd with
       | prog :: _ =>
           if (prog =? "/usr/bin/ffprobe")%string then probe
           else if (prog =? "/usr/bin/ffmpeg")%string then info
           else Raise FileNotFoundError
       | [] => Raise IndexError
       end;
     spawn := fun cmd =>
       match nth_error cmd 13 with
       | Some n =>
           if (n =? "1")%string then pass1
           else if (n =? "2")%string then pass2
           else Raise FileNotFoundError
       | None => Raise FileNotFoundError
       end;
     mktemp := Ok passlog;
     remove_ok := removable;
     glob_other := fun _ _ => [];
     fmt_fixed2 := fun x => str_of_int (Qfloor (PyFloat.to_Q x)) ++ ".00";
     fmt_float := fun x => str_of_int (Qfloor (PyFloat.to_Q x)) ++ ".0" |}.

Definition blank : world := {| files := []; trace := []; sink := [] |}.

Definition exited (rc : Z) (out err : string) : result completed :=
  Ok {| returncode := rc; stdout := out; stderr := err |}.

Definition no_such_file : string :=
  "/videos/clip.mkv: No such file or directory" ++ LF.

(** What [ffmpeg -i] prints about a clip of 1 min 23.45 s. *)
Definition info_text : string :=
  "Input #0, matroska,webm, from '/videos/clip.mkv':" ++ LF
  ++ "  Duration: 00:01:23.45, start: 0.000000, bitrate: 1205 kb/s" ++ LF
  ++ "At least one output file must be specified" ++ LF.

Definition encoder_exit (rc : Z) (lines made : list string) : result child :=
  Ok {| diagnostics := map Text lines; exit_code := rc; created := made |}.

Definition progress : list string :=
  ["frame=  100 fps= 50 q=28.0 size=N/A time=00:00:04.00" ++ LF;
   "frame= 1500 fps= 52 q=28.0 size=N/A time=00:01:00.00" ++ LF].

(** More than 2000 characters of diagnostics; the reason comes last. *)
Definition long_diagnostics : list string :=
  (repeat ("ffmpeg version 6.1 Copyright (c) 2000-2023 the FFmpeg developers" ++ LF)%string 40
   ++ [("Error while opening encoder for output stream #0:0" ++ LF)%string])%list.

(** A clip of 60 s on a machine whose encoder behaves as [pass1] and
    [pass2]. *)
Definition studio (pass1 pass2 : result child) (removable : string -> bool) : env :=
  machine (exited 0 ("60.000000" ++ LF) "") (Raise OSError) pass1 pass2 removable.

Definition keep_all : callback := fun line seen => (seen ++ [line])%list.

End Sample.

(** * More of the program, and what the statements about it need *)

(** ** Quantities of a run *)

(** What the callback has seen after [lines] were handed to it in order. *)
Definition feed (on_line : option callback) (lines seen : list string) : list string :=
  fold_left
    (fun seen line => match on_line with Some f => f line seen | None => seen end)
    lines seen.

(** The files left by the removal loop of lines 231-238 run on [fs]. *)
Definition surviving (E : env) (passlog : string) (fs : list string) : list string :=
  fold_left
    (fun fs f =>
       if remove_ok E f then filter (fun g => negb (g =? f)%string) fs else fs)
    (glob_star E passlog fs) fs.

(** The exception that leaves [run_command_show_progress] when the launch
    raised [e]. *)
Definition launch_error (E : env) (e : exn) : exn :=
  match e with
  | FileNotFoundError => RuntimeError (not_found_msg E)
  | _ => e
  end.

(** ** More sample machines *)

Module Desk.

(** The encoder writes its log in pass 1 and the result in pass 2. *)
Definition pass_log : string := "/tmp/tmpk3x9qv_a-0.log".

Definition encodes (rc1 rc2 : Z) (removable : string -> bool) : env :=
  Sample.studio
    (Sample.encoder_exit rc1 Sample.progress [pass_log])
    (Sample.encoder_exit rc2 Sample.progress [Sample.target])
    removable.

(** A disk that already holds the source and another temporary file. *)
Definition disk : world :=
  {| files := [Sample.source; "/tmp/tmpzz81_other"]; trace := []; sink := [] |}.

(** [ffprobe] answers 83.45 s; [ffprobe] fails and [ffmpeg -i] describes
    the clip. *)
Definition probe_answers : env :=
  Sample.machine (Sample.exited 0 ("83.450000" ++ LF) "")
    (Sample.exited 1 "" Sample.info_text)
    (Raise OSError) (Raise OSError) (fun _ => true).

Definition probe_fails : env :=
  Sample.machine (Sample.exited 1 "" Sample.no_such_file)
    (Sample.exited 1 "" Sample.info_text)
    (Raise OSError) (Raise OSError) (fun _ => true).

End Desk.

(** The number of occurrences of [c] in [s]. *)
Fixpoint count_char (c : ascii) (s : string) : nat :=
  match s with
  | EmptyString => O
  | String x s' => (if Ascii.eqb x c then 1 else 0) + count_char c s'
  end.

(** ** [check_ffmpeg] (lines 38-49) *)

Definition version_cmd (E : env) : list string := [FFMPEG_PATH E; "-version"].

(** Line 45: the first line of the standard output if there is any output,
    of the diagnostic output otherwise; [IndexError] when there is no
    line. *)
Definition first_line (proc : completed) : result string :=
  let lines :=
    if negb (stdout proc =? "")%string
    then splitlines (stdout proc)
    else splitlines (stderr proc) in
  match nth_error lines 0 with
  | Some line => Ok line
  | None => Raise IndexError
  end.

Definition check_ffmpeg (E : env) : M (bool * option string) :=
  if (FFMPEG_PATH E =? "ffmpeg")%string && negb (which E "ffmpeg")
  then ret (false, None)
  else
    try_except
      (proc <- run_process E (version_cmd E) ;;
       if returncode proc =? 0 then
         line <- lift (first_line proc) ;;
         ret (true, Some line)
       else ret (false, None))
      (ret (false, None)).

(** ** [ensure_parent_dir] (lines 108-111) *)

(** What the program asks of [os] and [os.path]. *)
Record host : Type := {
  isfile : string -> bool;
  dirname : string -> string;
  path_exists : string -> bool;
  makedirs : string -> result unit
}.

Definition ensure_parent_dir (H : host) (path : string) : result unit :=
  let parent := dirname H path in
  if negb (parent =? "")%string && negb (path_exists H parent)
  then makedirs H parent
  else Ok tt.

(** ** [int] of a string *)

(** [int(s)]: surrounding white space, an optional sign, decimal digits
    with single underscores between them, at most 4300 digits (the default
    of [sys.int_info.default_max_str_digits]).  Anything else raises
    [ValueError]. *)
Definition int_of_string (s : string) : result Z :=
  let digits t :=
    match PyFloat.digitpart 0 t with
    | Some (v, n, EmptyString) => if (n <=? 4300)%nat then Some v else None
    | _ => None
    end in
  let r :=
    match PyFloat.trim s with
    | String "+"%char t => digits t
    | String "-"%char t => option_map Z.opp (digits t)
    | t => digits t
    end in
  match r with
  | Some n => Ok n
  | None => Raise ValueError
  end.

(** ** [ConverterGUI.start_conversion] (lines 474-548) *)

Definition a_acute : string := String (ascii_of_nat 225) "".

(** What the window is asked to do: the dialogs of [messagebox], the calls
    of [log_write], the emptying of the log, and the two ways in which
    [convert_btn.configure] is called.  [ShowException e] is
    [showerror("Error", str(e))]; [ButtonState b] is the call with the
    keyword [state] of line 495; [ButtonConfigure cnf] is the call of lines
    510, 527 and 546 with the dictionary [cnf] as its one positional
    argument. *)
Inductive ui_event : Type :=
| ShowWarning (title msg : string)
| ShowError (title msg : string)
| ShowInfo (title msg : string)
| ShowException (e : exn)
| LogWrite (text : string)
| LogClear
| ButtonState (enabled : bool)
| ButtonConfigure (cnf : list (string * string)).

(** The state of the Convert button once the window has served the
    requests [evs].  The button is a [CTkButton], whose
    [configure(require_redraw=False, **kwargs)] reads its options from the
    keywords: a dictionary passed by position is taken for [require_redraw]
    and sets nothing. *)
Definition button_after (evs : list ui_event) (enabled : bool) : bool :=
  fold_left
    (fun b e => match e with ButtonState b' => b' | _ => b end)
    evs enabled.

(** The outside and the requests made to the window so far, oldest first:
    those made directly and those queued with [root.after(0, ...)], in the
    order made. *)
Record gui : Type := {
  outside : world;
  screen : list ui_event
}.

Definition post (e : ui_event) (g : gui) : gui :=
  {| outside := outside g; screen := (screen g ++ [e])%list |}.

(** [on_line] of line 498 queues [log_write(line)]. *)
Definition gui_on_line : callback := fun line seen => (seen ++ [line])%list.

(** A call into the engine from the window: the lines the engine hands to
    [gui_on_line] join the requests as [LogWrite]s, in order. *)
Definition quiet (w : world) : world :=
  {| files := files w; trace := trace w; sink := [] |}.

Definition engine {A} (c : M A) (g : gui) : result A * gui :=
  let w := outside g in
  let '(r, w') := c (quiet w) in
  (r, {| outside := {| files := files w'; trace := trace w'; sink := sink w |};
         screen := (screen g ++ map LogWrite (sink w'))%list |}).

(** The fields of the form. *)
Record form : Type := {
  src_var : string;
  dst_var : string;
  reencode_var : bool;
  crf_var : string;
  preset_var : string;
  compress_mb_var : string;
  vbr_k_var : string;
  ab_k_var : string
}.

(** The command of line 529. *)
Definition fixed_bitrate_cmd (E : env) (src dst : string) (vb_k ab_k : Z)
    (preset : string) : list string :=
  [FFMPEG_PATH E; "-y"; "-i"; src; "-c:v"; "libx264"; "-b:v"; kbits vb_k;
   "-preset"; preset; "-c:a"; "aac"; "-b:a"; kbits ab_k;
   "-movflags"; "+faststart"; dst].

Definition done_msg : string :=
  "Conversi" ++ o_acute ++ "n finalizada correctamente.".

Definition exit_msg (rc : Z) : string :=
  "ffmpeg finaliz" ++ o_acute ++ " con c" ++ o_acute ++ "digo " ++ str_of_int rc.

(** Lines 514-519 and 537-542. *)
Definition report_events (rc : Z) : list ui_event :=
  if rc =? 0 then [LogWrite (LF ++ done_msg ++ LF); ShowInfo "Listo" done_msg]
  else [LogWrite (LF ++ exit_msg rc ++ LF);
        ShowError "Error" (exit_msg rc ++ ". Revisa el log.")].

Definition report (rc : Z) (g : gui) : gui :=
  if rc =? 0 then
    post (ShowInfo "Listo" done_msg) (post (LogWrite (LF ++ done_msg ++ LF)) g)
  else
    post (ShowError "Error" (exit_msg rc ++ ". Revisa el log."))
      (post (LogWrite (LF ++ exit_msg rc ++ LF)) g).

(** Lines 522-534: the command of the single-pass modes, or [None] when the
    bitrates do not parse. *)
Definition single_pass_cmd (E : env) (src dst : string) (reencode : bool) (crf : Z)
    (preset vbr_k ab_k : string) : option (list string) :=
  if negb (vbr_k =? "")%string then
    match bind_result (int_of_string vbr_k) (fun vb_k =>
          bind_result (int_of_string ab_k) (fun ab_k_int => Ok (vb_k, ab_k_int))) with
    | Ok (vb_k, ab_k_int) => Some (fixed_bitrate_cmd E src dst vb_k ab_k_int preset)
    | Raise _ => None
    end
  else if reencode then Some (build_ffmpeg_command E src dst true crf preset true)
  else Some (build_ffmpeg_command E src dst false 23 "medium" true).

(** Lines 504-543, the body of the [try] of [worker]. *)
Definition worker_try (E : env) (src dst : string) (reencode : bool) (crf : Z)
    (preset compress_mb vbr_k ab_k : string) (g : gui) : result unit * gui :=
  if negb (compress_mb =? "")%string then
    match bind_result (PyFloat.float_of_string compress_mb) (fun target_mb =>
          bind_result (int_of_string ab_k) (fun audio_bitrate_k =>
          Ok (target_mb, audio_bitrate_k))) with
    | Raise _ =>
        (Ok tt,
         post (ButtonConfigure [("state", "normal")])
           (post (ShowError "Error"
                    ("Valores de compresi" ++ o_acute ++ "n inv" ++ a_acute ++ "lidos."))
              g))
    | Ok (target_mb, audio_bitrate_k) =>
        let g :=
          post (LogWrite ("Comprimir a ~" ++ fmt_float E target_mb ++ " MB (audio "
                          ++ str_of_int audio_bitrate_k ++ " kbps)" ++ LF)) g in
        match engine (convert_to_target_size E src dst target_mb preset
                        audio_bitrate_k (Some gui_on_line)) g with
        | (Ok (rc, _), g) => (Ok tt, report rc g)
        | (Raise e, g) => (Raise e, g)
        end
    end
  else
    match single_pass_cmd E src dst reencode crf preset vbr_k ab_k with
    | None =>
        (Ok tt,
         post (ButtonConfigure [("state", "normal")])
           (post (ShowError "Error" ("Bitrates inv" ++ a_acute ++ "lidos.")) g))
    | Some cmd =>
        let g :=
          post (LogWrite ("Ejecutando: " ++ String.concat " " cmd ++ LF ++ LF)) g in
        match engine (run_command_show_progress E cmd (Some gui_on_line)) g with
        | (Ok (rc, _), g) => (Ok tt, report rc g)
        | (Raise e, g) => (Raise e, g)
        end
    end.

(** Lines 501-548: [ensure_parent_dir] stands before the [try]; whatever
    the [try] raises is shown, and [configure] is called last. *)
Definition worker (E : env) (H : host) (src dst : string) (reencode : bool)
    (crf : Z) (preset compress_mb vbr_k ab_k : string) (g : gui)
    : result unit * gui :=
  match ensure_parent_dir H dst with
  | Raise e => (Raise e, g)
  | Ok _ =>
      let '(r, g) := worker_try E src dst reencode crf preset compress_mb vbr_k ab_k g in
      let g := match r with
               | Raise e => post (ShowException e) g
               | Ok _ => g
               end in
      (Ok tt, post (ButtonConfigure [("state", "normal")]) g)
  end.

(** Lines 474-548.  The worker runs on a thread of its own: what it raises
    ends that thread and does not reach the caller. *)
Definition start_conversion (E : env) (H : host) (f : form) (g : gui)
    : result unit * gui :=
  let src := strip (src_var f) in
  let dst := strip (dst_var f) in
  if (src =? "")%string || negb (isfile H src) then
    (Ok tt,
     post (ShowWarning "Advertencia"
             ("Selecciona un archivo de origen v" ++ a_acute ++ "lido.")) g)
  else if (dst =? "")%string then
    (Ok tt, post (ShowWarning "Advertencia" "Selecciona un destino.") g)
  else
    match engine (check_ffmpeg E) g with
    | (Raise e, g) => (Raise e, g)
    | (Ok (ok, _), g) =>
        if negb ok then
          (Ok tt,
           post (ShowError "ffmpeg no encontrado"
                   ("No se encontr" ++ o_acute ++ " ffmpeg. Inst" ++ a_acute
                    ++ "lalo y vuelve a intentar.")) g)
        else
          let reencode := reencode_var f in
          match int_of_string (crf_var f) with
          | Raise e => (Raise e, g)
          | Ok crf =>
              let preset := preset_var f in
              let compress_mb := strip (compress_mb_var f) in
              let vbr_k := strip (vbr_k_var f) in
              let ab_k :=
                if (strip (ab_k_var f) =? "")%string then "128"
                else strip (ab_k_var f) in
              let g := post (ButtonState false) g in
              let g := post LogClear g in
              let '(_, g) :=
                worker E H src dst reencode crf preset compress_mb vbr_k ab_k g in
              (Ok tt, g)
          end
    end.

(** A request that sets the state of the Convert button. *)
Definition sets_state (e : ui_event) : bool :=
  match e with
  | ButtonState _ => true
  | _ => false
  end.

(** The requests of [g'] continue those of [g] with requests that do not
    set the state of the button. *)
Definition continues_idly (g g' : gui) : Prop :=
  exists evs,
    screen g' = (screen g ++ evs)%list
    /\ Forall (fun e => sets_state e = false) evs.

(** The audio field as [start_conversion] reads it (line 494). *)
Definition audio_field (f : form) : string :=
  if (strip (ab_k_var f) =? "")%string then "128" else strip (ab_k_var f).

(** The checks of lines 477-490 pass. *)
Definition form_ready (E : env) (H : host) (f : form) (w : world) : Prop :=
  strip (src_var f) <> ""%string
  /\ isfile H (strip (src_var f)) = true
  /\ strip (dst_var f) <> ""%string
  /\ (exists ver, fst (check_ffmpeg E w) = Ok (true, ver))
  /\ is_ok (int_of_string (crf_var f)) = true.

(** The numbers of the mode the form selects parse. *)
Definition mode_fields_parse (f : form) : Prop :=
  (strip (compress_mb_var f) <> ""%string ->
   is_ok (PyFloat.float_of_string (strip (compress_mb_var f))) = true
   /\ is_ok (int_of_string (audio_field f)) = true)
  /\ (strip (compress_mb_var f) = ""%string ->
      strip (vbr_k_var f) <> ""%string ->
      is_ok (int_of_string (strip (vbr_k_var f))) = true
      /\ is_ok (int_of_string (audio_field f)) = true).

(** ** A sample desk *)

Module Bench.

(** Both binaries installed; the clip lasts 60 s; [ffmpeg -version] prints
    a banner. *)
Definition two_pass (pass1 pass2 : result child) : env :=
  Sample.machine (Sample.exited 0 ("60.000000" ++ LF) "")
    (Sample.exited 0 ("ffmpeg version 6.1" ++ LF) "") pass1 pass2 (fun _ => true).

(** The same machine when every encode behaves as [outcome]. *)
Definition single_pass (outcome : result child) : env :=
  {| FFMPEG_PATH := "/usr/bin/ffmpeg";
     FFPROBE_PATH := "/usr/bin/ffprobe";
     os_name := "posix";
     which := fun _ => true;
     subprocess_run := fun _ => Sample.exited 0 ("ffmpeg version 6.1" ++ LF) "";
     spawn := fun _ => outcome;
     mktemp := Ok Sample.passlog;
     remove_ok := fun _ => true;
     glob_other := fun _ _ => [];
     fmt_fixed2 := fun x => str_of_int (Qfloor (PyFloat.to_Q x)) ++ ".00";
     fmt_float := fun x => str_of_int (Qfloor (PyFloat.to_Q x)) ++ ".0" |}.

(** The folder of the output exists; it is missing and cannot be made. *)
Definition folders : host :=
  {| isfile := fun p => (p =? Sample.source)%string;
     dirname := fun _ => "/videos";
     path_exists := fun _ => true;
     makedirs := fun _ => Ok tt |}.

Definition read_only : host :=
  {| isfile := fun p => (p =? Sample.source)%string;
     dirname := fun _ => "/videos/new";
     path_exists := fun _ => false;
     makedirs := fun _ => Raise OSError |}.

Definition window : gui := {| outside := Desk.disk; screen := [] |}.

Definition fields (crf compress_mb vbr_k : string) (reencode : bool) : form :=
  {| src_var := Sample.source;
     dst_var := Sample.target;
     reencode_var := reencode;
     crf_var := crf;
     preset_var := "medium";
     compress_mb_var := compress_mb;
     vbr_k_var := vbr_k;
     ab_k_var := "" |}.

End Bench.

(** ** [cli_interactive] (lines 244-390) *)

Definition i_acute : string := String (ascii_of_nat 237) "".
Definition inverted_question : string := String (ascii_of_nat 191) "".

(** [s.lower()] on code points below 256. *)
Definition lower_char (c : ascii) : ascii :=
  let n := code c in
  if ((65 <=? n) && (n <=? 90)
      || (192 <=? n) && (n <=? 222) && negb (n =? 215))%N
  then ascii_of_N (n + 32)
  else c.

Fixpoint lower (s : string) : string :=
  match s with
  | EmptyString => EmptyString
  | String c s' => String (lower_char c) (lower s')
  end.

(** What the program asks of the terminal session besides [os]: whether
    the dialogs can be used, what the [n]-th call of each dialog gives, the
    variable [USERPROFILE], and three functions of [os.path]
    ([splitext_root p] is [os.path.splitext(p)[0]]). *)
Record shell : Type := {
  TK_AVAILABLE : bool;
  open_file_dialog : nat -> result string;
  save_file_dialog : nat -> result string;
  userprofile : option string;
  basename : string -> string;
  splitext_root : string -> string;
  path_join : string -> string -> string
}.

(** What is written to the standard output: [Print t] is [print(t)],
    [PrintExn t e] is [print] of [t] followed by [str(e)], [Prompt t] is the
    prompt of [input(t)], [Write t] is [sys.stdout.write(t)]. *)
Inductive out_event : Type :=
| Print (text : string)
| PrintExn (text : string) (e : exn)
| Prompt (text : string)
| Write (text : string).

(** The outside, the output so far, and how often each dialog was
    opened. *)
Record console : Type := {
  room : world;
  shown : list out_event;
  opened : nat;
  saved : nat
}.

Definition say (e : out_event) (c : console) : console :=
  {| room := room c; shown := (shown c ++ [e])%list;
     opened := opened c; saved := saved c |}.

(** What leaves [cli_interactive]: the [EOFError] of an [input] at the end
    of the input, or an exception of the engine. *)
Inductive cli_exn : Type :=
| EOFError
| Uncaught (e : exn).

(** The answer of a question that is repeated until understood. *)
Inductive asked (A : Type) : Type :=
| Got (a : A)
| Quit
| Eof.

Arguments Got {A} a.
Arguments Quit {A}.
Arguments Eof {A}.

Inductive compress_mode : Type :=
| SizeMode
| BitrateMode
| NoCompression.

(** The callbacks of lines 329-331, 352 and 385 write the line. *)
Definition cli_on_line : callback := fun line seen => (seen ++ [line])%list.

(** A call into the engine from the terminal session: the lines handed to
    [cli_on_line] are written to the output, in order. *)
Definition cli_engine {A} (m : M A) (c : console) : result A * console :=
  let w := room c in
  let '(r, w') := m (quiet w) in
  (r, {| room := {| files := files w'; trace := trace w'; sink := sink w |};
         shown := (shown c ++ map Write (sink w'))%list;
         opened := opened c; saved := saved c |}).

(** [input(prompt).strip()]: the prompt is written, then a line is read;
    [None] at the end of the input. *)
Definition read (prompt : string) (lines : list string) (c : console)
    : option string * list string * console :=
  match lines with
  | [] => (None, [], say (Prompt prompt) c)
  | l :: rest => (Some (strip l), rest, say (Prompt prompt) c)
  end.

(** Lines 253-274. *)
Fixpoint ask_source (Sh : shell) (H : host) (lines : list string) (c : console)
    : asked string * list string * console :=
  match lines with
  | [] =>
      (Eof, [], say (Prompt "Ruta del archivo de origen o 'browse' para dialog: ") c)
  | l :: rest =>
      let c := say (Prompt "Ruta del archivo de origen o 'browse' para dialog: ") c in
      let inp := strip l in
      if (lower inp =? "browse")%string then
        if TK_AVAILABLE Sh then
          match open_file_dialog Sh (opened c) with
          | Ok path =>
              let c := {| room := room c; shown := shown c;
                          opened := S (opened c); saved := saved c |} in
              if negb (path =? "")%string
              then (Got path, rest, say (Print ("Archivo seleccionado: " ++ path)) c)
              else ask_source Sh H rest
                     (say (Print ("No se seleccion" ++ o_acute ++ " archivo.")) c)
          | Raise e =>
              let c := {| room := room c; shown := shown c;
                          opened := S (opened c); saved := saved c |} in
              ask_source Sh H rest
                (say (PrintExn ("Error al abrir di" ++ a_acute ++ "logo: ") e) c)
          end
        else
          ask_source Sh H rest
            (say (Print ("Tkinter no disponible para abrir di" ++ a_acute ++ "logo.")) c)
      else if (lower inp =? "exit")%string then
        (Quit, rest, say (Print "Saliendo...") c)
      else if isfile H inp then (Got inp, rest, c)
      else
        ask_source Sh H rest (say (Print "Archivo no encontrado. Intenta de nuevo.") c)
  end.

Definition output_prompt (default_output_path : string) : string :=
  "Ruta de salida [enter para usar '" ++ default_output_path
  ++ "'] ('browse' para dialog): ".

(** Lines 280-300. *)
Fixpoint ask_output (Sh : shell) (default_output_path : string)
    (lines : list string) (c : console) : asked string * list string * console :=
  match lines with
  | [] => (Eof, [], say (Prompt (output_prompt default_output_path)) c)
  | l :: rest =>
      let c := say (Prompt (output_prompt default_output_path)) c in
      let out := strip l in
      let again output_path c :=
        if negb (output_path =? "")%string then (Got output_path, rest, c)
        else ask_output Sh default_output_path rest c in
      if (out =? "")%string then again default_output_path c
      else if (lower out =? "browse")%string then
        if TK_AVAILABLE Sh then
          match save_file_dialog Sh (saved c) with
          | Ok path =>
              let c := {| room := room c; shown := shown c;
                          opened := opened c; saved := S (saved c) |} in
              if negb (path =? "")%string
              then (Got path, rest,
                    say (Print ("Archivo se guardar" ++ a_acute ++ " en: " ++ path)) c)
              else ask_output Sh default_output_path rest
                     (say (Print ("No se seleccion" ++ o_acute ++ " ubicaci"
                                  ++ o_acute ++ "n.")) c)
          | Raise e =>
              let c := {| room := room c; shown := shown c;
                          opened := opened c; saved := S (saved c) |} in
              ask_output Sh default_output_path rest
                (say (PrintExn ("Error al abrir di" ++ a_acute ++ "logo: ") e) c)
          end
        else
          ask_output Sh default_output_path rest
            (say (Print ("Tkinter no disponible para abrir di" ++ a_acute ++ "logo.")) c)
      else again out c
  end.

Definition tamano : string := "tama" ++ n_tilde ++ "o".

Definition mode_prompt : string :=
  inverted_question ++ "Quieres comprimir a " ++ tamano
  ++ " objetivo (MB), usar bitrate (kbps) o no comprimir? (" ++ tamano
  ++ "/bitrate/no) [no]: ".

Definition member (s : string) (l : list string) : bool :=
  existsb (String.eqb s) l.

(** Lines 303-316. *)
Fixpoint ask_mode (lines : list string) (c : console)
    : asked compress_mode * list string * console :=
  match lines with
  | [] => (Eof, [], say (Prompt mode_prompt) c)
  | l :: rest =>
      let c := say (Prompt mode_prompt) c in
      let choice := if (lower (strip l) =? "")%string then "no" else lower (strip l) in
      if member choice [tamano; "tamano"; "size"; "t"; tamano; "tamanio"; "size_mb"; tamano]
      then (Got SizeMode, rest, c)
      else if member choice ["bitrate"; "b"; "br"] then (Got BitrateMode, rest, c)
      else if member choice ["no"; "n"; "none"; ""] then (Got NoCompression, rest, c)
      else
        ask_mode rest
          (say (Print ("Respuesta no entendida. Escribe '" ++ tamano
                       ++ "', 'bitrate' o 'no'.")) c)
  end.

Definition reencode_prompt : string :=
  "Re-encode a H.264+AAC o intentar remux (copiar streams) si es posible? "
  ++ "(reencode/remux) [reencode]: ".

(** Lines 360-368. *)
Fixpoint ask_reencode (lines : list string) (c : console)
    : asked bool * list string * console :=
  match lines with
  | [] => (Eof, [], say (Prompt reencode_prompt) c)
  | l :: rest =>
      let c := say (Prompt reencode_prompt) c in
      let choice2 :=
        if (lower (strip l) =? "")%string then "reencode" else lower (strip l) in
      if member choice2 ["reencode"; "r"; "encode"] then (Got true, rest, c)
      else if member choice2 ["remux"; "copy"] then (Got false, rest, c)
      else ask_reencode rest (say (Print "Respuesta no entendida.") c)
  end.

(** [print("\nConversión finalizada correctamente.")] or
    [print("\nffmpeg finalizó con código:", rc)]. *)
Definition cli_verdict (rc : Z) (c : console) : console :=
  if rc =? 0 then say (Print (LF ++ done_msg)) c
  else say (Print (LF ++ "ffmpeg finaliz" ++ o_acute ++ " con c" ++ o_acute
                   ++ "digo: " ++ str_of_int rc)) c.

Definition invalid_values : out_event :=
  Print ("Valores inv" ++ a_acute ++ "lidos. Cancelando.").

(** A command run outside any [try]: what the launch raises leaves
    [cli_interactive]. *)
Definition cli_run (E : env) (cmd : list string) (lines : list string) (c : console)
    : option cli_exn * list string * console :=
  match cli_engine (run_command_show_progress E cmd (Some cli_on_line)) c with
  | (Ok (rc, _), c) => (None, lines, cli_verdict rc c)
  | (Raise e, c) => (Some (Uncaught e), lines, c)
  end.

(** Lines 320-337. *)
Definition cli_size_mode (E : env) (input_path output_path : string)
    (lines : list string) (c : console)
    : option cli_exn * list string * console :=
  let cancel lines c := (None, lines, say invalid_values c) in
  match read ("Tama" ++ n_tilde ++ "o objetivo en MB (por ejemplo 10.5): ") lines c with
  | (None, lines, c) => cancel lines c
  | (Some mb_in, lines, c) =>
      match PyFloat.float_of_string mb_in with
      | Raise _ => cancel lines c
      | Ok target_mb =>
          match read "Bitrate de audio en kbps [128]: " lines c with
          | (None, lines, c) => cancel lines c
          | (Some a, lines, c) =>
              let audio_bitrate := if (a =? "")%string then "128" else a in
              match int_of_string audio_bitrate with
              | Raise _ => cancel lines c
              | Ok audio_bitrate_k =>
                  let c :=
                    say (Print ("Intentando comprimir a ~" ++ fmt_float E target_mb
                                ++ " MB (audio " ++ str_of_int audio_bitrate_k
                                ++ " kbps). Esto usar" ++ a_acute
                                ++ " codificaci" ++ o_acute ++ "n two-pass.")) c in
                  match cli_engine
                          (convert_to_target_size E input_path output_path target_mb
                             "medium" audio_bitrate_k (Some cli_on_line)) c with
                  | (Ok (rc, _), c) => (None, lines, cli_verdict rc c)
                  | (Raise e, c) =>
                      (None, lines,
                       say (PrintExn ("Error durante conversi" ++ o_acute ++ "n: ") e) c)
                  end
              end
          end
      end
  end.

(** Lines 338-356. *)
Definition cli_bitrate_mode (E : env) (input_path output_path : string)
    (lines : list string) (c : console)
    : option cli_exn * list string * console :=
  let cancel lines c := (None, lines, say invalid_values c) in
  match read ("Bitrate de v" ++ i_acute ++ "deo en kbps (ej. 1000) [1500]: ") lines c with
  | (None, lines, c) => cancel lines c
  | (Some v, lines, c) =>
      let vb := if (v =? "")%string then "1500" else v in
      match int_of_string vb with
      | Raise _ => cancel lines c
      | Ok vb_k =>
          match read "Bitrate de audio en kbps [128]: " lines c with
          | (None, lines, c) => cancel lines c
          | (Some a, lines, c) =>
              let audio_bitrate := if (a =? "")%string then "128" else a in
              match int_of_string audio_bitrate with
              | Raise _ => cancel lines c
              | Ok ab_k =>
                  let c :=
                    say (Print ("Codificando con video " ++ str_of_int vb_k
                                ++ " kbps, audio " ++ str_of_int ab_k
                                ++ " kbps (single-pass).")) c in
                  let cmd := fixed_bitrate_cmd E input_path output_path vb_k ab_k "medium" in
                  let c := say (Print ("Ejecutando ffmpeg: " ++ String.concat " " cmd)) c in
                  cli_run E cmd lines c
              end
          end
      end
  end.

(** Lines 357-390. *)
Definition cli_no_compression (E : env) (input_path output_path : string)
    (lines : list string) (c : console)
    : option cli_exn * list string * console :=
  match ask_reencode lines c with
  | (Eof, lines, c) | (Quit, lines, c) => (Some EOFError, lines, c)
  | (Got reencode, lines, c) =>
      let run cmd lines c :=
        let c := say (Print "Ejecutando ffmpeg:") c in
        let c := say (Print (String.concat " " cmd)) c in
        cli_run E cmd lines c in
      if reencode then
        let '(crf, lines, c) :=
          match read "CRF (calidad) para H.264 (18 mejor, 23 por defecto): " lines c with
          | (None, lines, c) => (23, lines, c)
          | (Some crf_in, lines, c) =>
              if negb (crf_in =? "")%string then
                match int_of_string crf_in with
                | Ok n => (n, lines, c)
                | Raise _ => (23, lines, c)
                end
              else (23, lines, c)
          end in
        match read "Preset x264 [medium]: " lines c with
        | (None, lines, c) => (Some EOFError, lines, c)
        | (Some preset_in, lines, c) =>
            let preset := if negb (preset_in =? "")%string then preset_in else "medium" in
            run (build_ffmpeg_command E input_path output_path true crf preset true)
              lines c
        end
      else
        run (build_ffmpeg_command E input_path output_path false 23 "medium" true)
          lines c
  end.

Definition not_available : out_event :=
  Print ("ERROR: ffmpeg no est" ++ a_acute ++ " disponible en PATH. Inst" ++ a_acute
         ++ "lalo y vuelve a intentarlo.").

(** Lines 244-390.  [None] is a normal return. *)
Definition cli_interactive (E : env) (Sh : shell) (H : host) (lines : list string)
    (c : console) : option cli_exn * list string * console :=
  match cli_engine (check_ffmpeg E) c with
  | (Raise e, c) => (Some (Uncaught e), lines, c)
  | (Ok (ok, ver), c) =>
      if negb ok then (None, lines, say not_available c)
      else
        let c := say (Print "Conversor a MP4 - modo CLI") c in
        let c :=
          say (Print ("ffmpeg detectado: "
                      ++ match ver with Some v => v | None => "None" end)) c in
        match ask_source Sh H lines c with
        | (Eof, lines, c) => (Some EOFError, lines, c)
        | (Quit, lines, c) => (None, lines, c)
        | (Got input_path, lines, c) =>
            let default_dest :=
              splitext_root Sh (basename Sh input_path) ++ ".mp4" in
            let videos_folder :=
              path_join Sh
                (match userprofile Sh with Some p => p | None => "." end) "Videos" in
            let default_output_path := path_join Sh videos_folder default_dest in
            let c :=
              say (Print ("El archivo se guardar" ++ a_acute ++ " en: "
                          ++ default_output_path)) c in
            match ask_output Sh default_output_path lines c with
            | (Eof, lines, c) | (Quit, lines, c) => (Some EOFError, lines, c)
            | (Got output_path, lines, c) =>
                match ask_mode lines c with
                | (Eof, lines, c) | (Quit, lines, c) => (Some EOFError, lines, c)
                | (Got compress_mode, lines, c) =>
                    match ensure_parent_dir H output_path with
                    | Raise e => (Some (Uncaught e), lines, c)
                    | Ok _ =>
                        match compress_mode with
                        | SizeMode =>
                            cli_size_mode E input_path output_path lines c
                        | BitrateMode =>
                            cli_bitrate_mode E input_path output_path lines c
                        | NoCompression =>
                            cli_no_compression E input_path output_path lines c
                        end
                    end
                end
            end
        end
  end.

(** An answer to the source question that is neither a command nor a
    file. *)
Definition not_a_source (H : host) (l : string) : Prop :=
  lower (strip l) <> "browse"%string
  /\ lower (strip l) <> "exit"%string
  /\ isfile H (strip l) = false.

Module Booth.

Definition terminal : shell :=
  {| TK_AVAILABLE := false;
     open_file_dialog := fun _ => Raise (RuntimeError "Tkinter no disponible");
     save_file_dialog := fun _ => Raise (RuntimeError "Tkinter no disponible");
     userprofile := None;
     basename := fun _ => "clip.mkv";
     splitext_root := fun _ => "clip";
     path_join := fun a b => a ++ "/" ++ b |}.

Definition session : console :=
  {| room := Desk.disk; shown := []; opened := 0; saved := 0 |}.

End Booth.

Definition source_prompt : out_event :=
  Prompt "Ruta del archivo de origen o 'browse' para dialog: ".

(** The session up to the first question, the encoder found. *)
Definition greeted (ver : option string) (started : list event) (c : console) : console :=
  say (Print ("ffmpeg detectado: " ++ match ver with Some v => v | None => "None" end))
    (say (Print "Conversor a MP4 - modo CLI")
       {| room := after_probes started (room c); shown := shown c;
          opened := opened c; saved := saved c |}).

(** * Properties *)

(** ** The string and float operations on samples *)

Example split_commas : PyStr.split "," "a,b,,c," = ["a"; "b"; ""; "c"; ""].
Proof. reflexivity. Qed.

Example split_word : PyStr.split "ab" "xabyababz" = ["x"; "y"; ""; "z"].
Proof. reflexivity. Qed.

Example split_no_separator : PyStr.split ":" "plain" = ["plain"].
Proof. reflexivity. Qed.

Example strip_both : PyStr.strip "  00:01:23.45 " = "00:01:23.45".
Proof. reflexivity. Qed.

Example str_of_int_samples :
  (PyStr.str_of_int 554, PyStr.str_of_int 0, PyStr.str_of_int (-1)) = ("554", "0", "-1").
Proof. reflexivity. Qed.

Example float_plain :
  PyFloat.float_of_string "83.450000"
  = Ok (SpecFloat.S754_finite false 5872271701626061 (-46)).
Proof. vm_compute. reflexivity. Qed.

Example float_rejects :
  map PyFloat.float_of_string
    [""; "N/A"; "1:2"; "1_"; "_1"; "1e"; "."; "+ 1"; "0x10"; "infin"; "in_f";
     String (ascii_of_nat 28) "1"]
  = map (fun _ => Raise ValueError) (seq 0 12).
Proof. vm_compute. reflexivity. Qed.

(** The model and the machine's binary64 agree on samples: the literals of
    [float], the budget of lines 185-189, the sum of line 161. *)
Module Binary64Samples.
Import PrimFloat.

#[local] Set Warnings "-inexact-float".

Example float_forms :
  map PyFloat.float_of_string
    [" 00 "; "23.45"; "1_0.5"; "-1"; "1e3"; "2.5E-1"; ".5"; "7."; "83.450000";
     "51.2"; "1e308"; "1e-400"; "5e-324"; "1e400"; "-inf"; "Infinity"; "nan"; "-0"]
  = map (fun x => Ok (FloatOps.Prim2SF x))
      [0; 23.45; 10.5; -1; 1000; 0.25; 0.5; 7; 83.45;
       51.2; 1e308; 0; 0x1p-1074; infinity; neg_infinity; infinity; nan; -0]%float.
Proof. vm_compute. reflexivity. Qed.

Example arithmetic_samples :
  FloatOps.Prim2SF (10 * 8192 / 51.2 - 128)%float
  = video_kbps (FloatOps.Prim2SF 10) (FloatOps.Prim2SF 51.2) (FloatOps.Prim2SF 128)
  /\ FloatOps.Prim2SF (0 * 3600 + 1 * 60 + 23.45)%float
     = PyFloat.add
         (PyFloat.add (PyFloat.mul (FloatOps.Prim2SF 0) (PyFloat.nearest 3600))
                      (PyFloat.mul (FloatOps.Prim2SF 1) (PyFloat.nearest 60)))
         (FloatOps.Prim2SF 23.45).
Proof. split; vm_compute; reflexivity. Qed.

End Binary64Samples.

Example int_of_string_samples :
  map int_of_string [" 23 "; "-7"; "+1_000"; "007"; "1e3"; "2.5"; ""; "1__0";
                     String (ascii_of_nat 28) "1"]
  = [Ok 23; Ok (-7); Ok 1000; Ok 7; Raise ValueError; Raise ValueError;
     Raise ValueError; Raise ValueError; Raise ValueError].
Proof. vm_compute. reflexivity. Qed.

Example int_of_string_digit_limit :
  is_ok (int_of_string (String.concat "" (repeat "7" 4300))) = true
  /\ int_of_string (String.concat "" (repeat "0" 4301)) = Raise ValueError.
Proof. split; vm_compute; reflexivity. Qed.

(** ** Facts about the string operations *)

Module PyStrFacts.

Lemma str_app_assoc (a b c : string) : ((a ++ b) ++ c = a ++ (b ++ c))%string.
Proof. induction a as [| x a IH]; simpl; [reflexivity | now rewrite IH]. Qed.

Lemma str_app_empty_r (a : string) : (a ++ "")%string = a.
Proof. induction a as [| x a IH]; simpl; [reflexivity | now rewrite IH]. Qed.

Lemma snoc_app (cur : string) (c : ascii) (s : string) :
  (snoc cur c ++ s = cur ++ String c s)%string.
Proof. unfold snoc. now rewrite str_app_assoc. Qed.

Lemma all_chars_app (p : ascii -> bool) (a b : string) :
  all_chars p (a ++ b) = all_chars p a && all_chars p b.
Proof.
  induction a as [| x a IH]; simpl; [reflexivity |].
  now rewrite IH, andb_assoc.
Qed.

Lemma all_chars_impl (p q : ascii -> bool) (s : string) :
  (forall c, p c = true -> q c = true) ->
  all_chars p s = true -> all_chars q s = true.
Proof.
  intros Hpq. induction s as [| x s IH]; simpl; [reflexivity |].
  intros H. apply andb_true_iff in H as [Hx Hs].
  now rewrite (Hpq _ Hx), IH.
Qed.

Lemma prefix_app (s t : string) : prefix s (s ++ t) = true.
Proof.
  induction s as [| x s IH]; simpl.
  - now destruct t.
  - destruct (ascii_dec x x); [exact IH | congruence].
Qed.

Lemma prefix_head_differs (c0 c : ascii) (sep s : string) :
  Ascii.eqb c c0 = false -> prefix (String c0 sep) (String c s) = false.
Proof.
  intros Hne. simpl. destruct (ascii_dec c0 c) as [-> |]; [| reflexivity].
  now rewrite Ascii.eqb_refl in Hne.
Qed.

(** *** [in] *)

Lemma contains_prefix (sub s : string) :
  prefix sub s = true -> contains sub s = true.
Proof. intros H. destruct s; cbn [contains]; now rewrite H. Qed.

Lemma contains_app (sub pre rest : string) :
  contains sub (pre ++ sub ++ rest) = true.
Proof.
  induction pre as [| x pre IH].
  - cbn [append]. apply contains_prefix, prefix_app.
  - change (String x pre ++ sub ++ rest)%string
      with (String x (pre ++ sub ++ rest)).
    cbn [contains]. rewrite IH. apply orb_true_r.
Qed.

(** *** [split] *)

Lemma split_from_skip (sep x cur rest : string) :
  split_from sep (String.length x) cur (x ++ rest) = split_from sep 0 cur rest.
Proof.
  induction x as [| c x IH]; simpl; [| exact IH].
  destruct rest; reflexivity.
Qed.

(** A piece that lacks the first character of the separator is collected
    whole. *)
Lemma split_from_lacks (c0 : ascii) (sep pre cur rest : string) :
  lacks c0 pre = true ->
  split_from (String c0 sep) 0 cur (pre ++ rest)
  = split_from (String c0 sep) 0 (cur ++ pre) rest.
Proof.
  revert cur. induction pre as [| c pre IH]; intros cur Hpre.
  - now rewrite str_app_empty_r.
  - simpl in Hpre. apply andb_true_iff in Hpre as [Hc Hpre].
    apply negb_true_iff in Hc.
    change (String c pre ++ rest)%string with (String c (pre ++ rest)).
    cbn [split_from]. rewrite (prefix_head_differs c0 c sep _ Hc).
    rewrite (IH _ Hpre). now rewrite snoc_app.
Qed.

Lemma split_from_at_sep (c0 : ascii) (sep cur rest : string) :
  split_from (String c0 sep) 0 cur (String c0 sep ++ rest)
  = cur :: split_from (String c0 sep) 0 "" rest.
Proof.
  change (String c0 sep ++ rest)%string with (String c0 (sep ++ rest)).
  cbn [split_from].
  change (String c0 (sep ++ rest)) with (String c0 sep ++ rest)%string.
  rewrite prefix_app. f_equal.
  cbn [String.length]. rewrite Nat.sub_succ, Nat.sub_0_r.
  apply split_from_skip.
Qed.

Lemma split_first (c0 : ascii) (sep pre rest : string) :
  lacks c0 pre = true ->
  split (String c0 sep) (pre ++ String c0 sep ++ rest)
  = pre :: split (String c0 sep) rest.
Proof.
  intros Hpre. unfold split.
  rewrite (split_from_lacks c0 sep pre "" _ Hpre).
  now rewrite split_from_at_sep.
Qed.

Lemma split_absent (c0 : ascii) (sep s : string) :
  lacks c0 s = true -> split (String c0 sep) s = [s].
Proof.
  intros Hs. unfold split.
  rewrite <- (str_app_empty_r s) at 1.
  rewrite (split_from_lacks c0 sep s "" "" Hs). reflexivity.
Qed.

(** The first piece of a split starts with what was collected so far. *)
Lemma split_from_head (sep s cur : string) :
  exists y tl, split_from sep 0 cur s = (cur ++ y)%string :: tl.
Proof.
  revert cur. induction s as [| c s IH]; intros cur.
  - exists ""%string, []. simpl. now rewrite str_app_empty_r.
  - cbn [split_from]. destruct (prefix sep (String c s)).
    + exists ""%string. eexists. now rewrite str_app_empty_r.
    + destruct (IH (snoc cur c)) as (y & tl & ->).
      exists (String c y), tl. now rewrite snoc_app.
Qed.

(** *** [strip] *)

Lemma lstrip_spaces (sp s : string) :
  all_chars is_space sp = true -> lstrip (sp ++ s) = lstrip s.
Proof.
  induction sp as [| c sp IH]; simpl; [reflexivity |].
  intros H. apply andb_true_iff in H as [-> Hsp]. now apply IH.
Qed.

Lemma lstrip_solid (c : ascii) (s : string) :
  is_space c = false -> lstrip (String c s) = String c s.
Proof. intros H. simpl. now rewrite H. Qed.

Lemma rstrip_solid (s : string) :
  all_chars (fun c => negb (is_space c)) s = true -> rstrip s = s.
Proof.
  induction s as [| c s IH]; simpl; [reflexivity |].
  intros H. apply andb_true_iff in H as [Hc Hs].
  rewrite (IH Hs). apply negb_true_iff in Hc. rewrite Hc. now destruct s.
Qed.

Lemma rstrip_app (a b : string) :
  rstrip b <> ""%string -> rstrip (a ++ b) = (a ++ rstrip b)%string.
Proof.
  intros Hb. induction a as [| c a IH]; simpl; [reflexivity |].
  rewrite IH. destruct (a ++ rstrip b)%string eqn:Heq; [| reflexivity].
  destruct a; simpl in Heq; [contradiction | discriminate].
Qed.

(** *** Characters of a numeric field *)

Lemma numeric_char_not_space (c : ascii) :
  numeric_char c = true -> negb (is_space c) = true.
Proof.
  unfold numeric_char, is_digit, is_space. intros H.
  apply negb_true_iff. destruct (code c) as [| p]; [discriminate |].
  apply orb_true_iff in H as [H | H].
  - apply andb_true_iff in H as [H1 H2].
    apply N.leb_le in H1, H2.
    repeat (apply orb_false_iff; split);
      try (apply andb_false_iff);
      try (left; apply N.leb_gt; lia);
      try (right; apply N.leb_gt; lia);
      try (apply N.eqb_neq; lia).
    all: first [ left; apply N.leb_gt; lia | right; apply N.leb_gt; lia ].
  - apply N.eqb_eq in H. rewrite H. reflexivity.
Qed.

Lemma numeric_char_differs (c0 c : ascii) :
  numeric_char c0 = false -> numeric_char c = true -> negb (Ascii.eqb c c0) = true.
Proof.
  intros H0 Hc. apply negb_true_iff. apply Ascii.eqb_neq. congruence.
Qed.

Lemma space_differs (c0 c : ascii) :
  is_space c0 = false -> is_space c = true -> negb (Ascii.eqb c c0) = true.
Proof.
  intros H0 Hc. apply negb_true_iff. apply Ascii.eqb_neq. congruence.
Qed.

Lemma numeric_lacks (c0 : ascii) (s : string) :
  numeric_char c0 = false -> numeric s = true -> lacks c0 s = true.
Proof.
  intros H0 Hs. unfold numeric in Hs. apply andb_true_iff in Hs as [_ Hs].
  unfold lacks. revert Hs. apply all_chars_impl.
  intros c. apply numeric_char_differs, H0.
Qed.

Lemma spaces_lack (c0 : ascii) (s : string) :
  is_space c0 = false -> all_chars is_space s = true -> lacks c0 s = true.
Proof.
  intros H0. unfold lacks. apply all_chars_impl.
  intros c. apply space_differs, H0.
Qed.

Lemma numeric_solid (s : string) :
  numeric s = true ->
  s <> ""%string /\ rstrip s = s /\ forall t, lstrip (s ++ t) = (s ++ t)%string.
Proof.
  intros Hs. unfold numeric in Hs. apply andb_true_iff in Hs as [Hne Hs].
  apply negb_true_iff, String.eqb_neq in Hne.
  assert (Hsolid : all_chars (fun c => negb (is_space c)) s = true).
  { revert Hs. apply all_chars_impl, numeric_char_not_space. }
  repeat split; [exact Hne | now apply rstrip_solid |].
  intros t. destruct s as [| c s]; [contradiction |].
  simpl in Hsolid. apply andb_true_iff in Hsolid as [Hc _].
  apply negb_true_iff in Hc. now apply lstrip_solid.
Qed.

End PyStrFacts.


(** ** Rounding *)

Module PyFloatFacts.

Import SpecFloat PyFloat.

Lemma shr_1_nonneg (mrs : shr_record) : 0 <= shr_m mrs -> 0 <= shr_m (shr_1 mrs).
Proof.
  destruct mrs as [m r s]. cbn [shr_m]. intros Hm.
  destruct m as [| [p | p |] | p]; cbn; lia.
Qed.

Lemma iter_shr_1_nonneg (p : positive) :
  forall mrs, 0 <= shr_m mrs -> 0 <= shr_m (iter_pos shr_1 p mrs).
Proof.
  induction p as [p IH | p IH |]; intros mrs Hm; cbn [iter_pos].
  - apply IH, IH, shr_1_nonneg, Hm.
  - apply IH, IH, Hm.
  - apply shr_1_nonneg, Hm.
Qed.

Lemma shr_fexp_nonneg (m e : Z) (l : location) :
  0 <= m -> 0 <= shr_m (fst (shr_fexp prec emax m e l)).
Proof.
  intros Hm. unfold shr_fexp, shr.
  assert (H0 : 0 <= shr_m (shr_record_of_loc m l)).
  { destruct l as [| []]; exact Hm. }
  destruct (fexp prec emax (Zdigits2 m + e) - e); cbn [fst]; try exact H0.
  now apply iter_shr_1_nonneg.
Qed.

Lemma round_nearest_even_nonneg (m : Z) (l : location) :
  0 <= m -> 0 <= round_nearest_even m l.
Proof.
  intros Hm. destruct l as [| []]; cbn; try lia.
  destruct (Z.even m); lia.
Qed.

(** Rounding a non-negative mantissa gives a zero, a number or an infinity
    of the sign asked for. *)
Lemma binary_round_aux_shape (s : bool) (m e : Z) (l : location) :
  0 <= m ->
  binary_round_aux prec emax s m e l = S754_zero s
  \/ binary_round_aux prec emax s m e l = S754_infinity s
  \/ exists m' e', binary_round_aux prec emax s m e l = S754_finite s m' e'.
Proof.
  intros Hm. unfold binary_round_aux.
  pose proof (shr_fexp_nonneg m e l Hm) as H1.
  destruct (shr_fexp prec emax m e l) as [mrs' e'] eqn:E1. cbn [fst] in H1.
  pose proof (shr_fexp_nonneg _ e' loc_Exact
                (round_nearest_even_nonneg _ (loc_of_shr_record mrs') H1)) as H2.
  destruct (shr_fexp prec emax
              (round_nearest_even (shr_m mrs') (loc_of_shr_record mrs')) e' loc_Exact)
    as [mrs'' e''] eqn:E2.
  cbn [fst] in H2.
  destruct (shr_m mrs'') as [| p | p].
  - now left.
  - destruct (e'' <=? emax - prec); [right; right; eauto | right; now left].
  - lia.
Qed.

Lemma binary_round_shape (s : bool) (m : positive) (e : Z) :
  binary_round prec emax s m e = S754_zero s
  \/ binary_round prec emax s m e = S754_infinity s
  \/ exists m' e', binary_round prec emax s m e = S754_finite s m' e'.
Proof.
  unfold binary_round.
  destruct (shl_align m e (fexp prec emax (Z.pos (digits2_pos m) + e))) as [mz ez].
  apply binary_round_aux_shape. lia.
Qed.


Lemma div_core_nonneg (m1 m2 : positive) (e1 e2 : Z) :
  0 <= fst (fst (SFdiv_core_binary prec emax (Z.pos m1) e1 (Z.pos m2) e2)).
Proof.
  unfold SFdiv_core_binary.
  set (m' := match _ - _ - _ with Z.pos _ => _ | 0 => _ | Z.neg _ => _ end).
  assert (Hm' : 0 <= m').
  { subst m'. destruct (_ - _ - _); try lia. apply Z.shiftl_nonneg. lia. }
  pose proof (Z.div_eucl_eq m' (Z.pos m2) ltac:(lia)) as Heq.
  pose proof (Z.mod_pos_bound m' (Z.pos m2) ltac:(lia)) as Hr.
  unfold Z.modulo in Hr.
  destruct (Z.div_eucl m' (Z.pos m2)) as [q r]. cbn [fst]. nia.
Qed.

Lemma mul_shape (m1 m2 : positive) (e1 e2 : Z) :
  let r := mul (S754_finite false m1 e1) (S754_finite false m2 e2) in
  r = S754_zero false \/ r = S754_infinity false \/ exists m e, r = S754_finite false m e.
Proof.
  cbv zeta. unfold mul, SFmul. cbn [xorb].
  apply binary_round_aux_shape. lia.
Qed.

Lemma quotient_shape (x : float) (m2 : positive) (e2 : Z) :
  x = S754_zero false \/ x = S754_infinity false \/ (exists m e, x = S754_finite false m e) ->
  let r := quotient x (S754_finite false m2 e2) in
  r = S754_zero false \/ r = S754_infinity false \/ exists m e, r = S754_finite false m e.
Proof.
  intros [-> | [-> | (m1 & e1 & ->)]]; cbv zeta; unfold quotient, SFdiv; cbn [xorb].
  - now left.
  - right; now left.
  - pose proof (div_core_nonneg m1 m2 e1 e2) as H.
    destruct (SFdiv_core_binary prec emax (Z.pos m1) e1 (Z.pos m2) e2) as [[mz ez] lz].
    cbn [fst] in H. now apply binary_round_aux_shape.
Qed.

Lemma nearest_number (n : Z) : nearest n <> S754_nan.
Proof.
  unfold nearest, binary_normalize.
  destruct n as [| p | p]; [discriminate | |];
    destruct (binary_round_shape false p 0) as [H | [H | (m & e & H)]];
    destruct (binary_round_shape true p 0) as [H' | [H' | (m' & e' & H')]];
    congruence.
Qed.

Lemma of_int_number (a : Z) (fa : float) : of_int a = Ok fa -> is_number fa = true.
Proof.
  unfold of_int. pose proof (nearest_number a) as Hn.
  destruct (nearest a); intros H; inversion H; subst; try reflexivity; congruence.
Qed.

Lemma sub_number (x y : float) :
  x <> S754_nan -> is_number y = true -> sub x y <> S754_nan.
Proof.
  intros Hx Hy. unfold sub, SFsub.
  destruct x as [sx | sx | | sx mx ex]; destruct y as [sy | sy | | sy my ey];
    try discriminate; try congruence.
  - destruct sx, sy; discriminate.
  - unfold binary_normalize.
    destruct (_ - _) as [| p | p]; [discriminate | |].
    + destruct (binary_round_shape false p (Z.min ex ey)) as [H | [H | (m & e & H)]];
        rewrite H; discriminate.
    + destruct (binary_round_shape true p (Z.min ex ey)) as [H | [H | (m & e & H)]];
        rewrite H; discriminate.
Qed.

Lemma to_Q_positive (m : positive) (e : Z) : (0 < to_Q (S754_finite false m e))%Q.
Proof.
  unfold to_Q. destruct e as [| p | p].
  - reflexivity.
  - assert (Hp : 0 < 2 ^ Z.pos p) by (apply Z.pow_pos_nonneg; lia).
    unfold Qlt, inject_Z. cbn [Qnum Qden]. nia.
  - reflexivity.
Qed.

Lemma leb_zero_positive (m : positive) (e : Z) :
  leb (S754_finite false m e) (nearest 0) = false.
Proof.
  unfold leb, compare. change (nearest 0) with (S754_zero false). cbv iota.
  pose proof (to_Q_positive m e) as H. apply Qgt_alt in H.
  change (to_Q (S754_zero false)) with 0%Q. now rewrite H.
Qed.

(** *** The order of floats *)


Lemma digits2_size (m : positive) : digits2_pos m = Pos.size m.
Proof. induction m as [m IH | m IH |]; cbn; now rewrite ?IH. Qed.

Lemma digits2_bounds (m : positive) :
  2 ^ (Z.pos (digits2_pos m) - 1) <= Z.pos m < 2 ^ Z.pos (digits2_pos m).
Proof.
  rewrite digits2_size. split.
  - pose proof (Pos.size_le m) as H.
    assert (H2 : 2 ^ Z.pos (Pos.size m) <= 2 * Z.pos m).
    { change (2 * Z.pos m) with (Z.pos m~0). rewrite <- Pos2Z.inj_pow. now apply Pos2Z.pos_le_pos. }
    replace (Z.pos (Pos.size m)) with (Z.pos (Pos.size m) - 1 + 1) in H2 by lia.
    rewrite Z.pow_add_r in H2 by lia. lia.
  - pose proof (Pos.size_gt m) as H.
    rewrite <- Pos2Z.inj_pow. now apply Pos2Z.pos_lt_pos.
Qed.

(** What [valid_binary] says of a mantissa and its exponent. *)
Lemma bounded_canonical (m : positive) (e : Z) :
  bounded prec emax m e = true ->
  -1074 <= e /\ Z.pos (digits2_pos m) <= 53
  /\ (-1074 < e -> Z.pos (digits2_pos m) = 53).
Proof.
  unfold bounded, canonical_mantissa, fexp, emin, prec, emax.
  intros H. apply andb_true_iff in H as [H _]. apply Z.eqb_eq in H. lia.
Qed.

Lemma to_Q_scaled (x : float) :
  valid_binary prec emax x = true ->
  (to_Q x == scaled x # (2 ^ 1074))%Q.
Proof.
  destruct x as [s | s | | s m e]; try reflexivity.
  cbn [valid_binary]. intros Hb. apply bounded_canonical in Hb as (He & _ & _).
  unfold to_Q, scaled. set (n := if s then Z.neg m else Z.pos m).
  unfold Qeq. destruct e as [| p | p]; cbn [Qnum Qden inject_Z].
  - rewrite Z.pow_0_r, Z.mul_1_r, Z.add_0_l. rewrite Pos2Z.inj_pow. lia.
  - rewrite Z.pow_add_r by lia. rewrite Pos2Z.inj_pow. lia.
  - rewrite !Pos2Z.inj_pow.
    replace (2 ^ 1074) with (2 ^ (Z.neg p + 1074) * 2 ^ Z.pos p).
    + lia.
    + rewrite <- Z.pow_add_r by lia. f_equal. lia.
Qed.

Lemma compare_scaled (x y : float) :
  valid_binary prec emax x = true -> valid_binary prec emax y = true ->
  (to_Q x ?= to_Q y)%Q = (scaled x ?= scaled y).
Proof.
  intros Hx Hy.
  rewrite (Qcompare_comp _ _ (to_Q_scaled x Hx) _ _ (to_Q_scaled y Hy)).
  unfold Qcompare. cbn [Qnum Qden].
  symmetry. apply Zmult_compare_compat_r. reflexivity.
Qed.

Lemma scaled_order (m1 m2 : positive) (e1 e2 : Z) :
  bounded prec emax m1 e1 = true -> bounded prec emax m2 e2 = true ->
  e1 < e2 ->
  Z.pos m1 * 2 ^ (e1 + 1074) < Z.pos m2 * 2 ^ (e2 + 1074).
Proof.
  intros H1 H2 Hlt.
  apply bounded_canonical in H1 as (He1 & Hd1 & _).
  apply bounded_canonical in H2 as (He2 & _ & Hd2).
  pose proof (digits2_bounds m1) as [_ Hm1].
  pose proof (digits2_bounds m2) as [Hm2 _].
  rewrite (Hd2 ltac:(lia)) in Hm2.
  assert (Hm1' : Z.pos m1 < 2 ^ 53).
  { eapply Z.lt_le_trans; [exact Hm1 |]. apply Z.pow_le_mono_r; lia. }
  change (2 ^ (53 - 1)) with (2 ^ 52) in Hm2.
  replace (e2 + 1074) with ((e1 + 1074) + (e2 - e1)) by lia.
  rewrite (Z.pow_add_r 2 (e1 + 1074) (e2 - e1)) by lia.
  assert (Hp : 0 < 2 ^ (e1 + 1074)) by (apply Z.pow_pos_nonneg; lia).
  assert (Hq : 2 <= 2 ^ (e2 - e1)).
  { change 2 with (2 ^ 1) at 1. apply Z.pow_le_mono_r; lia. }
  set (P := 2 ^ (e1 + 1074)) in *. set (Q := 2 ^ (e2 - e1)) in *.
  apply Z.lt_le_trans with (2 ^ 53 * P).
  - apply Z.mul_lt_mono_pos_r; assumption.
  - apply Z.le_trans with (Z.pos m2 * (P * 2)).
    + assert (H53 : 2 ^ 53 = 2 * 2 ^ 52) by reflexivity. rewrite H53.
      clear Hm1' H53. remember (2 ^ 52) as c. nia.
    + apply Z.mul_le_mono_nonneg_l; [lia |].
      apply Z.mul_le_mono_nonneg_l; lia.
Qed.

Lemma scaled_compare (m1 m2 : positive) (e1 e2 : Z) :
  bounded prec emax m1 e1 = true -> bounded prec emax m2 e2 = true ->
  (Z.pos m1 * 2 ^ (e1 + 1074) ?= Z.pos m2 * 2 ^ (e2 + 1074))
  = match e1 ?= e2 with
    | Lt => Lt
    | Gt => Gt
    | Eq => Pos.compare_cont Eq m1 m2
    end.
Proof.
  intros H1 H2. destruct (e1 ?= e2) eqn:He.
  - apply Z.compare_eq in He. subst e2.
    pose proof (proj1 (bounded_canonical _ _ H1)) as Hge.
    assert (Hp : 0 < 2 ^ (e1 + 1074)) by (apply Z.pow_pos_nonneg; lia).
    rewrite <- Zmult_compare_compat_r by lia. reflexivity.
  - apply Z.compare_lt_iff in He. apply Z.compare_lt_iff. now apply scaled_order.
  - apply Z.compare_gt_iff in He. apply Z.compare_gt_iff. now apply scaled_order.
Qed.

(** On valid floats the order by value is the order of the Standard
    Library's specification. *)
Lemma compare_valid (x y : float) :
  valid_binary prec emax x = true -> valid_binary prec emax y = true ->
  compare x y = SFcompare x y.
Proof.
  intros Hx Hy.
  destruct x as [sx | sx | | sx mx ex]; destruct y as [sy | sy | | sy my ey];
    try reflexivity;
    try (destruct sx; destruct sy; reflexivity);
    unfold compare; rewrite (compare_scaled _ _ Hx Hy); cbn [scaled SFcompare].
  - f_equal. assert (Hp : 0 < 2 ^ (ey + 1074)).
    { apply Z.pow_pos_nonneg; [lia |]. apply bounded_canonical in Hy. lia. }
    destruct sy; [apply Z.compare_gt_iff | apply Z.compare_lt_iff]; nia.
  - f_equal. assert (Hp : 0 < 2 ^ (ex + 1074)).
    { apply Z.pow_pos_nonneg; [lia |]. apply bounded_canonical in Hx. lia. }
    destruct sx; [apply Z.compare_lt_iff | apply Z.compare_gt_iff]; nia.
  - f_equal. cbn [valid_binary] in Hx, Hy.
    assert (Hpx : 0 < 2 ^ (ex + 1074)).
    { apply Z.pow_pos_nonneg; [lia |]. apply bounded_canonical in Hx. lia. }
    assert (Hpy : 0 < 2 ^ (ey + 1074)).
    { apply Z.pow_pos_nonneg; [lia |]. apply bounded_canonical in Hy. lia. }
    destruct sx, sy.
    + change (Z.neg mx) with (- Z.pos mx). change (Z.neg my) with (- Z.pos my).
      rewrite !Z.mul_opp_l, Z.compare_opp.
      rewrite (scaled_compare my mx ey ex Hy Hx).
      rewrite (Z.compare_antisym ey ex).
      rewrite (Pos.compare_cont_antisym mx my Eq).
      destruct (ey ?= ex); cbn [CompOpp]; try reflexivity.
    + apply Z.compare_lt_iff. nia.
    + apply Z.compare_gt_iff. nia.
    + apply scaled_compare; assumption.
Qed.

End PyFloatFacts.

(** ** The bitrate budget *)

Section Budget.
Import SpecFloat.


Lemma hundred : (PyFloat.to_Q (PyFloat.nearest 100) == 100)%Q.
Proof. reflexivity. Qed.

Lemma leb_zero_is_zero (s : bool) : PyFloat.leb (S754_zero s) (PyFloat.nearest 0) = true.
Proof. reflexivity. Qed.

Lemma require_duration_pos (d : PyFloat.float) :
  PyFloat.leb d (PyFloat.nearest 0) = false -> require_duration (Some d) = Ok d.
Proof. intros Hd. unfold require_duration. now rewrite Hd. Qed.

Lemma require_duration_unusable (duration : option PyFloat.float) :
  duration = None
  \/ (exists d, duration = Some d /\ PyFloat.leb d (PyFloat.nearest 0) = true) ->
  require_duration duration = Raise (RuntimeError no_duration_msg).
Proof.
  intros [-> | (d & -> & Hd)]; [reflexivity |].
  unfold require_duration. now rewrite Hd.
Qed.

Lemma div_by_duration (x d : PyFloat.float) :
  PyFloat.leb d (PyFloat.nearest 0) = false ->
  PyFloat.div x d = Ok (PyFloat.quotient x d).
Proof.
  intros Hd. destruct d; try reflexivity.
  now rewrite leb_zero_is_zero in Hd.
Qed.

Lemma clamp_floor (t : PyFloat.float) :
  PyFloat.floor (if PyFloat.ltb t (PyFloat.nearest 100) then PyFloat.nearest 100 else t)
  = match t with
    | S754_nan => Raise ValueError
    | S754_infinity false => Raise OverflowError
    | S754_infinity true => Ok 100
    | _ => Ok (Qfloor (Qmax 100 (PyFloat.to_Q t)))
    end.
Proof.
  destruct t as [s | [|] | | s m e]; try reflexivity.
  unfold PyFloat.ltb, PyFloat.compare.
  set (x := PyFloat.to_Q (S754_finite s m e)).
  change (PyFloat.nearest 100) with (S754_finite false 7036874417766400 (-46)).
  cbv iota.
  destruct (x ?= PyFloat.to_Q (S754_finite false 7036874417766400 (-46)))%Q eqn:Hc.
  - apply Qeq_alt in Hc. cbn [PyFloat.floor]. fold x. f_equal.
    apply Qfloor_comp. symmetry. apply Q.max_r. rewrite Hc. discriminate.
  - apply Qlt_alt in Hc. cbn [PyFloat.floor]. f_equal.
    transitivity (Qfloor 100); [vm_compute; reflexivity |].
    apply Qfloor_comp. symmetry. apply Q.max_l. apply Qlt_le_weak.
    eapply Qlt_le_trans; [exact Hc | discriminate].
  - apply Qgt_alt in Hc. cbn [PyFloat.floor]. fold x. f_equal.
    apply Qfloor_comp. symmetry. apply Q.max_r. apply Qlt_le_weak.
    eapply Qle_lt_trans; [| exact Hc]. discriminate.
Qed.

Lemma bitrate_budget_spec (m d : PyFloat.float) (a : Z) (fa : PyFloat.float) :
  PyFloat.leb d (PyFloat.nearest 0) = false ->
  PyFloat.of_int a = Ok fa ->
  bitrate_budget m d a
  = match video_kbps m d fa with
    | S754_nan => Raise ValueError
    | S754_infinity false => Raise OverflowError
    | S754_infinity true => Ok (100, a)
    | t => Ok (Qfloor (Qmax 100 (PyFloat.to_Q t)), a)
    end.
Proof.
  intros Hd Ha. unfold bitrate_budget.
  rewrite (div_by_duration _ d Hd). cbn [bind_result]. rewrite Ha. cbn [bind_result].
  rewrite clamp_floor. fold (video_kbps m d fa).
  destruct (video_kbps m d fa) as [s | [|] | | s mm e]; reflexivity.
Qed.

Lemma video_kbps_not_nan (m d fa : PyFloat.float) :
  positive_number m -> positive_number d -> is_number fa = true ->
  video_kbps m d fa <> S754_nan.
Proof.
  intros (mm & me & ->) (dm & de & ->) Hfa. unfold video_kbps.
  apply PyFloatFacts.sub_number; [| exact Hfa].
  assert (H8 : exists m8 e8, PyFloat.nearest 8192 = S754_finite false m8 e8)
    by (eexists; eexists; vm_compute; reflexivity).
  destruct H8 as (m8 & e8 & ->).
  destruct (PyFloatFacts.quotient_shape
              (PyFloat.mul (S754_finite false mm me) (S754_finite false m8 e8)) dm de
              (PyFloatFacts.mul_shape mm m8 me e8))
    as [H | [H | (m & e & H)]]; rewrite H; discriminate.
Qed.

Lemma bitrate_budget_audio (m d : PyFloat.float) (a v a' : Z) :
  bitrate_budget m d a = Ok (v, a') -> a' = a.
Proof.
  unfold bitrate_budget.
  destruct (PyFloat.div _ d); cbn [bind_result]; [| discriminate].
  destruct (PyFloat.of_int a); cbn [bind_result]; [| discriminate].
  destruct (PyFloat.floor _); cbn [bind_result]; [| discriminate].
  intros H. now inversion H.
Qed.

Lemma floor_clamped (x : Q) : 100 <= Qfloor (Qmax 100 x).
Proof.
  change 100 with (Qfloor (inject_Z 100)) at 1.
  apply Qfloor_resp_le. apply Q.le_max_l.
Qed.

Lemma allocate_budget_aux (m d : PyFloat.float) (a : Z) (fa : PyFloat.float) :
  PyFloat.leb d (PyFloat.nearest 0) = false ->
  PyFloat.of_int a = Ok fa ->
  allocate m (Some d) a
  = match video_kbps m d fa with
    | S754_nan => Raise ValueError
    | S754_infinity false => Raise OverflowError
    | S754_infinity true => Ok (100, a)
    | t => Ok (Qfloor (Qmax 100 (PyFloat.to_Q t)), a)
    end.
Proof.
  intros Hd Ha. unfold allocate.
  rewrite (require_duration_pos d Hd). cbn [bind_result].
  exact (bitrate_budget_spec m d a fa Hd Ha).
Qed.

End Budget.

(** C1, as the code has it.  Once the duration has passed the guard and
    the audio bitrate [a] has a float [fa], [allocate m d a] goes by the
    binary64 value [t] of
    [m * 8192 / d - a], each of the three operations rounded to nearest: it
    returns the video bitrate [floor (max 100 t)] together with the audio
    bitrate [a] it was given; instead of returning it raises
    [OverflowError] when [t] is the positive infinity and [ValueError] when
    [t] is NaN. *)
Theorem allocate_budget (m d : PyFloat.float) (a : Z) (fa : PyFloat.float) :
  PyFloat.leb d (PyFloat.nearest 0) = false ->
  PyFloat.of_int a = Ok fa ->
  allocate m (Some d) a
  = match video_kbps m d fa with
    | SpecFloat.S754_nan => Raise ValueError
    | SpecFloat.S754_infinity false => Raise OverflowError
    | SpecFloat.S754_infinity true => Ok (100, a)
    | t => Ok (Qfloor (Qmax 100 (PyFloat.to_Q t)), a)
    end.
Proof.
  exact (allocate_budget_aux m d a fa).
Qed.

(** The instance of the specification: 10 MB over 120 s with 128 kbps of
    audio leave 554 kbps for the video. *)
Lemma allocate_budget_example :
  allocate (PyFloat.nearest 10) (Some (PyFloat.nearest 120)) 128 = Ok (554, 128).
Proof.
  rewrite (allocate_budget (PyFloat.nearest 10) (PyFloat.nearest 120) 128
             (PyFloat.nearest 128));
    vm_compute; reflexivity.
Defined.

(** C1 as stated fails: the formula in exact arithmetic is not what is
    returned.  For 10 MB over the float of 51.2 s with 128 kbps of audio the
    quotient rounds up to 1600 and the video gets 1472 kbps, where
    [floor (max 100 (m * 8192 / d - a))] on the numbers those floats stand
    for is 1471; for the floats of 2.4 MB and 51.2 s the video gets 255
    kbps, where the formula on 2.4 and 51.2 gives 256; and a target of 1e308
    MB makes the product overflow, so that nothing is returned. *)
Lemma allocate_budget_is_rounded :
  exists d small huge,
    PyFloat.float_of_string "51.2" = Ok d
    /\ PyFloat.float_of_string "2.4" = Ok small
    /\ PyFloat.float_of_string "1e308" = Ok huge
    /\ allocate (PyFloat.nearest 10) (Some d) 128 = Ok (1472, 128)
    /\ Qfloor (Qmax 100 (PyFloat.to_Q (PyFloat.nearest 10) * 8192 / PyFloat.to_Q d
                         - inject_Z 128)) = 1471
    /\ allocate small (Some d) 128 = Ok (255, 128)
    /\ Qfloor (Qmax 100 ((24 # 10) * 8192 / (512 # 10) - inject_Z 128)) = 256
    /\ allocate huge (Some (PyFloat.nearest 1)) 128 = Raise OverflowError.
Proof.
  eexists. eexists. eexists.
  repeat (split; [vm_compute; reflexivity |]).
  vm_compute; reflexivity.
Qed.

(** C4, as the code has it.  For a target size and a duration that are
    numbers above zero, [allocate] either returns a video bitrate of at
    least 100 or raises
    [OverflowError]; it returns whenever the audio bitrate has a float and
    the binary64 value of [m * 8192 / d - a] is not the positive
    infinity. *)
Theorem allocate_video_floor (m d : PyFloat.float) (a : Z) :
  positive_number m -> positive_number d ->
  (allocate m (Some d) a = Raise OverflowError
   \/ exists v, allocate m (Some d) a = Ok (v, a) /\ 100 <= v)
  /\ (forall fa,
        PyFloat.of_int a = Ok fa ->
        video_kbps m d fa <> SpecFloat.S754_infinity false ->
        exists v, allocate m (Some d) a = Ok (v, a) /\ 100 <= v).
Proof.
  intros Hm Hd.
  assert (Hguard : PyFloat.leb d (PyFloat.nearest 0) = false).
  { destruct Hd as (dm & de & ->). apply PyFloatFacts.leb_zero_positive. }
  assert (Hret : forall fa,
            PyFloat.of_int a = Ok fa ->
            video_kbps m d fa <> SpecFloat.S754_infinity false ->
            exists v, allocate m (Some d) a = Ok (v, a) /\ 100 <= v).
  { intros fa Ha Hfin.
    rewrite (allocate_budget_aux m d a fa Hguard Ha).
    pose proof (video_kbps_not_nan m d fa Hm Hd (PyFloatFacts.of_int_number a fa Ha))
      as Hnan.
    destruct (video_kbps m d fa) as [s | [|] | | s mm e]; try congruence.
    - eexists; split; [reflexivity | apply floor_clamped].
    - exists 100. split; [reflexivity | lia].
    - eexists; split; [reflexivity | apply floor_clamped]. }
  split; [| exact Hret].
  destruct (PyFloat.of_int a) as [fa | e] eqn:Ha.
  - destruct (video_kbps m d fa) as [s | [|] | | s mm e] eqn:Ht;
      try (right; apply (Hret fa eq_refl); rewrite Ht; discriminate).
    left. rewrite (allocate_budget_aux m d a fa Hguard Ha), Ht. reflexivity.
  - left. unfold allocate. rewrite (require_duration_pos d Hguard). cbn [bind_result].
    unfold bitrate_budget. rewrite (div_by_duration _ d Hguard). cbn [bind_result].
    rewrite Ha. cbn [bind_result].
    unfold PyFloat.of_int in Ha. destruct (PyFloat.nearest a); congruence.
Qed.

(** A target of 1/1024 MB over ten hours still gets the floor. *)
Lemma allocate_video_floor_tiny :
  exists tiny,
    PyFloat.float_of_string "0.0009765625" = Ok tiny
    /\ exists v, allocate tiny (Some (PyFloat.nearest 36000)) 128 = Ok (v, 128)
                 /\ 100 <= v.
Proof.
  eexists. split; [vm_compute; reflexivity |].
  refine (proj2 (allocate_video_floor _ (PyFloat.nearest 36000) 128 _ _)
            (PyFloat.nearest 128) _ _).
  - eexists; eexists; reflexivity.
  - eexists; eexists; vm_compute; reflexivity.
  - vm_compute; reflexivity.
  - vm_compute; discriminate.
Defined.

(** C4 as stated fails: with a target of 1e308 MB over 1 s the product of
    line 185 is an infinity and [math.floor] raises, so that no video
    bitrate is computed. *)
Lemma allocate_overflows :
  exists huge,
    PyFloat.float_of_string "1e308" = Ok huge
    /\ positive_number huge
    /\ allocate huge (Some (PyFloat.nearest 1)) 128 = Raise OverflowError.
Proof.
  eexists. split; [vm_compute; reflexivity |].
  split; [eexists; eexists; reflexivity | vm_compute; reflexivity].
Qed.

(** ** The duration query *)

Import PyStrFacts.

(** A line with a duration field in [H:MM:SS.ss] form parses to
    [H * 3600 + M * 60 + S]. *)
Lemma parse_duration_line_hms (ind sp H M S rest : string) (h m s : PyFloat.float) :
  lacks "D" ind = true ->
  all_chars is_space sp = true ->
  numeric H = true -> numeric M = true -> numeric S = true ->
  PyFloat.float_of_string H = Ok h ->
  PyFloat.float_of_string M = Ok m ->
  PyFloat.float_of_string S = Ok s ->
  parse_duration_line (hms_line ind sp H M S rest)
  = Ok (PyFloat.add
             (PyFloat.add (PyFloat.mul h (PyFloat.nearest 3600))
                          (PyFloat.mul m (PyFloat.nearest 60)))
             s).
Proof.
  intros Hind Hsp HH HM HS Fh Fm Fs.
  unfold parse_duration_line, hms_line.
  set (colon := ":") in *. set (comma := ",") in *.
  rewrite (split_first "D" "uration:" ind _ Hind).
  cbn [nth_error].
  set (field := sp ++ H ++ colon ++ M ++ colon ++ S).
  assert (Htail : sp ++ H ++ colon ++ M ++ colon ++ S ++ comma ++ rest
                  = (field ++ comma) ++ rest).
  { unfold field. now rewrite !str_app_assoc. }
  rewrite Htail.
  assert (HfieldD : lacks "D" (field ++ comma) = true).
  { unfold field, lacks. rewrite !all_chars_app.
    fold (lacks "D" sp) (lacks "D" H) (lacks "D" M) (lacks "D" S).
    rewrite (spaces_lack "D" sp), !numeric_lacks by (assumption || reflexivity).
    reflexivity. }
  unfold split at 1.
  rewrite (split_from_lacks "D" "uration:" _ "" rest HfieldD).
  destruct (split_from_head "Duration:" rest ("" ++ field ++ comma)) as (y & tl & ->).
  cbn [nth_error append].
  assert (Hfc : lacks "," field = true).
  { unfold field, lacks. rewrite !all_chars_app.
    fold (lacks "," sp) (lacks "," H) (lacks "," M) (lacks "," S).
    rewrite (spaces_lack "," sp), !numeric_lacks by (assumption || reflexivity).
    reflexivity. }
  rewrite str_app_assoc. unfold comma.
  rewrite (split_first "," "" field y Hfc).
  destruct (numeric_solid H HH) as (_ & _ & HlH).
  destruct (numeric_solid S HS) as (HneS & HrS & _).
  assert (Hstrip : strip field = H ++ colon ++ M ++ colon ++ S).
  { unfold strip, field. rewrite (lstrip_spaces sp _ Hsp), HlH.
    replace (H ++ colon ++ M ++ colon ++ S)
      with ((H ++ colon ++ M ++ colon) ++ S) by now rewrite !str_app_assoc.
    rewrite rstrip_app by (rewrite HrS; exact HneS).
    now rewrite HrS. }
  rewrite Hstrip. unfold colon.
  rewrite (split_first ":" "" H _ (numeric_lacks ":" H eq_refl HH)).
  rewrite (split_first ":" "" M _ (numeric_lacks ":" M eq_refl HM)).
  rewrite (split_absent ":" "" S (numeric_lacks ":" S eq_refl HS)).
  rewrite Fh, Fm, Fs. reflexivity.
Qed.

Section Probe.

Variable E : env.
Variable input_path : string.

Lemma scan_duration_skips (before rest : list string) :
  (forall l, In l before -> contains "Duration:" l = false) ->
  scan_duration (before ++ rest)%list = scan_duration rest.
Proof.
  induction before as [| l before IH]; intros Hb; [reflexivity |].
  cbn [app scan_duration]. rewrite (Hb l (or_introl eq_refl)).
  apply IH. intros l' Hl'. apply Hb. now right.
Qed.

Lemma scan_duration_nothing (lines : list string) :
  (forall line, In line lines -> contains "Duration:" line = true ->
     is_ok (parse_duration_line line) = false) ->
  scan_duration lines = None.
Proof.
  induction lines as [| l lines IH]; intros Hb; [reflexivity |].
  cbn [scan_duration].
  assert (IH' : scan_duration lines = None).
  { apply IH. intros l' Hl'. apply Hb. now right. }
  destruct (contains "Duration:" l) eqn:Hc; [| exact IH'].
  specialize (Hb l (or_introl eq_refl) Hc).
  destruct (parse_duration_line l); [discriminate | exact IH'].
Qed.

Lemma probe_structured_world (w : world) :
  exists r probes,
    probe_structured E input_path w = (Ok r, after_probes probes w)
    /\ Forall (is_probe E input_path) probes.
Proof.
  destruct w as [fs tr sk].
  unfold probe_structured, try_except, bind, run_process, lift, ret, after_probes, log_event.
  cbn [files trace sink].
  destruct (which E (FFPROBE_PATH E)).
  2:{ exists None, []. rewrite app_nil_r. split; [reflexivity | constructor]. }
  assert (Hp : Forall (is_probe E input_path) [Run (ffprobe_cmd E input_path)]).
  { constructor; [left; reflexivity | constructor]. }
  destruct (subprocess_run E (ffprobe_cmd E input_path)) as [proc | e].
  2:{ exists None. eexists. split; [reflexivity | exact Hp]. }
  destruct ((returncode proc =? 0) && negb (strip (stdout proc) =? "")%string).
  2:{ exists None. eexists. split; [reflexivity | exact Hp]. }
  destruct (PyFloat.float_of_string (strip (stdout proc))) as [d | e].
  - exists (Some d). eexists. split; [reflexivity | exact Hp].
  - exists None. eexists. split; [reflexivity | exact Hp].
Qed.

Lemma probe_textual_world (w : world) :
  exists r,
    probe_textual E input_path w
    = (Ok r, after_probes [Run (ffmpeg_info_cmd E input_path)] w).
Proof.
  unfold probe_textual, try_except, bind, run_process, ret, after_probes, log_event.
  destruct (subprocess_run E (ffmpeg_info_cmd E input_path)); eexists; reflexivity.
Qed.

Lemma get_media_duration_world (w : world) :
  exists r probes,
    get_media_duration E input_path w = (Ok r, after_probes probes w)
    /\ Forall (is_probe E input_path) probes.
Proof.
  unfold get_media_duration, bind.
  destruct (probe_structured_world w) as (r & probes & -> & Hp).
  destruct r as [d |].
  - exists (Some d), probes. split; [reflexivity | exact Hp].
  - destruct (probe_textual_world (after_probes probes w)) as (r & ->).
    exists r, (probes ++ [Run (ffmpeg_info_cmd E input_path)])%list. split.
    + unfold after_probes. cbn [files trace sink]. now rewrite <- List.app_assoc.
    + apply Forall_app. split; [exact Hp |].
      constructor; [right; reflexivity | constructor].
Qed.

Lemma probe_structured_failure (w : world) :
  structured_query_fails E input_path ->
  fst (probe_structured E input_path w) = Ok None.
Proof.
  unfold structured_query_fails, probe_structured, try_except, bind, run_process, lift, ret.
  intros [Hw | Hq].
  - now rewrite Hw.
  - destruct (which E (FFPROBE_PATH E)); [| reflexivity].
    destruct (subprocess_run E (ffprobe_cmd E input_path)) as [proc | e]; [| reflexivity].
    destruct Hq as [Hrc | [Hout | Hfl]].
    + apply Z.eqb_neq in Hrc. now rewrite Hrc.
    + rewrite Hout, String.eqb_refl, andb_false_r. reflexivity.
    + destruct ((returncode proc =? 0) && negb (strip (stdout proc) =? "")%string);
        [| reflexivity].
      destruct (PyFloat.float_of_string (strip (stdout proc))); [discriminate | reflexivity].
Qed.

End Probe.

Section ProbeOutcome.

Variable E : env.
Variable input_path : string.

Lemma get_media_duration_unknown (w : world) :
  structured_query_fails E input_path ->
  textual_fallback_fails E input_path ->
  fst (get_media_duration E input_path w) = Ok None.
Proof.
  intros Hs Ht. unfold get_media_duration, bind.
  pose proof (probe_structured_failure E input_path w Hs) as Hfst.
  destruct (probe_structured E input_path w) as [r w1]. cbn [fst] in Hfst.
  rewrite Hfst.
  unfold probe_textual, try_except, bind, run_process, ret.
  unfold textual_fallback_fails in Ht.
  destruct (subprocess_run E (ffmpeg_info_cmd E input_path)) as [proc | e];
    [| reflexivity].
  cbn [fst]. now rewrite (scan_duration_nothing _ Ht).
Qed.

Lemma get_media_duration_textual (w : world) (proc : completed) (d : PyFloat.float) :
  structured_query_fails E input_path ->
  subprocess_run E (ffmpeg_info_cmd E input_path) = Ok proc ->
  scan_duration (splitlines (stderr proc)) = Some d ->
  fst (get_media_duration E input_path w) = Ok (Some d).
Proof.
  intros Hs Hrun Hscan. unfold get_media_duration, bind.
  pose proof (probe_structured_failure E input_path w Hs) as Hfst.
  destruct (probe_structured E input_path w) as [r w1]. cbn [fst] in Hfst.
  rewrite Hfst.
  unfold probe_textual, try_except, bind, run_process, ret.
  rewrite Hrun. cbn [fst]. now rewrite Hscan.
Qed.

Lemma get_media_duration_structured (w : world) (proc : completed) (d : PyFloat.float) :
  which E (FFPROBE_PATH E) = true ->
  subprocess_run E (ffprobe_cmd E input_path) = Ok proc ->
  returncode proc = 0 ->
  strip (stdout proc) <> ""%string ->
  PyFloat.float_of_string (strip (stdout proc)) = Ok d ->
  fst (get_media_duration E input_path w) = Ok (Some d).
Proof.
  intros Hw Hrun Hrc Hout Hfl.
  unfold get_media_duration, probe_structured, try_except, bind, run_process, lift, ret.
  rewrite Hw, Hrun, Hrc. apply String.eqb_neq in Hout. rewrite Hout.
  cbn [Z.eqb andb negb]. now rewrite Hfl.
Qed.

End ProbeOutcome.

(** C6. When the structured query fails and the first diagnostic line of
    [ffmpeg -i] that carries the label [Duration:] has a field in
    [H:MM:SS.ss] form, [get_media_duration] returns [H * 3600 + M * 60 + S];
    when the structured query succeeds it returns the number [ffprobe]
    printed. *)
Theorem get_media_duration_reads_duration (E : env) (input_path : string) (w : world) :
  (forall (proc : completed) (before after : list string)
          (ind sp H M S rest : string) (h m s : PyFloat.float),
     structured_query_fails E input_path ->
     subprocess_run E (ffmpeg_info_cmd E input_path) = Ok proc ->
     splitlines (stderr proc)
       = (before ++ hms_line ind sp H M S rest :: after)%list ->
     (forall l, In l before -> contains "Duration:" l = false) ->
     lacks "D" ind = true ->
     all_chars is_space sp = true ->
     numeric H = true -> numeric M = true -> numeric S = true ->
     PyFloat.float_of_string H = Ok h ->
     PyFloat.float_of_string M = Ok m ->
     PyFloat.float_of_string S = Ok s ->
     fst (get_media_duration E input_path w)
       = Ok (Some (PyFloat.add
             (PyFloat.add (PyFloat.mul h (PyFloat.nearest 3600))
                          (PyFloat.mul m (PyFloat.nearest 60)))
             s)))
  /\
  (forall (proc : completed) (d : PyFloat.float),
     which E (FFPROBE_PATH E) = true ->
     subprocess_run E (ffprobe_cmd E input_path) = Ok proc ->
     returncode proc = 0 ->
     strip (stdout proc) <> ""%string ->
     PyFloat.float_of_string (strip (stdout proc)) = Ok d ->
     fst (get_media_duration E input_path w) = Ok (Some d)).
Proof.
  split.
  - intros proc before after ind sp H M S rest h m s
      Hs Hrun Hlines Hbefore Hind Hsp HH HM HS Fh Fm Fs.
    apply (get_media_duration_textual E input_path w proc); [exact Hs | exact Hrun |].
    rewrite Hlines, (scan_duration_skips before _ Hbefore).
    cbn [scan_duration]. unfold hms_line at 1.
    rewrite contains_app. fold (hms_line ind sp H M S rest).
    now rewrite (parse_duration_line_hms ind sp H M S rest h m s).
  - intros proc d. apply get_media_duration_structured.
Qed.

(** The two samples of the specification: the diagnostic line
    [Duration: 00:01:23.45, start: 0.000000, ...] after a failed [ffprobe],
    and the [ffprobe] answer [83.450000], both give the float 83.45. *)
Lemma get_media_duration_reads_duration_samples :
  exists d,
    PyFloat.float_of_string "83.45" = Ok d
    /\ fst (get_media_duration
              (Sample.machine (Sample.exited 1 "" Sample.no_such_file)
                 (Sample.exited 1 "" Sample.info_text)
                 (Raise FileNotFoundError) (Raise FileNotFoundError) (fun _ => true))
              Sample.source Sample.blank) = Ok (Some d)
    /\ fst (get_media_duration
              (Sample.machine (Sample.exited 0 ("83.450000" ++ LF) "")
                 (Raise FileNotFoundError)
                 (Raise FileNotFoundError) (Raise FileNotFoundError) (fun _ => true))
              Sample.source Sample.blank) = Ok (Some d).
Proof.
  eexists. split; [vm_compute; reflexivity |]. split.
  - etransitivity.
    + apply (proj1 (get_media_duration_reads_duration _ Sample.source Sample.blank)
               {| returncode := 1; stdout := ""; stderr := Sample.info_text |}
               ["Input #0, matroska,webm, from '/videos/clip.mkv':"]
               ["At least one output file must be specified"]
               "  " " " "00" "01" "23.45"
               " start: 0.000000, bitrate: 1205 kb/s"
               (SpecFloat.S754_zero false) (PyFloat.nearest 1)
               (SpecFloat.S754_finite false 6600588203864883 (-48)));
        try reflexivity.
      * right. cbn. left. discriminate.
      * intros l [<- | []]. reflexivity.
    + vm_compute. reflexivity.
  - apply (proj2 (get_media_duration_reads_duration _ Sample.source Sample.blank)
             {| returncode := 0; stdout := "83.450000" ++ LF; stderr := "" |});
      try reflexivity.
    discriminate.
Defined.

(** C7. [get_media_duration] returns for every path and every behaviour of
    the two helper programs, and what it returns when both queries fail is
    [None]. *)
Theorem get_media_duration_never_raises (E : env) (input_path : string) (w : world) :
  exists r w',
    get_media_duration E input_path w = (Ok r, w')
    /\ (structured_query_fails E input_path ->
        textual_fallback_fails E input_path -> r = None).
Proof.
  destruct (get_media_duration_world E input_path w) as (r & probes & Heq & _).
  exists r, (after_probes probes w). split; [exact Heq |].
  intros Hs Ht.
  pose proof (get_media_duration_unknown E input_path w Hs Ht) as Hnone.
  rewrite Heq in Hnone. cbn [fst] in Hnone. congruence.
Qed.

(** A missing file: [ffprobe] and [ffmpeg -i] both exit with 1 and name the
    file; the duration is unknown and nothing is raised. *)
Lemma get_media_duration_missing_file :
  fst (get_media_duration
         (Sample.machine (Sample.exited 1 "" Sample.no_such_file)
            (Sample.exited 1 "" Sample.no_such_file)
            (Raise FileNotFoundError) (Raise FileNotFoundError) (fun _ => true))
         Sample.source Sample.blank) = Ok None.
Proof.
  destruct (get_media_duration_never_raises
              (Sample.machine (Sample.exited 1 "" Sample.no_such_file)
                 (Sample.exited 1 "" Sample.no_such_file)
                 (Raise FileNotFoundError) (Raise FileNotFoundError) (fun _ => true))
              Sample.source Sample.blank) as (r & w' & Heq & Hnone).
  rewrite Heq. cbn [fst]. f_equal. apply Hnone.
  - right. cbn. left. discriminate.
  - cbn. intros line [<- | []] Hc. vm_compute in Hc. discriminate.
Defined.

(** ** The process runner *)

(** C8. [run_command_show_progress] raises exactly when the process cannot
    be started; a missing executable is reported as the [RuntimeError] of
    line 92; a process that started yields its exit code, zero or not, and
    the diagnostic text read from it. *)
Theorem run_command_show_progress_outcomes (E : env) (cmd : list string)
    (on_line : option callback) (w : world) :
  (is_ok (fst (run_command_show_progress E cmd on_line w)) = false
   <-> is_ok (spawn E cmd) = false)
  /\ (spawn E cmd = Raise FileNotFoundError ->
      fst (run_command_show_progress E cmd on_line w)
      = Raise (RuntimeError (not_found_msg E)))
  /\ (forall proc, spawn E cmd = Ok proc ->
      fst (run_command_show_progress E cmd on_line w)
      = Ok (exit_code proc, join (stderr_lines proc))).
Proof.
  unfold run_command_show_progress.
  destruct (spawn E cmd) as [proc | e].
  - repeat split; cbn; try discriminate; try tauto.
    intros proc' H. now inversion H.
  - destruct e; repeat split; cbn; try discriminate; try tauto.
Qed.

(** An encoder that exits with 1 after two lines, and an encoder that is
    not installed. *)
Lemma run_command_show_progress_samples :
  fst (run_command_show_progress
         (Sample.machine (Raise OSError) (Raise OSError)
            (Sample.encoder_exit 1 Sample.progress []) (Raise FileNotFoundError)
            (fun _ => true))
         (pass1_cmd (Sample.machine (Raise OSError) (Raise OSError)
                       (Sample.encoder_exit 1 Sample.progress [])
                       (Raise FileNotFoundError) (fun _ => true))
            Sample.source Sample.passlog 554 "medium")
         (Some Sample.keep_all) Sample.blank)
  = Ok (1, join Sample.progress)
  /\
  fst (run_command_show_progress
         (Sample.machine (Raise OSError) (Raise OSError)
            (Raise FileNotFoundError) (Raise FileNotFoundError) (fun _ => true))
         ["/usr/bin/ffmpeg"; "-version"] None Sample.blank)
  = Raise (RuntimeError
             (not_found_msg
                (Sample.machine (Raise OSError) (Raise OSError)
                   (Raise FileNotFoundError) (Raise FileNotFoundError)
                   (fun _ => true)))).
Proof.
  split.
  - apply (proj2 (proj2 (run_command_show_progress_outcomes _ _ _ _))
             {| diagnostics := map Text Sample.progress; exit_code := 1; created := [] |}).
    reflexivity.
  - apply (proj1 (proj2 (run_command_show_progress_outcomes _ _ _ _))).
    reflexivity.
Defined.

(** Every line read reaches the callback, in the order read. *)
Lemma reader_delivers_in_order (lines : list string) (w : world) :
  sink (reader (Some Sample.keep_all) lines w) = (sink w ++ lines)%list.
Proof.
  revert w. induction lines as [| l lines IH]; intros w; cbn [reader fold_left].
  - now rewrite app_nil_r.
  - fold (reader (Some Sample.keep_all) lines (deliver (Some Sample.keep_all) l w)).
    rewrite IH. unfold deliver, Sample.keep_all. cbn [sink].
    now rewrite <- List.app_assoc.
Qed.

(** A stream that stops decoding after its first line: the reader thread
    dies there, and the line that follows is neither captured nor handed to
    the callback. *)
Example undecodable_ends_reading :
  fst (run_command_show_progress
         (Bench.single_pass
            (Ok {| diagnostics := [Text ("frame=  100" ++ LF); Undecodable;
                                   Text ("frame= 1500" ++ LF)];
                   exit_code := 0; created := [] |}))
         ["/usr/bin/ffmpeg"; "-version"] (Some Sample.keep_all) Sample.blank)
  = Ok (0, "frame=  100" ++ LF)
  /\ sink (snd (run_command_show_progress
                  (Bench.single_pass
                     (Ok {| diagnostics := [Text ("frame=  100" ++ LF); Undecodable;
                                            Text ("frame= 1500" ++ LF)];
                            exit_code := 0; created := [] |}))
                  ["/usr/bin/ffmpeg"; "-version"] (Some Sample.keep_all) Sample.blank))
     = ["frame=  100" ++ LF].
Proof. split; reflexivity. Qed.

(** ** The command builder *)

Lemma str_of_int_is_no_copy_flag (n : Z) : ~ In (str_of_int n) stream_copy_flags.
Proof.
  unfold str_of_int, stream_copy_flags.
  destruct (Z.to_int n) as [d | d]; cbn [NilZero.string_of_int In];
    intros [H | [H | [H | []]]]; destruct d; discriminate H.
Qed.

(** C9, as the code has it.  The command is a function of its arguments
    and of the encoder path alone; a remux command is the same for every
    quality setting and holds no quality, bitrate or preset option; a
    re-encode command holds no stream-copy word -- as long as the strings
    the caller supplies are not themselves spelled as such options. *)
Theorem build_ffmpeg_command_flags (E : env) (input_path output_path : string)
    (crf : Z) (preset : string) (faststart : bool) :
  (forall (E' : env) (reencode : bool),
     FFMPEG_PATH E' = FFMPEG_PATH E ->
     build_ffmpeg_command E' input_path output_path reencode crf preset faststart
     = build_ffmpeg_command E input_path output_path reencode crf preset faststart)
  /\ (forall (crf' : Z) (preset' : string),
     build_ffmpeg_command E input_path output_path false crf' preset' faststart
     = build_ffmpeg_command E input_path output_path false crf preset faststart)
  /\ (~ In (FFMPEG_PATH E) quality_bitrate_flags ->
      ~ In input_path quality_bitrate_flags ->
      ~ In output_path quality_bitrate_flags ->
      forall x,
        In x (build_ffmpeg_command E input_path output_path false crf preset faststart) ->
        ~ In x quality_bitrate_flags)
  /\ (~ In (FFMPEG_PATH E) stream_copy_flags ->
      ~ In input_path stream_copy_flags ->
      ~ In output_path stream_copy_flags ->
      ~ In preset stream_copy_flags ->
      forall x,
        In x (build_ffmpeg_command E input_path output_path true crf preset faststart) ->
        ~ In x stream_copy_flags).
Proof.
  repeat split.
  - intros E' reencode HE. unfold build_ffmpeg_command. now rewrite HE.
  - intros Hf Hi Ho x Hx.
    unfold build_ffmpeg_command in Hx. destruct faststart; cbn in Hx;
      repeat (destruct Hx as [<- | Hx]); try assumption; try contradiction;
      unfold quality_bitrate_flags; cbn [In]; intuition discriminate.
  - intros Hf Hi Ho Hp x Hx.
    unfold build_ffmpeg_command in Hx. destruct faststart; cbn [app In] in Hx;
      repeat (destruct Hx as [<- | Hx]); try assumption; try contradiction;
      try apply str_of_int_is_no_copy_flag;
      unfold stream_copy_flags; cbn [In]; intuition discriminate.
Qed.

(** The two commands for the sample clip. *)
Lemma build_ffmpeg_command_flags_samples :
  (forall x,
     In x ["/usr/bin/ffmpeg"; "-y"; "-i"; Sample.source; "-c"; "copy";
           "-movflags"; "+faststart"; Sample.target] ->
     ~ In x quality_bitrate_flags)
  /\
  (forall x,
     In x ["/usr/bin/ffmpeg"; "-y"; "-i"; Sample.source;
           "-c:v"; "libx264"; "-preset"; "medium"; "-crf"; "23";
           "-pix_fmt"; "yuv420p"; "-c:a"; "aac"; "-b:a"; "128k";
           "-movflags"; "+faststart"; Sample.target] ->
     ~ In x stream_copy_flags).
Proof.
  pose (E := Sample.machine (Raise OSError) (Raise OSError)
               (Raise OSError) (Raise OSError) (fun _ => true)).
  destruct (build_ffmpeg_command_flags E Sample.source Sample.target 23 "medium" true)
    as (_ & _ & Hremux & Hencode).
  split.
  - apply Hremux; cbn; intuition discriminate.
  - apply Hencode; cbn; intuition discriminate.
Defined.

(** C9 as stated fails for parameter values that are spelled as options:
    the remux command for an output called [-crf] contains [-crf], and the
    re-encode command with the preset [copy] contains [copy]. *)
Lemma build_ffmpeg_command_echoes_arguments :
  In "-crf"
    (build_ffmpeg_command
       (Sample.machine (Raise OSError) (Raise OSError) (Raise OSError) (Raise OSError)
          (fun _ => true))
       Sample.source "-crf" false 23 "medium" true)
  /\ In "-crf" quality_bitrate_flags
  /\ In "copy"
       (build_ffmpeg_command
          (Sample.machine (Raise OSError) (Raise OSError) (Raise OSError) (Raise OSError)
             (fun _ => true))
          Sample.source Sample.target true 23 "copy" true)
  /\ In "copy" stream_copy_flags.
Proof. cbn. intuition. Qed.

(** ** The two-pass run *)

Section TwoPass.

Variable E : env.
Variables input_path output_path preset : string.
Variable on_line : option callback.

Lemma reader_keeps (lines : list string) (w : world) :
  files (reader on_line lines w) = files w
  /\ trace (reader on_line lines w) = trace w.
Proof.
  revert w. unfold reader.
  induction lines as [| l lines IH]; intros w; cbn [fold_left]; [now split |].
  destruct (IH (deliver on_line l w)) as [Hf Ht]. rewrite Hf, Ht.
  unfold deliver. destruct on_line; now split.
Qed.

Lemma convert_without_duration (target_mb : PyFloat.float) (audio_bitrate_k : Z)
    (w w1 : world) (duration : option PyFloat.float) :
  get_media_duration E input_path w = (Ok duration, w1) ->
  duration = None \/ (exists d, duration = Some d /\ PyFloat.leb d (PyFloat.nearest 0) = true) ->
  convert_to_target_size E input_path output_path target_mb preset
    audio_bitrate_k on_line w
  = (Raise (RuntimeError no_duration_msg), w1).
Proof.
  intros Hg Hbad. unfold convert_to_target_size, bind, lift.
  now rewrite Hg, (require_duration_unusable duration Hbad).
Qed.

Lemma convert_reaches_pass1 (target_mb : PyFloat.float) (audio_bitrate_k : Z)
    (w w1 : world) (d : PyFloat.float) (video_bitrate_k : Z) (passlog : string) :
  get_media_duration E input_path w = (Ok (Some d), w1) ->
  PyFloat.leb d (PyFloat.nearest 0) = false ->
  bitrate_budget target_mb d audio_bitrate_k = Ok (video_bitrate_k, audio_bitrate_k) ->
  mktemp E = Ok passlog ->
  convert_to_target_size E input_path output_path target_mb preset
    audio_bitrate_k on_line w
  = two_pass_encode E input_path output_path passlog
      video_bitrate_k audio_bitrate_k
      preset on_line
      (before_pass1 E on_line d target_mb video_bitrate_k audio_bitrate_k passlog w1).
Proof.
  intros Hg Hd Hb Htmp. unfold convert_to_target_size, bind, lift.
  rewrite Hg, (require_duration_pos d Hd), Hb.
  unfold named_temporary_file. rewrite Htmp.
  unfold emit, try_except, bind, run_process, ret, before_pass1.
  destruct (subprocess_run E ["-passlogfile"]); reflexivity.
Qed.

Lemma two_pass_encode_pass1_fails (passlog : string) (v a : Z) (w : world)
    (proc : child) :
  spawn E (pass1_cmd E input_path passlog v preset) = Ok proc ->
  exit_code proc <> 0 ->
  exists w',
    two_pass_encode E input_path output_path passlog v a preset on_line w
    = (Raise (RuntimeError
                (pass1_failed_msg (exit_code proc) (join (stderr_lines proc)))), w')
    /\ trace w' = (trace w ++ [Popen (pass1_cmd E input_path passlog v preset)])%list
    /\ files w' = (files w ++ created proc)%list.
Proof.
  intros Hsp Hrc. unfold two_pass_encode, bind, run_command_show_progress.
  rewrite Hsp. apply Z.eqb_neq in Hrc. rewrite Hrc. cbn [negb].
  unfold raise. eexists. split; [reflexivity |].
  unfold with_files. cbn [files trace].
  destruct (reader_keeps (stderr_lines proc)
              (log_event (Popen (pass1_cmd E input_path passlog v preset)) w))
    as [Hf Ht].
  rewrite Hf, Ht. now split.
Qed.

Lemma two_pass_encode_pass2_returns (passlog : string) (v a : Z) (w : world)
    (proc1 proc2 : child) :
  spawn E (pass1_cmd E input_path passlog v preset) = Ok proc1 ->
  exit_code proc1 = 0 ->
  spawn E (pass2_cmd E input_path output_path passlog v a preset) = Ok proc2 ->
  fst (two_pass_encode E input_path output_path passlog v a preset on_line w)
  = Ok (exit_code proc2, join (stderr_lines proc2)).
Proof.
  intros Hsp1 Hrc Hsp2.
  unfold two_pass_encode, bind, run_command_show_progress, emit, remove_passlogs, ret.
  rewrite Hsp1, Hrc. cbn [Z.eqb negb]. now rewrite Hsp2.
Qed.

End TwoPass.

Section Orchestration.

Variable E : env.
Variables input_path output_path preset : string.
Variable target_mb : PyFloat.float.
Variable audio_bitrate_k : Z.
Variable on_line : option callback.
Variable w : world.

(** What a run does up to a pass 1 that exits with a non-zero code. *)
Lemma convert_pass1_fails (d : PyFloat.float) (video_bitrate_k : Z) (passlog : string) (proc : child) :
  fst (get_media_duration E input_path w) = Ok (Some d) ->
  PyFloat.leb d (PyFloat.nearest 0) = false ->
  bitrate_budget target_mb d audio_bitrate_k = Ok (video_bitrate_k, audio_bitrate_k) ->
  mktemp E = Ok passlog ->
  spawn E (pass1_cmd E input_path passlog
             video_bitrate_k preset) = Ok proc ->
  exit_code proc <> 0 ->
  exists w' probes,
    convert_to_target_size E input_path output_path target_mb preset
      audio_bitrate_k on_line w
    = (Raise (RuntimeError
                (pass1_failed_msg (exit_code proc) (join (stderr_lines proc)))),
       w')
    /\ Forall (is_probe E input_path) probes
    /\ trace w'
       = (trace w ++ probes
          ++ [Run ["-passlogfile"];
              Popen (pass1_cmd E input_path passlog
                       video_bitrate_k preset)])%list
    /\ files w' = (passlog :: files w ++ created proc)%list.
Proof.
  intros Hdur Hd Hb Htmp Hsp Hrc.
  destruct (get_media_duration_world E input_path w) as (r & probes & Hg & Hp).
  rewrite Hg in Hdur. cbn [fst] in Hdur. injection Hdur as ->.
  rewrite (convert_reaches_pass1 E input_path output_path preset on_line
             target_mb audio_bitrate_k w _ d video_bitrate_k passlog Hg Hd Hb Htmp).
  destruct (two_pass_encode_pass1_fails E input_path output_path preset on_line
              passlog _ audio_bitrate_k
              (before_pass1 E on_line d target_mb video_bitrate_k audio_bitrate_k passlog
                 (after_probes probes w)) proc Hsp Hrc)
    as (w' & Heq & Htr & Hfs).
  exists w', probes. split; [exact Heq |]. split; [exact Hp |]. split.
  - rewrite Htr. unfold before_pass1, log_event, deliver, with_files, after_probes.
    destruct on_line; cbn [trace]; now rewrite <- !List.app_assoc.
  - rewrite Hfs. unfold before_pass1, log_event, deliver, with_files, after_probes.
    destruct on_line; reflexivity.
Qed.

End Orchestration.

(** C5. When the duration is unknown or not positive, the allocation raises
    the [RuntimeError] of line 180, and so does the run, having started
    nothing but the duration queries: no encoding pass, no temporary file,
    no line to the callback. *)
Theorem no_duration_fails_before_encoding (E : env)
    (input_path output_path preset : string) (target_mb : PyFloat.float)
    (audio_bitrate_k : Z) (on_line : option callback) (w : world)
    (duration : option PyFloat.float) :
  fst (get_media_duration E input_path w) = Ok duration ->
  duration = None \/ (exists d, duration = Some d /\ PyFloat.leb d (PyFloat.nearest 0) = true) ->
  allocate target_mb duration audio_bitrate_k = Raise (RuntimeError no_duration_msg)
  /\ exists w' probes,
       convert_to_target_size E input_path output_path target_mb preset
         audio_bitrate_k on_line w
       = (Raise (RuntimeError no_duration_msg), w')
       /\ Forall (is_probe E input_path) probes
       /\ trace w' = (trace w ++ probes)%list
       /\ files w' = files w
       /\ sink w' = sink w.
Proof.
  intros Hdur Hbad. split.
  - unfold allocate. now rewrite (require_duration_unusable duration Hbad).
  - destruct (get_media_duration_world E input_path w) as (r & probes & Hg & Hp).
    rewrite Hg in Hdur. cbn [fst] in Hdur. injection Hdur as ->.
    exists (after_probes probes w), probes.
    split; [| now repeat split].
    eapply convert_without_duration; [exact Hg | exact Hbad].
Qed.

(** A clip whose [ffprobe] answer is [0.000000]: the run fails with the
    duration message and the only process on record is [ffprobe]. *)
Lemma no_duration_fails_before_encoding_sample :
  exists w',
    convert_to_target_size
      (Sample.machine (Sample.exited 0 ("0.000000" ++ LF) "") (Raise OSError)
         (Sample.encoder_exit 0 [] []) (Sample.encoder_exit 0 [] []) (fun _ => true))
      Sample.source Sample.target (PyFloat.nearest 5) "medium" 128 None Sample.blank
    = (Raise (RuntimeError no_duration_msg), w')
    /\ forall e, In e (trace w') -> exists cmd, e = Run cmd.
Proof.
  destruct (no_duration_fails_before_encoding
              (Sample.machine (Sample.exited 0 ("0.000000" ++ LF) "") (Raise OSError)
                 (Sample.encoder_exit 0 [] []) (Sample.encoder_exit 0 [] [])
                 (fun _ => true))
              Sample.source Sample.target "medium" (PyFloat.nearest 5) 128 None Sample.blank (Some (PyFloat.nearest 0)))
    as (_ & w' & probes & Heq & Hp & Htr & _).
  - reflexivity.
  - right. exists (PyFloat.nearest 0). split; reflexivity.
  - exists w'. split; [exact Heq |].
    rewrite Htr. cbn [Sample.blank trace app]. intros e He.
    rewrite Forall_forall in Hp. destruct (Hp e He) as [-> | ->]; eexists; reflexivity.
Defined.

(** C3, as the code has it.  When pass 1 exits with a non-zero code the run
    raises a [RuntimeError] that names pass 1, the exit code and the first
    2000 characters of the diagnostic text; the last process on record is
    pass 1, so pass 2 was never started. *)
Theorem pass1_failure_stops_run (E : env) (input_path output_path preset : string)
    (target_mb : PyFloat.float) (audio_bitrate_k : Z) (on_line : option callback) (w : world)
    (d : PyFloat.float) (video_bitrate_k : Z) (passlog : string) (proc : child) :
  fst (get_media_duration E input_path w) = Ok (Some d) ->
  PyFloat.leb d (PyFloat.nearest 0) = false ->
  bitrate_budget target_mb d audio_bitrate_k = Ok (video_bitrate_k, audio_bitrate_k) ->
  mktemp E = Ok passlog ->
  spawn E (pass1_cmd E input_path passlog
             video_bitrate_k preset) = Ok proc ->
  exit_code proc <> 0 ->
  exists w' probes,
    convert_to_target_size E input_path output_path target_mb preset
      audio_bitrate_k on_line w
    = (Raise (RuntimeError
                ("Pase 1 de two-pass fall" ++ o_acute ++ " (c" ++ o_acute ++ "digo "
                 ++ str_of_int (exit_code proc) ++ "). Salida:" ++ LF
                 ++ take 2000 (join (stderr_lines proc)))), w')
    /\ Forall (is_probe E input_path) probes
    /\ trace w'
       = (trace w ++ probes
          ++ [Run ["-passlogfile"];
              Popen (pass1_cmd E input_path passlog
                       video_bitrate_k preset)])%list.
Proof.
  intros Hdur Hd Hb Htmp Hsp Hrc.
  destruct (convert_pass1_fails E input_path output_path preset target_mb
              audio_bitrate_k on_line w d video_bitrate_k passlog proc Hdur Hd Hb Htmp Hsp Hrc)
    as (w' & probes & Heq & Hp & Htr & _).
  exists w', probes. now repeat split.
Qed.

(** Pass 1 exits with 1 on the 60 s clip: the run raises and the processes
    on record are [ffprobe], the attempt of line 212 and pass 1. *)
Lemma pass1_failure_stops_run_sample :
  exists msg w',
    convert_to_target_size
      (Sample.studio (Sample.encoder_exit 1 Sample.progress [])
         (Sample.encoder_exit 0 Sample.progress []) (fun _ => true))
      Sample.source Sample.target (PyFloat.nearest 5) "medium" 128 (Some Sample.keep_all) Sample.blank
    = (Raise (RuntimeError msg), w')
    /\ List.length (trace w') = 3%nat.
Proof.
  destruct (pass1_failure_stops_run
              (Sample.studio (Sample.encoder_exit 1 Sample.progress [])
                 (Sample.encoder_exit 0 Sample.progress []) (fun _ => true))
              Sample.source Sample.target "medium" (PyFloat.nearest 5) 128 (Some Sample.keep_all)
              Sample.blank (PyFloat.nearest 60) 554 Sample.passlog
              {| diagnostics := map Text Sample.progress; exit_code := 1; created := [] |})
    as (w' & probes & Heq & Hp & Htr); try reflexivity.
  - discriminate.
  - eexists. exists w'. split; [exact Heq |].
    assert (Hw : trace w'
                 = trace (snd (convert_to_target_size
                     (Sample.studio (Sample.encoder_exit 1 Sample.progress [])
                        (Sample.encoder_exit 0 Sample.progress []) (fun _ => true))
                     Sample.source Sample.target (PyFloat.nearest 5) "medium" 128
                     (Some Sample.keep_all) Sample.blank)))
      by now rewrite Heq.
    rewrite Hw. reflexivity.
Defined.

(** C3 as stated fails: after a pass 1 that wrote more than 2000 characters
    the failure of the run does not hold the captured diagnostics. *)
Lemma pass1_failure_loses_diagnostics :
  ~ carries_diagnostics
      (fst (convert_to_target_size
              (Sample.studio (Sample.encoder_exit 1 Sample.long_diagnostics [])
                 (Sample.encoder_exit 0 Sample.progress []) (fun _ => true))
              Sample.source Sample.target (PyFloat.nearest 5) "medium" 128 None Sample.blank))
      (join Sample.long_diagnostics).
Proof.
  intros (msg & Heq & Hc). vm_compute in Heq. injection Heq as <-.
  vm_compute in Hc. discriminate Hc.
Qed.

(** In that run the line that gives the reason is in the captured text and
    not in the message. *)
Example pass1_failure_reason_cut :
  exists msg,
    fst (convert_to_target_size
           (Sample.studio (Sample.encoder_exit 1 Sample.long_diagnostics [])
              (Sample.encoder_exit 0 Sample.progress []) (fun _ => true))
           Sample.source Sample.target (PyFloat.nearest 5) "medium" 128 None Sample.blank)
    = Raise (RuntimeError msg)
    /\ contains "Error while opening encoder" (join Sample.long_diagnostics) = true
    /\ contains "Error while opening encoder" msg = false.
Proof. eexists. split; [vm_compute; reflexivity |]. split; vm_compute; reflexivity. Qed.

(** ** The pass logs *)

Lemma filter_nothing {A} (f : A -> bool) (l : list A) :
  (forall x, In x l -> f x = false) -> filter f l = [].
Proof.
  induction l as [| a l IH]; intros H; [reflexivity |].
  cbn [filter]. rewrite (H a (or_introl eq_refl)).
  apply IH. intros x Hx. apply H. now right.
Qed.

Lemma removals_leave (rm : string -> bool) (doomed fs : list string) (x : string) :
  In x (fold_left
          (fun fs f => if rm f then filter (fun g => negb (g =? f)%string) fs else fs)
          doomed fs) ->
  In x fs /\ ~ (In x doomed /\ rm x = true).
Proof.
  revert fs. induction doomed as [| a doomed IH]; intros fs Hx; cbn [fold_left] in Hx.
  - split; [exact Hx | now intros [[] _]].
  - apply IH in Hx as [Hx Hrest].
    assert (Hfs : In x fs /\ (rm a = true -> x <> a)).
    { destruct (rm a).
      - apply filter_In in Hx as [Hx Hne]. split; [exact Hx |].
        intros _. apply negb_true_iff in Hne. now apply String.eqb_neq in Hne.
      - split; [exact Hx | discriminate]. }
    destruct Hfs as [Hfs Hne]. split; [exact Hfs |].
    intros [[-> | Hin] Hrm]; [now apply Hne | apply Hrest; now split].
Qed.

(** Where the star is the only pattern, [glob] matches by continuation. *)
Lemma glob_star_plain (E : env) (stem : string) (fs : list string) :
  has_magic stem = false ->
  os_name E <> "nt"%string ->
  glob_star E stem fs = filter (matches_star stem) fs.
Proof.
  intros Hm Hos. unfold glob_star. rewrite Hm.
  apply String.eqb_neq in Hos. now rewrite Hos.
Qed.

(** Where the star is the only pattern and every removal succeeds,
    [remove_passlogs] leaves no file that the pattern matches. *)
Lemma remove_passlogs_clears (E : env) (passlog : string) (w : world) :
  has_magic passlog = false ->
  os_name E <> "nt"%string ->
  (forall f, remove_ok E f = true) ->
  glob_star E passlog (files (snd (remove_passlogs E passlog w))) = [].
Proof.
  intros Hm Hos Hrm. unfold remove_passlogs. cbn [snd with_files files].
  rewrite !(glob_star_plain E passlog _ Hm Hos).
  apply filter_nothing. intros x Hx.
  apply removals_leave in Hx as [Hx Hkept].
  destruct (matches_star passlog x) eqn:Hpat; [| reflexivity].
  exfalso. apply Hkept. split; [| apply Hrm].
  apply filter_In. now split.
Qed.

(** Once pass 2 has been started the pass logs are removed, whatever its
    exit code, where the star is the only pattern. *)
Lemma two_pass_encode_clears_after_pass2 (E : env)
    (input_path output_path passlog preset : string) (v a : Z)
    (on_line : option callback) (w : world) (proc1 proc2 : child) :
  spawn E (pass1_cmd E input_path passlog v preset) = Ok proc1 ->
  exit_code proc1 = 0 ->
  spawn E (pass2_cmd E input_path output_path passlog v a preset) = Ok proc2 ->
  has_magic passlog = false ->
  os_name E <> "nt"%string ->
  (forall f, remove_ok E f = true) ->
  glob_star E passlog
    (files (snd (two_pass_encode E input_path output_path passlog v a preset
                   on_line w))) = [].
Proof.
  intros Hsp1 Hrc Hsp2 Hm Hos Hrm.
  unfold two_pass_encode, bind, run_command_show_progress, emit, ret.
  rewrite Hsp1, Hrc. cbn [Z.eqb negb]. rewrite Hsp2.
  match goal with
  | |- context [remove_passlogs E passlog ?w0] =>
      pose proof (remove_passlogs_clears E passlog w0 Hm Hos Hrm) as Hclear;
      destruct (remove_passlogs E passlog w0) as [[[] | e] w1]
  end; exact Hclear.
Qed.

(** C2, where the code departs from it.  After a run whose pass 1 exits
    with a non-zero code the run has failed and the temporary pass-log file
    it created is still on disk. *)
Theorem passlog_survives_pass1_failure (E : env)
    (input_path output_path preset : string) (target_mb : PyFloat.float)
    (audio_bitrate_k : Z) (on_line : option callback) (w : world)
    (d : PyFloat.float) (video_bitrate_k : Z) (passlog : string) (proc : child) :
  fst (get_media_duration E input_path w) = Ok (Some d) ->
  PyFloat.leb d (PyFloat.nearest 0) = false ->
  bitrate_budget target_mb d audio_bitrate_k = Ok (video_bitrate_k, audio_bitrate_k) ->
  mktemp E = Ok passlog ->
  spawn E (pass1_cmd E input_path passlog
             video_bitrate_k preset) = Ok proc ->
  exit_code proc <> 0 ->
  is_ok (fst (convert_to_target_size E input_path output_path target_mb preset
                audio_bitrate_k on_line w)) = false
  /\ In passlog
       (files (snd (convert_to_target_size E input_path output_path target_mb
                      preset audio_bitrate_k on_line w))).
Proof.
  intros Hdur Hd Hb Htmp Hsp Hrc.
  destruct (convert_pass1_fails E input_path output_path preset target_mb
              audio_bitrate_k on_line w d video_bitrate_k passlog proc Hdur Hd Hb Htmp Hsp Hrc)
    as (w' & probes & Heq & _ & _ & Hfs).
  rewrite Heq. cbn [fst snd is_ok]. split; [reflexivity |].
  rewrite Hfs. now left.
Qed.

(** Pass 1 writes its log and exits with 1: the temporary file and the log
    are both left behind, although every removal would succeed. *)
Lemma passlog_survives_pass1_failure_sample :
  is_ok (fst (convert_to_target_size
                (Sample.studio
                   (Sample.encoder_exit 1 Sample.progress ["/tmp/tmpk3x9qv_a-0.log"])
                   (Sample.encoder_exit 0 Sample.progress []) (fun _ => true))
                Sample.source Sample.target (PyFloat.nearest 5) "medium" 128 None Sample.blank)) = false
  /\ In "/tmp/tmpk3x9qv_a"
       (files (snd (convert_to_target_size
                      (Sample.studio
                         (Sample.encoder_exit 1 Sample.progress ["/tmp/tmpk3x9qv_a-0.log"])
                         (Sample.encoder_exit 0 Sample.progress []) (fun _ => true))
                      Sample.source Sample.target (PyFloat.nearest 5) "medium" 128 None Sample.blank))).
Proof.
  apply (passlog_survives_pass1_failure
           (Sample.studio
              (Sample.encoder_exit 1 Sample.progress ["/tmp/tmpk3x9qv_a-0.log"])
              (Sample.encoder_exit 0 Sample.progress []) (fun _ => true))
           Sample.source Sample.target "medium" (PyFloat.nearest 5) 128 None Sample.blank
           (PyFloat.nearest 60) 554 Sample.passlog
           {| diagnostics := map Text Sample.progress; exit_code := 1;
              created := ["/tmp/tmpk3x9qv_a-0.log"] |});
    try reflexivity.
  discriminate.
Defined.

(** The files on disk after that run, and after a run whose pass 1 exits
    with 0 and whose pass 2 exits with 1. *)
Example files_after_sample_runs :
  files (snd (convert_to_target_size
                (Sample.studio
                   (Sample.encoder_exit 1 Sample.progress ["/tmp/tmpk3x9qv_a-0.log"])
                   (Sample.encoder_exit 0 Sample.progress []) (fun _ => true))
                Sample.source Sample.target (PyFloat.nearest 5) "medium" 128 None Sample.blank))
  = ["/tmp/tmpk3x9qv_a"; "/tmp/tmpk3x9qv_a-0.log"]
  /\
  files (snd (convert_to_target_size
                (Sample.studio
                   (Sample.encoder_exit 0 Sample.progress ["/tmp/tmpk3x9qv_a-0.log"])
                   (Sample.encoder_exit 1 Sample.progress [Sample.target])
                   (fun _ => true))
                Sample.source Sample.target (PyFloat.nearest 5) "medium" 128 None Sample.blank))
  = [Sample.target].
Proof. split; reflexivity. Qed.

(** C10, as the code has it.  With pass 1 started: a non-zero exit of
    pass 1 makes the run raise; after a zero exit, a pass 2 that starts makes
    the run return, as a value, the exit code of pass 2 and the diagnostic
    text read from it, whatever that exit code is and whether or not the
    pass logs could be removed; a pass 2 that cannot be started makes the
    run raise the error of the launch. *)
Theorem two_pass_failure_channels (E : env)
    (input_path output_path preset : string) (target_mb : PyFloat.float)
    (audio_bitrate_k : Z) (on_line : option callback) (w : world)
    (d : PyFloat.float) (video_bitrate_k : Z) (passlog : string) (proc1 : child) :
  fst (get_media_duration E input_path w) = Ok (Some d) ->
  PyFloat.leb d (PyFloat.nearest 0) = false ->
  bitrate_budget target_mb d audio_bitrate_k = Ok (video_bitrate_k, audio_bitrate_k) ->
  mktemp E = Ok passlog ->
  spawn E (pass1_cmd E input_path passlog
             video_bitrate_k preset) = Ok proc1 ->
  (exit_code proc1 <> 0 ->
   exists msg,
     fst (convert_to_target_size E input_path output_path target_mb preset
            audio_bitrate_k on_line w) = Raise (RuntimeError msg))
  /\
  (exit_code proc1 = 0 ->
   forall proc2,
     spawn E (pass2_cmd E input_path output_path passlog
                video_bitrate_k
                audio_bitrate_k preset) = Ok proc2 ->
     fst (convert_to_target_size E input_path output_path target_mb preset
            audio_bitrate_k on_line w)
     = Ok (exit_code proc2, join (stderr_lines proc2)))
  /\
  (exit_code proc1 = 0 ->
   forall e,
     spawn E (pass2_cmd E input_path output_path passlog
                video_bitrate_k
                audio_bitrate_k preset) = Raise e ->
     fst (convert_to_target_size E input_path output_path target_mb preset
            audio_bitrate_k on_line w)
     = Raise (launch_error E e)).
Proof.
  intros Hdur Hd Hb Htmp Hsp1. split; [| split].
  - intros Hrc.
    destruct (convert_pass1_fails E input_path output_path preset target_mb
                audio_bitrate_k on_line w d video_bitrate_k passlog proc1 Hdur Hd Hb Htmp Hsp1 Hrc)
      as (w' & probes & Heq & _).
    rewrite Heq. eexists. reflexivity.
  - intros Hrc proc2 Hsp2.
    destruct (get_media_duration_world E input_path w) as (r & probes & Hg & _).
    rewrite Hg in Hdur. cbn [fst] in Hdur. injection Hdur as ->.
    rewrite (convert_reaches_pass1 E input_path output_path preset on_line
               target_mb audio_bitrate_k w _ d video_bitrate_k passlog Hg Hd Hb Htmp).
    now apply (two_pass_encode_pass2_returns E input_path output_path preset
                 on_line passlog _ audio_bitrate_k _ proc1 proc2).
  - intros Hrc e Hsp2.
    destruct (get_media_duration_world E input_path w) as (r & probes & Hg & _).
    rewrite Hg in Hdur. cbn [fst] in Hdur. injection Hdur as ->.
    rewrite (convert_reaches_pass1 E input_path output_path preset on_line
               target_mb audio_bitrate_k w _ d video_bitrate_k passlog Hg Hd Hb Htmp).
    unfold two_pass_encode, bind, run_command_show_progress, emit.
    rewrite Hsp1, Hrc. cbn [Z.eqb negb]. rewrite Hsp2.
    destruct e; reflexivity.
Qed.

(** Pass 1 exits with 0 and pass 2 with 1, and no file can be removed: the
    run returns [(1, text)].  Pass 1 exits with 1: the run raises. *)
Lemma two_pass_failure_channels_sample :
  fst (convert_to_target_size
         (Sample.studio (Sample.encoder_exit 0 [] [])
            (Sample.encoder_exit 1 Sample.progress []) (fun _ => false))
         Sample.source Sample.target (PyFloat.nearest 5) "medium" 128 None Sample.blank)
  = Ok (1, join Sample.progress)
  /\
  exists msg,
    fst (convert_to_target_size
           (Sample.studio (Sample.encoder_exit 1 Sample.progress [])
              (Sample.encoder_exit 0 [] []) (fun _ => true))
           Sample.source Sample.target (PyFloat.nearest 5) "medium" 128 None Sample.blank)
    = Raise (RuntimeError msg).
Proof.
  split.
  - apply (proj1 (proj2 (two_pass_failure_channels
                    (Sample.studio (Sample.encoder_exit 0 [] [])
                       (Sample.encoder_exit 1 Sample.progress []) (fun _ => false))
                    Sample.source Sample.target "medium" (PyFloat.nearest 5) 128 None Sample.blank
                    (PyFloat.nearest 60) 554 Sample.passlog
                    {| diagnostics := map Text []; exit_code := 0; created := [] |}
                    eq_refl eq_refl eq_refl eq_refl eq_refl)) eq_refl
             {| diagnostics := map Text Sample.progress; exit_code := 1; created := [] |}).
    reflexivity.
  - apply (proj1 (two_pass_failure_channels
                    (Sample.studio (Sample.encoder_exit 1 Sample.progress [])
                       (Sample.encoder_exit 0 [] []) (fun _ => true))
                    Sample.source Sample.target "medium" (PyFloat.nearest 5) 128 None Sample.blank
                    (PyFloat.nearest 60) 554 Sample.passlog
                    {| diagnostics := map Text Sample.progress; exit_code := 1; created := [] |}
                    eq_refl eq_refl eq_refl eq_refl eq_refl)).
    discriminate.
Defined.

(** C10 as stated fails: pass 1 exits with 0 and the encoder cannot be
    started a second time; the run does not return, it raises the
    [RuntimeError] of line 92. *)
Lemma pass2_launch_failure_raises :
  fst (convert_to_target_size
         (Sample.studio (Sample.encoder_exit 0 Sample.progress [])
            (Raise FileNotFoundError) (fun _ => true))
         Sample.source Sample.target (PyFloat.nearest 5) "medium" 128 None Sample.blank)
  = Raise (RuntimeError
             (not_found_msg
                (Sample.studio (Sample.encoder_exit 0 Sample.progress [])
                   (Raise FileNotFoundError) (fun _ => true)))).
Proof. vm_compute. reflexivity. Qed.

(** * Further properties *)

(** A stream that decodes is read to its end. *)
Lemma readable_all (lines : list string) : readable (map Text lines) = lines.
Proof. induction lines as [| l lines IH]; cbn; [reflexivity | now rewrite IH]. Qed.

(** ** Runs of the two passes *)


Section Runs.

Variable E : env.
Variables input_path output_path preset : string.
Variable on_line : option callback.

Lemma feed_app (l1 l2 seen : list string) :
  feed on_line (l1 ++ l2)%list seen = feed on_line l2 (feed on_line l1 seen).
Proof. unfold feed. apply fold_left_app. Qed.

Lemma sink_deliver (line : string) (w : world) :
  sink (deliver on_line line w) = feed on_line [line] (sink w).
Proof. unfold deliver, feed. destruct on_line; reflexivity. Qed.

Lemma sink_reader (lines : list string) (w : world) :
  sink (reader on_line lines w) = feed on_line lines (sink w).
Proof.
  revert w. unfold reader.
  induction lines as [| l lines IH]; intros w; [reflexivity |].
  cbn [fold_left]. rewrite IH, sink_deliver. reflexivity.
Qed.

Lemma run_command_started (cmd : list string) (w : world) (proc : child) :
  spawn E cmd = Ok proc ->
  exists w',
    run_command_show_progress E cmd on_line w
    = (Ok (exit_code proc, join (stderr_lines proc)), w')
    /\ trace w' = (trace w ++ [Popen cmd])%list
    /\ sink w' = feed on_line (stderr_lines proc) (sink w)
    /\ files w' = (files w ++ created proc)%list.
Proof.
  intros Hsp. unfold run_command_show_progress. rewrite Hsp.
  eexists. split; [reflexivity |].
  unfold with_files. cbn [files trace sink].
  destruct (reader_keeps on_line (stderr_lines proc) (log_event (Popen cmd) w))
    as [Hf Ht].
  rewrite Hf, Ht, sink_reader. repeat split.
Qed.

Lemma run_command_not_started (cmd : list string) (w : world) (e : exn) :
  spawn E cmd = Raise e ->
  run_command_show_progress E cmd on_line w
  = (Raise (launch_error E e), log_event (Popen cmd) w).
Proof.
  intros Hsp. unfold run_command_show_progress. rewrite Hsp.
  destruct e; reflexivity.
Qed.

Lemma two_pass_encode_completes (passlog : string) (v a : Z) (w : world)
    (proc1 proc2 : child) :
  spawn E (pass1_cmd E input_path passlog v preset) = Ok proc1 ->
  exit_code proc1 = 0 ->
  spawn E (pass2_cmd E input_path output_path passlog v a preset) = Ok proc2 ->
  exists w',
    two_pass_encode E input_path output_path passlog v a preset on_line w
    = (Ok (exit_code proc2, join (stderr_lines proc2)), w')
    /\ trace w'
       = (trace w ++ [Popen (pass1_cmd E input_path passlog v preset);
                      Popen (pass2_cmd E input_path output_path passlog v a preset)])%list
    /\ sink w'
       = feed on_line
           (stderr_lines proc1 ++ ("Ejecutando pase 2..." ++ LF)%string
            :: stderr_lines proc2)%list (sink w)
    /\ files w'
       = surviving E passlog (files w ++ created proc1 ++ created proc2)%list.
Proof.
  intros Hsp1 Hrc Hsp2. unfold two_pass_encode, bind.
  destruct (run_command_started _ w proc1 Hsp1) as (w1 & -> & Ht1 & Hs1 & Hf1).
  rewrite Hrc. cbn [Z.eqb negb]. unfold emit.
  destruct (run_command_started _ (deliver on_line ("Ejecutando pase 2..." ++ LF) w1)
              proc2 Hsp2) as (w2 & -> & Ht2 & Hs2 & Hf2).
  unfold remove_passlogs, ret. eexists. split; [reflexivity |].
  unfold with_files. cbn [files trace sink].
  rewrite Ht2, Hs2, Hf2, sink_deliver.
  assert (Hd : trace (deliver on_line ("Ejecutando pase 2..." ++ LF) w1) = trace w1
               /\ files (deliver on_line ("Ejecutando pase 2..." ++ LF) w1) = files w1).
  { unfold deliver. destruct on_line; now split. }
  destruct Hd as [-> ->]. rewrite Ht1, Hs1, Hf1.
  repeat split.
  - now rewrite <- List.app_assoc.
  - now rewrite <- !feed_app.
  - unfold surviving. now rewrite <- List.app_assoc.
Qed.

Lemma two_pass_encode_pass2_not_started (passlog : string) (v a : Z) (w : world)
    (proc1 : child) (e : exn) :
  spawn E (pass1_cmd E input_path passlog v preset) = Ok proc1 ->
  exit_code proc1 = 0 ->
  spawn E (pass2_cmd E input_path output_path passlog v a preset) = Raise e ->
  exists w',
    two_pass_encode E input_path output_path passlog v a preset on_line w
    = (Raise (launch_error E e), w')
    /\ files w' = (files w ++ created proc1)%list.
Proof.
  intros Hsp1 Hrc Hsp2. unfold two_pass_encode, bind.
  destruct (run_command_started _ w proc1 Hsp1) as (w1 & -> & Ht1 & Hs1 & Hf1).
  rewrite Hrc. cbn [Z.eqb negb]. unfold emit.
  rewrite (run_command_not_started _ _ e Hsp2).
  eexists. split; [reflexivity |].
  unfold log_event, deliver. destruct on_line; cbn [files]; exact Hf1.
Qed.

End Runs.

Section WholeRuns.

Variable E : env.
Variables input_path output_path preset : string.
Variable target_mb : PyFloat.float.
Variable audio_bitrate_k : Z.
Variable on_line : option callback.
Variable w : world.

Lemma before_pass1_parts (d : PyFloat.float) (video_bitrate_k : Z) (passlog : string) (probes : list event) :
  trace (before_pass1 E on_line d target_mb video_bitrate_k audio_bitrate_k passlog
           (after_probes probes w))
  = (trace w ++ probes ++ [Run ["-passlogfile"]])%list
  /\ files (before_pass1 E on_line d target_mb video_bitrate_k audio_bitrate_k passlog
              (after_probes probes w))
     = passlog :: files w
  /\ sink (before_pass1 E on_line d target_mb video_bitrate_k audio_bitrate_k passlog
             (after_probes probes w))
     = feed on_line
         [summary_line E d target_mb
            video_bitrate_k audio_bitrate_k;
          ("Ejecutando pase 1..." ++ LF)%string] (sink w).
Proof.
  unfold before_pass1, log_event, deliver, with_files, after_probes, feed.
  destruct on_line; cbn [files trace sink fold_left];
    repeat split; now rewrite <- List.app_assoc.
Qed.

Lemma convert_mktemp_fails (d : PyFloat.float) (video_bitrate_k : Z) (w1 : world) (e : exn) :
  get_media_duration E input_path w = (Ok (Some d), w1) ->
  PyFloat.leb d (PyFloat.nearest 0) = false ->
  bitrate_budget target_mb d audio_bitrate_k = Ok (video_bitrate_k, audio_bitrate_k) ->
  mktemp E = Raise e ->
  convert_to_target_size E input_path output_path target_mb preset
    audio_bitrate_k on_line w = (Raise e, w1).
Proof.
  intros Hg Hd Hb Htmp. unfold convert_to_target_size, bind, lift.
  rewrite Hg, (require_duration_pos d Hd), Hb.
  unfold named_temporary_file. now rewrite Htmp.
Qed.

Lemma convert_budget_fails (d : PyFloat.float) (w1 : world) (e : exn) :
  get_media_duration E input_path w = (Ok (Some d), w1) ->
  PyFloat.leb d (PyFloat.nearest 0) = false ->
  bitrate_budget target_mb d audio_bitrate_k = Raise e ->
  convert_to_target_size E input_path output_path target_mb preset
    audio_bitrate_k on_line w = (Raise e, w1).
Proof.
  intros Hg Hd Hb. unfold convert_to_target_size, bind, lift.
  now rewrite Hg, (require_duration_pos d Hd), Hb.
Qed.

(** A run whose two passes were both started. *)
Lemma convert_completes (d : PyFloat.float) (video_bitrate_k : Z) (passlog : string) (proc1 proc2 : child) :
  fst (get_media_duration E input_path w) = Ok (Some d) ->
  PyFloat.leb d (PyFloat.nearest 0) = false ->
  bitrate_budget target_mb d audio_bitrate_k = Ok (video_bitrate_k, audio_bitrate_k) ->
  mktemp E = Ok passlog ->
  spawn E (pass1_cmd E input_path passlog
             video_bitrate_k preset) = Ok proc1 ->
  exit_code proc1 = 0 ->
  spawn E (pass2_cmd E input_path output_path passlog
             video_bitrate_k
             audio_bitrate_k preset) = Ok proc2 ->
  exists w' probes,
    convert_to_target_size E input_path output_path target_mb preset
      audio_bitrate_k on_line w
    = (Ok (exit_code proc2, join (stderr_lines proc2)), w')
    /\ Forall (is_probe E input_path) probes
    /\ trace w'
       = (trace w ++ probes
          ++ [Run ["-passlogfile"];
              Popen (pass1_cmd E input_path passlog
                       video_bitrate_k preset);
              Popen (pass2_cmd E input_path output_path passlog
                       video_bitrate_k
                       audio_bitrate_k preset)])%list
    /\ sink w'
       = feed on_line
           (summary_line E d target_mb
              video_bitrate_k audio_bitrate_k
            :: ("Ejecutando pase 1..." ++ LF)%string
            :: stderr_lines proc1
            ++ ("Ejecutando pase 2..." ++ LF)%string :: stderr_lines proc2)%list
           (sink w)
    /\ files w'
       = surviving E passlog
           (passlog :: files w ++ created proc1 ++ created proc2)%list.
Proof.
  intros Hdur Hd Hb Htmp Hsp1 Hrc Hsp2.
  destruct (get_media_duration_world E input_path w) as (r & probes & Hg & Hp).
  rewrite Hg in Hdur. cbn [fst] in Hdur. injection Hdur as ->.
  rewrite (convert_reaches_pass1 E input_path output_path preset on_line
             target_mb audio_bitrate_k w _ d video_bitrate_k passlog Hg Hd Hb Htmp).
  destruct (before_pass1_parts d video_bitrate_k passlog probes) as (Ht0 & Hf0 & Hs0).
  destruct (two_pass_encode_completes E input_path output_path preset on_line
              passlog _ audio_bitrate_k
              (before_pass1 E on_line d target_mb video_bitrate_k audio_bitrate_k passlog
                 (after_probes probes w)) proc1 proc2 Hsp1 Hrc Hsp2)
    as (w' & Heq & Ht & Hs & Hf).
  exists w', probes. split; [exact Heq |]. split; [exact Hp |].
  rewrite Ht, Hs, Hf, Ht0, Hs0, Hf0. split; [| split].
  - now rewrite <- !List.app_assoc.
  - now rewrite <- feed_app.
  - reflexivity.
Qed.

End WholeRuns.

(** Two-pass run, both passes started: besides the duration queries and the
    attempt of line 212, the run starts exactly two processes, pass 1 and
    then pass 2, with the same pass-log name and the same video bitrate;
    pass 1 has no audio and writes to the null device, pass 2 writes the
    output file. *)
Theorem two_pass_starts_two_encoders (E : env)
    (input_path output_path preset : string) (target_mb : PyFloat.float)
    (audio_bitrate_k : Z) (on_line : option callback) (w : world)
    (d : PyFloat.float) (video_bitrate_k : Z) (passlog : string) (proc1 proc2 : child) :
  fst (get_media_duration E input_path w) = Ok (Some d) ->
  PyFloat.leb d (PyFloat.nearest 0) = false ->
  bitrate_budget target_mb d audio_bitrate_k = Ok (video_bitrate_k, audio_bitrate_k) ->
  mktemp E = Ok passlog ->
  spawn E (pass1_cmd E input_path passlog
             video_bitrate_k preset) = Ok proc1 ->
  exit_code proc1 = 0 ->
  spawn E (pass2_cmd E input_path output_path passlog
             video_bitrate_k
             audio_bitrate_k preset) = Ok proc2 ->
  (exists probes,
     Forall (is_probe E input_path) probes
     /\ trace (snd (convert_to_target_size E input_path output_path target_mb
                      preset audio_bitrate_k on_line w))
        = (trace w ++ probes
           ++ [Run ["-passlogfile"];
               Popen (pass1_cmd E input_path passlog
                        video_bitrate_k preset);
               Popen (pass2_cmd E input_path output_path passlog
                        video_bitrate_k
                        audio_bitrate_k preset)])%list)
  /\ In "-an" (pass1_cmd E input_path passlog
                 video_bitrate_k preset)
  /\ last (pass1_cmd E input_path passlog
             video_bitrate_k preset) ""
     = devnull E
  /\ last (pass2_cmd E input_path output_path passlog
             video_bitrate_k
             audio_bitrate_k preset) ""
     = output_path.
Proof.
  intros Hdur Hd Hb Htmp Hsp1 Hrc Hsp2. split.
  - destruct (convert_completes E input_path output_path preset target_mb
                audio_bitrate_k on_line w d video_bitrate_k passlog proc1 proc2
                Hdur Hd Hb Htmp Hsp1 Hrc Hsp2) as (w' & probes & Heq & Hp & Htr & _).
    exists probes. rewrite Heq. now split.
  - repeat split. unfold pass1_cmd. cbn [In]. intuition.
Qed.

Lemma two_pass_starts_two_encoders_sample :
  exists probes,
    Forall (is_probe (Desk.encodes 0 0 (fun _ => true)) Sample.source) probes
    /\ trace (snd (convert_to_target_size (Desk.encodes 0 0 (fun _ => true))
                     Sample.source Sample.target (PyFloat.nearest 5) "medium" 128 None Desk.disk))
       = (probes
          ++ [Run ["-passlogfile"];
              Popen (pass1_cmd (Desk.encodes 0 0 (fun _ => true)) Sample.source
                       Sample.passlog 554 "medium");
              Popen (pass2_cmd (Desk.encodes 0 0 (fun _ => true)) Sample.source
                       Sample.target Sample.passlog 554 128 "medium")])%list.
Proof.
  apply (proj1 (two_pass_starts_two_encoders (Desk.encodes 0 0 (fun _ => true))
                  Sample.source Sample.target "medium" (PyFloat.nearest 5) 128 None Desk.disk
                  (PyFloat.nearest 60) 554 Sample.passlog
                  {| diagnostics := map Text Sample.progress; exit_code := 0;
                     created := [Desk.pass_log] |}
                  {| diagnostics := map Text Sample.progress; exit_code := 0;
                     created := [Sample.target] |}
                  eq_refl eq_refl eq_refl eq_refl eq_refl eq_refl eq_refl)).
Defined.

(** Two-pass run, both passes started: the callback receives, in this
    order, the summary of the budget, the announcement of pass 1, the lines
    read from the diagnostics of pass 1, the announcement of pass 2, the
    lines read from the diagnostics of pass 2 -- and nothing else.  Where
    the diagnostics of both passes decode, those are all their lines. *)
Theorem callback_sees_phases_in_order (E : env)
    (input_path output_path preset : string) (target_mb : PyFloat.float)
    (audio_bitrate_k : Z) (on_line : option callback) (w : world)
    (d : PyFloat.float) (video_bitrate_k : Z) (passlog : string) (proc1 proc2 : child) :
  fst (get_media_duration E input_path w) = Ok (Some d) ->
  PyFloat.leb d (PyFloat.nearest 0) = false ->
  bitrate_budget target_mb d audio_bitrate_k = Ok (video_bitrate_k, audio_bitrate_k) ->
  mktemp E = Ok passlog ->
  spawn E (pass1_cmd E input_path passlog
             video_bitrate_k preset) = Ok proc1 ->
  exit_code proc1 = 0 ->
  spawn E (pass2_cmd E input_path output_path passlog
             video_bitrate_k
             audio_bitrate_k preset) = Ok proc2 ->
  sink (snd (convert_to_target_size E input_path output_path target_mb preset
               audio_bitrate_k on_line w))
  = feed on_line
      (summary_line E d target_mb
         video_bitrate_k audio_bitrate_k
       :: ("Ejecutando pase 1..." ++ LF)%string
       :: stderr_lines proc1
       ++ ("Ejecutando pase 2..." ++ LF)%string :: stderr_lines proc2)%list
      (sink w)
  /\ (forall lines1 lines2,
        diagnostics proc1 = map Text lines1 ->
        diagnostics proc2 = map Text lines2 ->
        sink (snd (convert_to_target_size E input_path output_path target_mb preset
                     audio_bitrate_k on_line w))
        = feed on_line
            (summary_line E d target_mb video_bitrate_k audio_bitrate_k
             :: ("Ejecutando pase 1..." ++ LF)%string
             :: lines1
             ++ ("Ejecutando pase 2..." ++ LF)%string :: lines2)%list
            (sink w)).
Proof.
  intros Hdur Hd Hb Htmp Hsp1 Hrc Hsp2.
  destruct (convert_completes E input_path output_path preset target_mb
              audio_bitrate_k on_line w d video_bitrate_k passlog proc1 proc2
              Hdur Hd Hb Htmp Hsp1 Hrc Hsp2) as (w' & probes & Heq & _ & _ & Hs & _).
  rewrite Heq. cbn [snd]. split; [exact Hs |].
  intros lines1 lines2 H1 H2. rewrite Hs. unfold stderr_lines.
  now rewrite H1, H2, !readable_all.
Qed.

Lemma callback_sees_phases_in_order_sample :
  sink (snd (convert_to_target_size (Desk.encodes 0 0 (fun _ => true))
               Sample.source Sample.target (PyFloat.nearest 5) "medium" 128
               (Some Sample.keep_all) Desk.disk))
  = (("Two-pass: duraci" ++ o_acute ++ "n 60.00s, objetivo 5.0MB -> video 554k, audio 128k" ++ LF)%string
     :: ("Ejecutando pase 1..." ++ LF)%string
     :: Sample.progress
     ++ ("Ejecutando pase 2..." ++ LF)%string :: Sample.progress)%list.
Proof.
  rewrite (proj2 (callback_sees_phases_in_order (Desk.encodes 0 0 (fun _ => true))
             Sample.source Sample.target "medium" (PyFloat.nearest 5) 128 (Some Sample.keep_all)
             Desk.disk (PyFloat.nearest 60) 554 Sample.passlog
             {| diagnostics := map Text Sample.progress; exit_code := 0;
                created := [Desk.pass_log] |}
             {| diagnostics := map Text Sample.progress; exit_code := 0;
                created := [Sample.target] |}
             eq_refl eq_refl eq_refl eq_refl eq_refl eq_refl eq_refl)
             Sample.progress Sample.progress eq_refl eq_refl).
  reflexivity.
Defined.

(** ** What the removal of the pass logs touches *)

Lemma substring_past_end (s : string) (n : nat) :
  substring (String.length s) n s = ""%string.
Proof.
  induction s as [| c s IH]; cbn [String.length substring]; [now destruct n | exact IH].
Qed.

Lemma removals_keep (rm : string -> bool) (doomed fs : list string) (x : string) :
  In x fs -> ~ In x doomed ->
  In x (fold_left
          (fun fs f => if rm f then filter (fun g => negb (g =? f)%string) fs else fs)
          doomed fs).
Proof.
  revert fs. induction doomed as [| a doomed IH]; intros fs Hx Hnot; [exact Hx |].
  cbn [fold_left]. apply IH.
  - destruct (rm a); [| exact Hx].
    apply filter_In. split; [exact Hx |].
    apply negb_true_iff, String.eqb_neq. intros ->. apply Hnot. now left.
  - intros Hin. apply Hnot. now right.
Qed.

Section PlainGlob.

Variable E : env.
Variable passlog : string.
Hypothesis Hmagic : has_magic passlog = false.
Hypothesis Hos : os_name E <> "nt"%string.

Lemma glob_star_continues (fs : list string) (x : string) :
  In x (glob_star E passlog fs) -> prefix passlog x = true.
Proof.
  rewrite (glob_star_plain E passlog fs Hmagic Hos). unfold matches_star.
  intros Hx. apply filter_In in Hx as [_ Hx].
  apply andb_true_iff in Hx as [Hx _]. now apply andb_true_iff in Hx as [Hx _].
Qed.

Lemma surviving_keeps (fs : list string) (x : string) :
  In x fs -> prefix passlog x = false -> In x (surviving E passlog fs).
Proof.
  intros Hx Hpre. unfold surviving. apply removals_keep; [exact Hx |].
  intros Hin. apply glob_star_continues in Hin. congruence.
Qed.

Lemma surviving_clears (fs : list string) :
  (forall f, remove_ok E f = true) ->
  glob_star E passlog (surviving E passlog fs) = [].
Proof.
  intros Hrm.
  exact (remove_passlogs_clears E passlog
           {| files := fs; trace := []; sink := [] |} Hmagic Hos Hrm).
Qed.

Lemma glob_star_self (fs : list string) :
  open_dir passlog = false -> In passlog fs -> In passlog (glob_star E passlog fs).
Proof.
  intros Hopen Hin. rewrite (glob_star_plain E passlog fs Hmagic Hos).
  apply filter_In. split; [exact Hin |].
  unfold matches_star. rewrite substring_past_end, Hopen.
  rewrite <- (PyStrFacts.str_app_empty_r passlog) at 2.
  rewrite PyStrFacts.prefix_app. reflexivity.
Qed.

End PlainGlob.


(** Two-pass run on a POSIX machine, the temporary name free of pattern
    characters and not ending in a separator, both passes started, every
    removal succeeding: whatever the exit code of pass 2, no file that
    [passlog + "*"] matches is left, the temporary file is gone, and every
    file that was there or that the passes wrote and whose name does not
    continue the pass-log name is still there. *)
Theorem pass_logs_removed_after_pass2 (E : env)
    (input_path output_path preset : string) (target_mb : PyFloat.float)
    (audio_bitrate_k : Z) (on_line : option callback) (w : world)
    (d : PyFloat.float) (video_bitrate_k : Z) (passlog : string) (proc1 proc2 : child) :
  fst (get_media_duration E input_path w) = Ok (Some d) ->
  PyFloat.leb d (PyFloat.nearest 0) = false ->
  bitrate_budget target_mb d audio_bitrate_k = Ok (video_bitrate_k, audio_bitrate_k) ->
  mktemp E = Ok passlog ->
  spawn E (pass1_cmd E input_path passlog
             video_bitrate_k preset) = Ok proc1 ->
  exit_code proc1 = 0 ->
  spawn E (pass2_cmd E input_path output_path passlog
             video_bitrate_k
             audio_bitrate_k preset) = Ok proc2 ->
  os_name E <> "nt"%string ->
  has_magic passlog = false ->
  open_dir passlog = false ->
  (forall f, remove_ok E f = true) ->
  glob_star E passlog
    (files (snd (convert_to_target_size E input_path output_path target_mb
                   preset audio_bitrate_k on_line w))) = []
  /\ ~ In passlog
        (files (snd (convert_to_target_size E input_path output_path target_mb
                       preset audio_bitrate_k on_line w)))
  /\ (forall f,
        In f (files w ++ created proc1 ++ created proc2)%list ->
        prefix passlog f = false ->
        In f (files (snd (convert_to_target_size E input_path output_path
                            target_mb preset audio_bitrate_k on_line w)))).
Proof.
  intros Hdur Hd Hb Htmp Hsp1 Hrc Hsp2 Hos Hmagic Hopen Hrm.
  destruct (convert_completes E input_path output_path preset target_mb
              audio_bitrate_k on_line w d video_bitrate_k passlog proc1 proc2
              Hdur Hd Hb Htmp Hsp1 Hrc Hsp2) as (w' & probes & Heq & _ & _ & _ & Hf).
  rewrite Heq. cbn [snd]. rewrite Hf.
  pose proof (surviving_clears E passlog Hmagic Hos
                (passlog :: files w ++ created proc1 ++ created proc2)%list Hrm)
    as Hclear.
  split; [exact Hclear | split].
  - intros Hin. apply (glob_star_self E passlog Hmagic Hos _ Hopen) in Hin.
    rewrite Hclear in Hin. exact Hin.
  - intros f Hin Hpre. apply surviving_keeps; [assumption | assumption | now right | exact Hpre].
Qed.

(** Pass 1 exits with 0 and pass 2 with 1 on a disk that holds the source
    and a stranger's temporary file: afterwards the disk holds those two and
    the output, and neither the temporary file nor the log of the run. *)
Lemma pass_logs_removed_after_pass2_sample :
  ~ In Sample.passlog
      (files (snd (convert_to_target_size (Desk.encodes 0 1 (fun _ => true))
                     Sample.source Sample.target (PyFloat.nearest 5) "medium" 128 None Desk.disk)))
  /\ files (snd (convert_to_target_size (Desk.encodes 0 1 (fun _ => true))
                   Sample.source Sample.target (PyFloat.nearest 5) "medium" 128 None Desk.disk))
     = [Sample.source; "/tmp/tmpzz81_other"; Sample.target].
Proof.
  split; [| reflexivity].
  apply (proj1 (proj2 (pass_logs_removed_after_pass2
                  (Desk.encodes 0 1 (fun _ => true))
                  Sample.source Sample.target "medium" (PyFloat.nearest 5) 128 None Desk.disk
                  (PyFloat.nearest 60) 554 Sample.passlog
                  {| diagnostics := map Text Sample.progress; exit_code := 0;
                     created := [Desk.pass_log] |}
                  {| diagnostics := map Text Sample.progress; exit_code := 1;
                     created := [Sample.target] |}
                  eq_refl eq_refl eq_refl eq_refl eq_refl eq_refl eq_refl
                  ltac:(discriminate) eq_refl eq_refl (fun _ => eq_refl)))).
Defined.

Lemma two_pass_encode_keeps_files (E : env)
    (input_path output_path passlog preset : string) (v a : Z)
    (on_line : option callback) (w : world) (f : string) :
  has_magic passlog = false ->
  os_name E <> "nt"%string ->
  In f (files w) -> prefix passlog f = false ->
  In f (files (snd (two_pass_encode E input_path output_path passlog v a preset
                      on_line w))).
Proof.
  intros Hmagic Hos Hin Hpre.
  destruct (spawn E (pass1_cmd E input_path passlog v preset)) as [proc1 | e1] eqn:Hsp1.
  2:{ unfold two_pass_encode, bind.
      rewrite (run_command_not_started E on_line _ w e1 Hsp1). exact Hin. }
  destruct (Z.eq_dec (exit_code proc1) 0) as [Hrc | Hrc].
  2:{ destruct (two_pass_encode_pass1_fails E input_path output_path preset on_line
                  passlog v a w proc1 Hsp1 Hrc) as (w' & -> & _ & Hf).
      cbn [snd]. rewrite Hf. apply in_or_app. now left. }
  destruct (spawn E (pass2_cmd E input_path output_path passlog v a preset))
    as [proc2 | e2] eqn:Hsp2.
  - destruct (two_pass_encode_completes E input_path output_path preset on_line
                passlog v a w proc1 proc2 Hsp1 Hrc Hsp2) as (w' & -> & _ & _ & Hf).
    cbn [snd]. rewrite Hf. apply surviving_keeps; [assumption | assumption | | exact Hpre].
    apply in_or_app. now left.
  - destruct (two_pass_encode_pass2_not_started E input_path output_path preset
                on_line passlog v a w proc1 e2 Hsp1 Hrc Hsp2) as (w' & -> & Hf).
    cbn [snd]. rewrite Hf. apply in_or_app. now left.
Qed.

(** On a POSIX machine whose temporary names are free of pattern
    characters, whatever happens in a target-size run -- unknown duration, a
    budget that cannot be computed, no temporary file, a pass that cannot be
    started or fails, or success -- a file that was on disk before and whose
    name does not continue the pass-log name is still on disk afterwards. *)
Theorem unrelated_files_survive (E : env)
    (input_path output_path preset : string) (target_mb : PyFloat.float)
    (audio_bitrate_k : Z) (on_line : option callback) (w : world) (f : string) :
  os_name E <> "nt"%string ->
  In f (files w) ->
  (forall passlog,
     mktemp E = Ok passlog -> has_magic passlog = false /\ prefix passlog f = false) ->
  In f (files (snd (convert_to_target_size E input_path output_path target_mb
                      preset audio_bitrate_k on_line w))).
Proof.
  intros Hos Hin Hpre.
  destruct (get_media_duration_world E input_path w) as (r & probes & Hg & _).
  assert (Hbad : forall duration,
             r = duration ->
             duration = None \/ (exists d, duration = Some d /\ PyFloat.leb d (PyFloat.nearest 0) = true) ->
             In f (files (snd (convert_to_target_size E input_path output_path
                                 target_mb preset audio_bitrate_k on_line w)))).
  { intros duration -> Hbad.
    now rewrite (convert_without_duration E input_path output_path preset on_line
                   target_mb audio_bitrate_k w _ duration Hg Hbad). }
  destruct r as [d |]; [| apply (Hbad None eq_refl); now left].
  destruct (PyFloat.leb d (PyFloat.nearest 0)) eqn:Hd.
  1:{ apply (Hbad (Some d) eq_refl). right. now exists d. }
  destruct (bitrate_budget target_mb d audio_bitrate_k) as [[v a] | e] eqn:Hb.
  2:{ now rewrite (convert_budget_fails E input_path output_path preset target_mb
                     audio_bitrate_k on_line w d _ e Hg Hd Hb). }
  pose proof (bitrate_budget_audio _ _ _ _ _ Hb) as ->.
  destruct (mktemp E) as [passlog | e] eqn:Htmp.
  - rewrite (convert_reaches_pass1 E input_path output_path preset on_line
               target_mb audio_bitrate_k w _ d v passlog Hg Hd Hb Htmp).
    destruct (Hpre passlog eq_refl) as [Hmagic Hprefix].
    apply two_pass_encode_keeps_files; [exact Hmagic | exact Hos | | exact Hprefix].
    destruct (before_pass1_parts E target_mb audio_bitrate_k on_line w d v passlog probes)
      as (_ & -> & _). now right.
  - now rewrite (convert_mktemp_fails E input_path output_path preset target_mb
                   audio_bitrate_k on_line w d v _ e Hg Hd Hb Htmp).
Qed.

Lemma unrelated_files_survive_sample :
  In "/tmp/tmpzz81_other"
    (files (snd (convert_to_target_size (Desk.encodes 0 0 (fun _ => true))
                   Sample.source Sample.target (PyFloat.nearest 5) "medium" 128 None Desk.disk))).
Proof.
  apply unrelated_files_survive.
  - discriminate.
  - right. now left.
  - intros passlog Htmp. injection Htmp as <-. split; reflexivity.
Defined.

(** A pass that cannot be started ends the run with the exception of the
    launch ([FileNotFoundError] as the [RuntimeError] of line 92); when it
    is pass 2 that cannot be started, after a pass 1 that exited with 0, the
    temporary file and what pass 1 wrote stay on disk. *)
Theorem launch_failure_ends_run (E : env)
    (input_path output_path preset : string) (target_mb : PyFloat.float)
    (audio_bitrate_k : Z) (on_line : option callback) (w : world)
    (d : PyFloat.float) (video_bitrate_k : Z) (passlog : string) (e : exn) :
  fst (get_media_duration E input_path w) = Ok (Some d) ->
  PyFloat.leb d (PyFloat.nearest 0) = false ->
  bitrate_budget target_mb d audio_bitrate_k = Ok (video_bitrate_k, audio_bitrate_k) ->
  mktemp E = Ok passlog ->
  (spawn E (pass1_cmd E input_path passlog
              video_bitrate_k preset) = Raise e ->
   fst (convert_to_target_size E input_path output_path target_mb preset
          audio_bitrate_k on_line w) = Raise (launch_error E e)
   /\ files (snd (convert_to_target_size E input_path output_path target_mb preset
                    audio_bitrate_k on_line w)) = passlog :: files w)
  /\
  (forall proc1,
     spawn E (pass1_cmd E input_path passlog
                video_bitrate_k preset) = Ok proc1 ->
     exit_code proc1 = 0 ->
     spawn E (pass2_cmd E input_path output_path passlog
                video_bitrate_k
                audio_bitrate_k preset) = Raise e ->
     fst (convert_to_target_size E input_path output_path target_mb preset
            audio_bitrate_k on_line w) = Raise (launch_error E e)
     /\ files (snd (convert_to_target_size E input_path output_path target_mb preset
                      audio_bitrate_k on_line w))
        = (passlog :: files w ++ created proc1)%list).
Proof.
  intros Hdur Hd Hb Htmp.
  destruct (get_media_duration_world E input_path w) as (r & probes & Hg & _).
  rewrite Hg in Hdur. cbn [fst] in Hdur. injection Hdur as ->.
  rewrite (convert_reaches_pass1 E input_path output_path preset on_line
             target_mb audio_bitrate_k w _ d video_bitrate_k passlog Hg Hd Hb Htmp).
  destruct (before_pass1_parts E target_mb audio_bitrate_k on_line w d video_bitrate_k passlog probes)
    as (_ & Hf0 & _).
  split.
  - intros Hsp1. unfold two_pass_encode, bind.
    rewrite (run_command_not_started E on_line _ _ e Hsp1).
    cbn [fst snd]. split; [reflexivity |]. unfold log_event. cbn [files]. exact Hf0.
  - intros proc1 Hsp1 Hrc Hsp2.
    destruct (two_pass_encode_pass2_not_started E input_path output_path preset
                on_line passlog _ audio_bitrate_k
                (before_pass1 E on_line d target_mb video_bitrate_k audio_bitrate_k passlog
                   (after_probes probes w)) proc1 e Hsp1 Hrc Hsp2)
      as (w' & -> & Hf).
    cbn [fst snd]. split; [reflexivity |]. now rewrite Hf, Hf0.
Qed.

(** The encoder disappears between the passes. *)
Lemma launch_failure_ends_run_sample :
  fst (convert_to_target_size
         (Sample.studio (Sample.encoder_exit 0 Sample.progress [Desk.pass_log])
            (Raise FileNotFoundError) (fun _ => true))
         Sample.source Sample.target (PyFloat.nearest 5) "medium" 128 None Sample.blank)
  = Raise (RuntimeError
             (not_found_msg
                (Sample.studio (Sample.encoder_exit 0 Sample.progress [Desk.pass_log])
                   (Raise FileNotFoundError) (fun _ => true))))
  /\ files (snd (convert_to_target_size
                   (Sample.studio (Sample.encoder_exit 0 Sample.progress [Desk.pass_log])
                      (Raise FileNotFoundError) (fun _ => true))
                   Sample.source Sample.target (PyFloat.nearest 5) "medium" 128 None Sample.blank))
     = [Sample.passlog; Desk.pass_log].
Proof.
  apply (proj2 (launch_failure_ends_run
                  (Sample.studio (Sample.encoder_exit 0 Sample.progress [Desk.pass_log])
                     (Raise FileNotFoundError) (fun _ => true))
                  Sample.source Sample.target "medium" (PyFloat.nearest 5) 128 None Sample.blank
                  (PyFloat.nearest 60) 554 Sample.passlog FileNotFoundError eq_refl eq_refl eq_refl eq_refl)
           {| diagnostics := map Text Sample.progress; exit_code := 0;
              created := [Desk.pass_log] |} eq_refl eq_refl eq_refl).
Defined.

(** ** More on the duration query *)

Lemma probe_structured_failure_world (E : env) (input_path : string) (w : world) :
  structured_query_fails E input_path ->
  probe_structured E input_path w
  = (Ok None,
     after_probes
       (if which E (FFPROBE_PATH E) then [Run (ffprobe_cmd E input_path)] else []) w).
Proof.
  destruct w as [fs tr sk].
  unfold structured_query_fails, probe_structured, try_except, bind, run_process,
    lift, ret, after_probes, log_event. cbn [files trace sink].
  intros [Hw | Hq].
  - rewrite Hw. now rewrite app_nil_r.
  - destruct (which E (FFPROBE_PATH E)); [| now rewrite app_nil_r].
    destruct (subprocess_run E (ffprobe_cmd E input_path)) as [proc | e]; [| reflexivity].
    destruct Hq as [Hrc | [Hout | Hfl]].
    + apply Z.eqb_neq in Hrc. now rewrite Hrc.
    + rewrite Hout, String.eqb_refl, andb_false_r. reflexivity.
    + destruct ((returncode proc =? 0) && negb (strip (stdout proc) =? "")%string);
        [| reflexivity].
      destruct (PyFloat.float_of_string (strip (stdout proc))); [discriminate | reflexivity].
Qed.

(** [ffmpeg -i] is run only if [ffprobe] gave nothing: when [ffprobe]
    answers, it is the only process of the query; when it is not installed
    it is not started at all; in every failing case the fallback comes
    after it. *)
Theorem fallback_only_after_ffprobe (E : env) (input_path : string) (w : world) :
  (forall (proc : completed) (d : PyFloat.float),
     which E (FFPROBE_PATH E) = true ->
     subprocess_run E (ffprobe_cmd E input_path) = Ok proc ->
     returncode proc = 0 ->
     strip (stdout proc) <> ""%string ->
     PyFloat.float_of_string (strip (stdout proc)) = Ok d ->
     get_media_duration E input_path w
     = (Ok (Some d), after_probes [Run (ffprobe_cmd E input_path)] w))
  /\
  (structured_query_fails E input_path ->
   trace (snd (get_media_duration E input_path w))
   = (trace w
      ++ (if which E (FFPROBE_PATH E) then [Run (ffprobe_cmd E input_path)] else [])
      ++ [Run (ffmpeg_info_cmd E input_path)])%list).
Proof.
  split.
  - intros proc d Hw Hrun Hrc Hout Hfl.
    unfold get_media_duration, probe_structured, try_except, bind, run_process,
      lift, ret.
    rewrite Hw, Hrun, Hrc. apply String.eqb_neq in Hout. rewrite Hout.
    cbn [Z.eqb andb negb]. rewrite Hfl. reflexivity.
  - intros Hfail. unfold get_media_duration, bind.
    rewrite (probe_structured_failure_world E input_path w Hfail).
    destruct (probe_textual_world E input_path
                (after_probes
                   (if which E (FFPROBE_PATH E)
                    then [Run (ffprobe_cmd E input_path)] else []) w)) as (r & ->).
    unfold after_probes. cbn [snd trace]. now rewrite <- List.app_assoc.
Qed.

Lemma fallback_only_after_ffprobe_sample :
  trace (snd (get_media_duration Desk.probe_answers Sample.source Sample.blank))
  = [Run ["/usr/bin/ffprobe"; "-v"; "error"; "-show_entries"; "format=duration";
          "-of"; "default=noprint_wrappers=1:nokey=1"; Sample.source]]
  /\
  trace (snd (get_media_duration Desk.probe_fails Sample.source Sample.blank))
  = [Run ["/usr/bin/ffprobe"; "-v"; "error"; "-show_entries"; "format=duration";
          "-of"; "default=noprint_wrappers=1:nokey=1"; Sample.source];
     Run ["/usr/bin/ffmpeg"; "-i"; Sample.source]].
Proof.
  split.
  - rewrite (proj1 (fallback_only_after_ffprobe Desk.probe_answers Sample.source
                      Sample.blank)
               {| returncode := 0; stdout := "83.450000" ++ LF; stderr := "" |}
               (SpecFloat.S754_finite false 5872271701626061 (-46))
               eq_refl eq_refl eq_refl);
      [reflexivity | discriminate | vm_compute; reflexivity].
  - rewrite (proj2 (fallback_only_after_ffprobe Desk.probe_fails Sample.source
                      Sample.blank));
      [reflexivity |].
    right. cbn. left. discriminate.
Defined.

(** The scan returns the first labelled line that parses: labelled lines
    before it that do not parse, such as [Duration: N/A], are passed over. *)
Theorem scan_duration_first_parsable (before after : list string) (line : string)
    (d : PyFloat.float) :
  (forall l, In l before ->
     contains "Duration:" l = false \/ is_ok (parse_duration_line l) = false) ->
  contains "Duration:" line = true ->
  parse_duration_line line = Ok d ->
  scan_duration (before ++ line :: after)%list = Some d.
Proof.
  intros Hbefore Hlab Hparse.
  induction before as [| l before IH]; cbn [app scan_duration].
  - now rewrite Hlab, Hparse.
  - assert (IH' : scan_duration (before ++ line :: after)%list = Some d).
    { apply IH. intros l' Hl'. apply Hbefore. now right. }
    destruct (Hbefore l (or_introl eq_refl)) as [Hno | Hbad].
    + now rewrite Hno.
    + destruct (contains "Duration:" l); [| exact IH'].
      destruct (parse_duration_line l); [discriminate | exact IH'].
Qed.

Lemma scan_duration_first_parsable_sample :
  scan_duration
    ["Input #0, mpegts, from 'live.ts':";
     "  Duration: N/A, start: 1.400000, bitrate: N/A";
     "  Duration: 00:00:05.00, start: 0.000000, bitrate: 64 kb/s";
     "  Duration: 00:09:00.00, start: 0.000000, bitrate: 64 kb/s"]
  = Some (PyFloat.nearest 5).
Proof.
  apply (scan_duration_first_parsable
           ["Input #0, mpegts, from 'live.ts':";
            "  Duration: N/A, start: 1.400000, bitrate: N/A"]
           ["  Duration: 00:09:00.00, start: 0.000000, bitrate: 64 kb/s"]);
    [| reflexivity | reflexivity].
  intros l [<- | [<- | []]]; [left | right]; reflexivity.
Defined.

Lemma split_char_length (c : ascii) (s cur : string) :
  List.length (split_from (String c "") 0 cur s) = S (count_char c s).
Proof.
  revert cur. induction s as [| x s IH]; intros cur; [reflexivity |].
  cbn [split_from count_char]. cbn [prefix].
  destruct (ascii_dec c x) as [<- | Hne].
  - rewrite Ascii.eqb_refl. destruct s; cbn [prefix List.length String.length Nat.sub];
      rewrite IH; reflexivity.
  - assert (Hx : Ascii.eqb x c = false) by (apply Ascii.eqb_neq; congruence).
    rewrite Hx. apply IH.
Qed.

(** A labelled line whose duration field does not hold exactly two colons
    ([N/A], a bare number of seconds, [MM:SS]) is rejected. *)
Theorem duration_field_needs_two_colons (ind field rest : string) :
  lacks "D" ind = true ->
  lacks "D" field = true ->
  lacks "," field = true ->
  count_char ":" (strip field) <> 2%nat ->
  is_ok (parse_duration_line (ind ++ "Duration:" ++ field ++ "," ++ rest)) = false.
Proof.
  intros Hind HfD Hfc Hcount. unfold parse_duration_line.
  rewrite (split_first "D" "uration:" ind _ Hind). cbn [nth_error].
  assert (Htail : (field ++ "," ++ rest = (field ++ ",") ++ rest)%string)
    by now rewrite str_app_assoc.
  rewrite Htail.
  assert (HD : lacks "D" (field ++ ",") = true).
  { unfold lacks in *. rewrite all_chars_app, HfD. reflexivity. }
  unfold split at 1.
  rewrite (split_from_lacks "D" "uration:" _ "" rest HD).
  destruct (split_from_head "Duration:" rest ("" ++ field ++ ",")) as (y & tl & ->).
  cbn [nth_error append]. rewrite str_app_assoc.
  rewrite (split_first "," "" field y Hfc).
  pose proof (split_char_length ":" (strip field) "") as Hlen.
  fold (split ":" (strip field)) in Hlen.
  destruct (split ":" (strip field)) as [| h [| m [| s [| x l]]]];
    cbn [List.length] in Hlen; try reflexivity.
  exfalso. apply Hcount. congruence.
Qed.

Lemma duration_field_needs_two_colons_sample :
  is_ok (parse_duration_line "  Duration: N/A, start: 1.400000, bitrate: N/A") = false
  /\ is_ok (parse_duration_line "  Duration: 05:00.00, start: 0.000000") = false.
Proof.
  split.
  - apply (duration_field_needs_two_colons "  " " N/A" " start: 1.400000, bitrate: N/A");
      [reflexivity | reflexivity | reflexivity | discriminate].
  - apply (duration_field_needs_two_colons "  " " 05:00.00" " start: 0.000000");
      [reflexivity | reflexivity | reflexivity | discriminate].
Defined.

(** ** The version query *)

Lemma splitlines_from_nonempty (s cur : string) :
  s <> ""%string \/ cur <> ""%string -> splitlines_from cur s <> [].
Proof.
  revert cur. induction s as [| c s IH]; intros cur Hne.
  - cbn [splitlines_from]. destruct cur; [| discriminate].
    destruct Hne as [Hne | Hne]; now contradiction Hne.
  - cbn [splitlines_from].
    destruct (code c =? 13)%N.
    + destruct s as [| c' s']; [discriminate |].
      destruct (code c' =? 10)%N; discriminate.
    + destruct (is_linebreak c); [discriminate |].
      apply IH. right. unfold snoc. destruct cur; discriminate.
Qed.

Lemma first_line_exists (proc : completed) :
  is_ok (first_line proc) = true
  <-> stdout proc <> ""%string \/ stderr proc <> ""%string.
Proof.
  unfold first_line.
  destruct (String.eqb_spec (stdout proc) "") as [Hout | Hout]; cbn [negb].
  - destruct (String.eqb_spec (stderr proc) "") as [Herr | Herr].
    + rewrite Herr. cbn. split; [discriminate | intros [H | H]; congruence].
    + pose proof (splitlines_from_nonempty (stderr proc) "" (or_introl Herr)) as Hne.
      fold (splitlines (stderr proc)) in Hne.
      destruct (splitlines (stderr proc)); [contradiction | cbn]. split; auto.
  - pose proof (splitlines_from_nonempty (stdout proc) "" (or_introl Hout)) as Hne.
    fold (splitlines (stdout proc)) in Hne.
    destruct (splitlines (stdout proc)); [contradiction | cbn]. split; auto.
Qed.

(** [check_ffmpeg] never raises and starts at most the version query.  It
    answers yes exactly when the encoder is not a bare name missing from the
    search path, the query could be run, exited with 0 and printed
    something on either stream -- an encoder that exits with 0 in silence
    counts as absent -- and the version is then the first line of the
    standard output if there is any, of the diagnostic output otherwise. *)
Theorem check_ffmpeg_verdict (E : env) (w : world) :
  exists ok ver started,
    check_ffmpeg E w = (Ok (ok, ver), after_probes started w)
    /\ (started = [] \/ started = [Run (version_cmd E)])
    /\ (ok = true <->
        ((FFMPEG_PATH E <> "ffmpeg"%string \/ which E "ffmpeg" = true)
         /\ exists proc,
              subprocess_run E (version_cmd E) = Ok proc
              /\ returncode proc = 0
              /\ (stdout proc <> ""%string \/ stderr proc <> ""%string)))
    /\ (ok = false -> ver = None)
    /\ (forall proc,
          ok = true ->
          subprocess_run E (version_cmd E) = Ok proc ->
          ver = nth_error
                  (splitlines (if negb (stdout proc =? "")%string
                               then stdout proc else stderr proc)) 0).
Proof.
  destruct w as [fs tr sk]. unfold check_ffmpeg, after_probes. cbn [files trace sink].
  destruct ((FFMPEG_PATH E =? "ffmpeg")%string && negb (which E "ffmpeg")) eqn:Hguard.
  - exists false, None, []. rewrite app_nil_r. split; [reflexivity |].
    split; [now left |]. split; [| split; [reflexivity | discriminate]].
    split; [discriminate |]. intros [[Hname | Hwhich] _]; exfalso.
    + apply andb_true_iff in Hguard as [Hg _]. now apply String.eqb_eq in Hg.
    + apply andb_true_iff in Hguard as [_ Hg]. rewrite Hwhich in Hg. discriminate.
  - assert (Hfree : FFMPEG_PATH E <> "ffmpeg"%string \/ which E "ffmpeg" = true).
    { apply andb_false_iff in Hguard as [Hg | Hg].
      - left. now apply String.eqb_neq.
      - right. now apply negb_false_iff. }
    unfold try_except, bind, run_process, lift, ret, log_event. cbn [files trace sink].
    destruct (subprocess_run E (version_cmd E)) as [proc | e] eqn:Hrun.
    2:{ exists false, None, [Run (version_cmd E)].
        split; [reflexivity |]. split; [now right |].
        split; [| split; [reflexivity | discriminate]].
        split; [discriminate |]. intros [_ (proc & Hp & _)]. discriminate. }
    destruct (returncode proc =? 0) eqn:Hrc.
    2:{ exists false, None, [Run (version_cmd E)].
        split; [reflexivity |]. split; [now right |].
        split; [| split; [reflexivity | discriminate]].
        split; [discriminate |]. intros [_ (proc' & Hp & Hrc' & _)].
        injection Hp as <-. apply Z.eqb_neq in Hrc. contradiction. }
    apply Z.eqb_eq in Hrc.
    pose proof (first_line_exists proc) as Hline.
    destruct (first_line proc) as [line | e] eqn:Hfirst.
    + exists true, (Some line), [Run (version_cmd E)].
      split; [reflexivity |]. split; [now right |].
      split; [| split; [discriminate |]].
      * split; [| reflexivity]. intros _. split; [exact Hfree |].
        exists proc. repeat split; try assumption. now apply Hline.
      * intros proc' _ Hp. injection Hp as <-.
        unfold first_line in Hfirst.
        destruct (negb (stdout proc =? "")%string);
          destruct (nth_error (splitlines _) 0); congruence.
    + exists false, None, [Run (version_cmd E)].
      split; [reflexivity |]. split; [now right |].
      split; [| split; [reflexivity | discriminate]].
      split; [discriminate |]. intros [_ (proc' & Hp & _ & Hout)].
      injection Hp as <-. apply Hline in Hout. discriminate.
Qed.

(** An encoder that prints its banner, and one that exits with 0 without a
    word. *)
Lemma check_ffmpeg_verdict_sample :
  fst (check_ffmpeg
         (Sample.machine (Raise OSError)
            (Sample.exited 0 ("ffmpeg version 6.1" ++ LF ++ "built with gcc" ++ LF) "")
            (Raise OSError) (Raise OSError) (fun _ => true))
         Sample.blank)
  = Ok (true, Some "ffmpeg version 6.1")
  /\ fst (check_ffmpeg
            (Sample.machine (Raise OSError) (Sample.exited 0 "" "")
               (Raise OSError) (Raise OSError) (fun _ => true))
            Sample.blank)
     = Ok (false, None).
Proof.
  split.
  - destruct (check_ffmpeg_verdict
                (Sample.machine (Raise OSError)
                   (Sample.exited 0 ("ffmpeg version 6.1" ++ LF ++ "built with gcc" ++ LF) "")
                   (Raise OSError) (Raise OSError) (fun _ => true))
                Sample.blank) as (ok & ver & started & Heq & _ & Hok & _ & Hver).
    rewrite Heq. cbn [fst].
    assert (Hyes : ok = true).
    { apply Hok. split; [left; discriminate |].
      eexists. split; [reflexivity |]. split; [reflexivity |]. left. discriminate. }
    rewrite (Hver _ Hyes eq_refl), Hyes. reflexivity.
  - destruct (check_ffmpeg_verdict
                (Sample.machine (Raise OSError) (Sample.exited 0 "" "")
                   (Raise OSError) (Raise OSError) (fun _ => true))
                Sample.blank) as (ok & ver & started & Heq & _ & Hok & Hno & _).
    rewrite Heq. cbn [fst].
    assert (Hnot : ok = false).
    { destruct ok; [| reflexivity]. destruct (proj1 Hok eq_refl) as (_ & proc & Hp & _ & Hout).
      injection Hp as <-. destruct Hout as [Hout | Hout]; now contradiction Hout. }
    now rewrite (Hno Hnot), Hnot.
Defined.

(** ** The window *)

Lemma screen_post (e : ui_event) (g : gui) : screen (post e g) = (screen g ++ [e])%list.
Proof. reflexivity. Qed.

Lemma outside_post (e : ui_event) (g : gui) : outside (post e g) = outside g.
Proof. reflexivity. Qed.

Lemma screen_report (rc : Z) (g : gui) :
  screen (report rc g) = (screen g ++ report_events rc)%list.
Proof.
  unfold report, report_events. destruct (rc =? 0);
    rewrite !screen_post; now rewrite <- List.app_assoc.
Qed.

Lemma outside_report (rc : Z) (g : gui) : outside (report rc g) = outside g.
Proof. unfold report. now destruct (rc =? 0). Qed.

Lemma engine_parts {A} (c : M A) (g : gui) :
  fst (engine c g) = fst (c (quiet (outside g)))
  /\ screen (snd (engine c g))
     = (screen g ++ map LogWrite (sink (snd (c (quiet (outside g))))))%list
  /\ trace (outside (snd (engine c g))) = trace (snd (c (quiet (outside g))))
  /\ files (outside (snd (engine c g))) = files (snd (c (quiet (outside g)))).
Proof.
  unfold engine. destruct (c (quiet (outside g))) as [r w']. now repeat split.
Qed.

Lemma button_after_idle (evs : list ui_event) (b : bool) :
  Forall (fun e => sets_state e = false) evs -> button_after evs b = b.
Proof.
  unfold button_after. induction 1 as [| e evs He _ IH]; cbn [fold_left]; [reflexivity |].
  destruct e; try discriminate He; exact IH.
Qed.

Lemma idly_refl (g : gui) : continues_idly g g.
Proof. exists []. split; [now rewrite app_nil_r | constructor]. Qed.

Lemma idly_trans (g1 g2 g3 : gui) :
  continues_idly g1 g2 -> continues_idly g2 g3 -> continues_idly g1 g3.
Proof.
  intros (e1 & H1 & F1) (e2 & H2 & F2). exists (e1 ++ e2)%list. split.
  - now rewrite H2, H1, <- List.app_assoc.
  - apply Forall_app. now split.
Qed.

Lemma idly_post (e : ui_event) (g : gui) :
  sets_state e = false -> continues_idly g (post e g).
Proof. intros He. exists [e]. split; [reflexivity | now constructor]. Qed.

Lemma idly_report (rc : Z) (g : gui) : continues_idly g (report rc g).
Proof.
  exists (report_events rc). split; [apply screen_report |].
  unfold report_events. destruct (rc =? 0); repeat constructor.
Qed.

Lemma idly_engine {A} (c : M A) (g : gui) : continues_idly g (snd (engine c g)).
Proof.
  eexists. split; [apply (engine_parts c g) |].
  apply Forall_forall. intros e He. apply in_map_iff in He as (l & <- & _). reflexivity.
Qed.

Lemma worker_try_idly (E : env) (src dst : string) (reencode : bool) (crf : Z)
    (preset compress_mb vbr_k ab_k : string) (g : gui) :
  continues_idly g
    (snd (worker_try E src dst reencode crf preset compress_mb vbr_k ab_k g)).
Proof.
  unfold worker_try.
  destruct (negb (compress_mb =? "")%string).
  - destruct (bind_result _ _) as [[target_mb audio_bitrate_k] | e].
    + match goal with
      | |- context [engine ?c ?g0] =>
          pose proof (idly_engine c g0) as Hc; destruct (engine c g0) as [[[rc t] | e] g1]
      end; cbn [snd] in *.
      * eapply idly_trans; [| eapply idly_trans; [exact Hc | apply idly_report]].
        now apply idly_post.
      * eapply idly_trans; [| exact Hc]. now apply idly_post.
    + cbn [snd]. eapply idly_trans; [| now apply idly_post]. now apply idly_post.
  - destruct (single_pass_cmd E src dst reencode crf preset vbr_k ab_k) as [cmd |].
    + match goal with
      | |- context [engine ?c ?g0] =>
          pose proof (idly_engine c g0) as Hc; destruct (engine c g0) as [[[rc t] | e] g1]
      end; cbn [snd] in *.
      * eapply idly_trans; [| eapply idly_trans; [exact Hc | apply idly_report]].
        now apply idly_post.
      * eapply idly_trans; [| exact Hc]. now apply idly_post.
    + cbn [snd]. eapply idly_trans; [| now apply idly_post]. now apply idly_post.
Qed.

(** Once the parent directory is there, the worker never raises, whatever
    the fields hold and whatever the encoder does.  Its last request to the
    window is [configure] with the dictionary [{"state": "normal"}] as a
    positional argument, and none of its requests sets the state of the
    button: served by a [CTkButton], they leave the button as it was. *)
Theorem worker_never_sets_button_state (E : env) (H : host) (src dst : string)
    (reencode : bool) (crf : Z) (preset compress_mb vbr_k ab_k : string) (g : gui) :
  ensure_parent_dir H dst = Ok tt ->
  exists g' evs,
    worker E H src dst reencode crf preset compress_mb vbr_k ab_k g = (Ok tt, g')
    /\ screen g' = (screen g ++ evs ++ [ButtonConfigure [("state", "normal")]])%list
    /\ forall enabled,
         button_after (evs ++ [ButtonConfigure [("state", "normal")]]) enabled
         = enabled.
Proof.
  intros Hdir. unfold worker. rewrite Hdir.
  pose proof (worker_try_idly E src dst reencode crf preset compress_mb
                vbr_k ab_k g) as Hc.
  destruct (worker_try E src dst reencode crf preset compress_mb vbr_k ab_k g)
    as [r g1]. cbn [snd] in Hc. destruct Hc as (evs & Hevs & Hidle).
  destruct r as [[] | e].
  - eexists. exists evs. split; [reflexivity |]. split.
    + rewrite screen_post, Hevs. now rewrite <- List.app_assoc.
    + intros b. apply button_after_idle. apply Forall_app. split; [exact Hidle |].
      now repeat constructor.
  - eexists. exists (evs ++ [ShowException e])%list. split; [reflexivity |]. split.
    + rewrite !screen_post, Hevs. now rewrite <- !List.app_assoc.
    + intros b. apply button_after_idle. repeat (apply Forall_app; split);
        try exact Hidle; now repeat constructor.
Qed.

(** Target-size mode with a pass 1 that exits with 1, after the click has
    disabled the button: the failure is shown and the button is still
    disabled when every request has been served. *)
Lemma worker_never_sets_button_state_sample :
  exists g' evs,
    worker (Bench.two_pass (Sample.encoder_exit 1 Sample.progress [])
              (Sample.encoder_exit 0 Sample.progress []))
      Bench.folders Sample.source Sample.target true 23 "medium" "5" "" "128"
      Bench.window = (Ok tt, g')
    /\ screen g'
       = (screen Bench.window ++ evs ++ [ButtonConfigure [("state", "normal")]])%list
    /\ button_after
         (ButtonState false :: LogClear
          :: evs ++ [ButtonConfigure [("state", "normal")]])%list true
       = false.
Proof.
  destruct (worker_never_sets_button_state
              (Bench.two_pass (Sample.encoder_exit 1 Sample.progress [])
                 (Sample.encoder_exit 0 Sample.progress []))
              Bench.folders Sample.source Sample.target true 23 "medium" "5" "" "128"
              Bench.window eq_refl) as (g' & evs & Hw & Hs & Hb).
  exists g', evs. split; [exact Hw |]. split; [exact Hs |].
  exact (Hb false).
Defined.

Lemma check_ffmpeg_world (E : env) (w : world) :
  exists r started,
    check_ffmpeg E w = (Ok r, after_probes started w)
    /\ Forall (fun e => exists cmd, e = Run cmd) started.
Proof.
  destruct w as [fs tr sk]. unfold check_ffmpeg, after_probes. cbn [files trace sink].
  destruct ((FFMPEG_PATH E =? "ffmpeg")%string && negb (which E "ffmpeg")).
  - eexists. exists []. rewrite app_nil_r. split; [reflexivity | constructor].
  - unfold try_except, bind, run_process, lift, ret, log_event. cbn [files trace sink].
    assert (Hrun : Forall (fun e => exists cmd, e = Run cmd) [Run (version_cmd E)]).
    { constructor; [now eexists | constructor]. }
    destruct (subprocess_run E (version_cmd E)) as [proc | e].
    + destruct (returncode proc =? 0).
      * destruct (first_line proc); eexists; eexists; (split; [reflexivity | exact Hrun]).
      * eexists. eexists. split; [reflexivity | exact Hrun].
    + eexists. eexists. split; [reflexivity | exact Hrun].
Qed.

Lemma engine_check_ffmpeg (E : env) (g : gui) :
  exists r started,
    engine (check_ffmpeg E) g
    = (Ok r, {| outside := after_probes started (outside g); screen := screen g |})
    /\ Forall (fun e => exists cmd, e = Run cmd) started
    /\ fst (check_ffmpeg E (quiet (outside g))) = Ok r.
Proof.
  destruct (check_ffmpeg_world E (quiet (outside g))) as (r & started & Heq & Hs).
  exists r, started. unfold engine. rewrite Heq.
  unfold after_probes, quiet. cbn [files trace sink map]. rewrite app_nil_r.
  now repeat split.
Qed.

Lemma int_of_string_raises (s : string) (e : exn) :
  int_of_string s = Raise e -> e = ValueError.
Proof.
  unfold int_of_string.
  match goal with |- context [match ?r with Some n => Ok n | None => _ end] =>
    destruct r end; congruence.
Qed.

Lemma new_start_is_old (started : list event) (w : world) (cmd : list string) :
  Forall (fun e => exists c, e = Run c) started ->
  In (Popen cmd) (trace (after_probes started w)) ->
  In (Popen cmd) (trace w).
Proof.
  intros Hs Hin. unfold after_probes in Hin. cbn [trace] in Hin.
  apply in_app_or in Hin as [Hin | Hin]; [exact Hin |].
  rewrite Forall_forall in Hs. destruct (Hs _ Hin) as [c Hc]. discriminate.
Qed.

(** A click on Convert starts an encoder only if the form passed every
    check, the folder of the output is there, and the numbers of the mode
    in force parse.  In every other case no encoder process is started. *)
Theorem start_conversion_encodes_only_if_valid (E : env) (H : host) (f : form)
    (g : gui) (cmd : list string) :
  In (Popen cmd) (trace (outside (snd (start_conversion E H f g)))) ->
  ~ In (Popen cmd) (trace (outside g)) ->
  form_ready E H f (quiet (outside g))
  /\ ensure_parent_dir H (strip (dst_var f)) = Ok tt
  /\ mode_fields_parse f.
Proof.
  intros Hnew Hold. unfold start_conversion in Hnew.
  destruct (String.eqb_spec (strip (src_var f)) "") as [Hsrc | Hsrc];
    [now contradiction Hold |]. cbn [orb] in Hnew.
  destruct (isfile H (strip (src_var f))) eqn:Hfile; cbn [negb] in Hnew;
    [| now contradiction Hold].
  destruct (String.eqb_spec (strip (dst_var f)) "") as [Hdst | Hdst];
    [now contradiction Hold |].
  destruct (engine_check_ffmpeg E g) as ([ok ver] & started & Heng & Hruns & Hchk).
  rewrite Heng in Hnew.
  assert (Hstop : forall g1 : gui,
             outside g1 = after_probes started (outside g) ->
             In (Popen cmd) (trace (outside g1)) -> False).
  { intros g1 -> Hin. apply Hold. eapply new_start_is_old; eassumption. }
  destruct ok; cbn [negb] in Hnew; [| exfalso; eapply Hstop; [| exact Hnew]; reflexivity].
  destruct (int_of_string (crf_var f)) as [crf | e] eqn:Hcrf;
    [| exfalso; eapply Hstop; [| exact Hnew]; reflexivity].
  assert (Hready : form_ready E H f (quiet (outside g))).
  { repeat split; try assumption; [now exists ver | now rewrite Hcrf]. }
  unfold worker in Hnew.
  destruct (ensure_parent_dir H (strip (dst_var f))) as [[] | e] eqn:Hdir;
    [| exfalso; eapply Hstop; [| exact Hnew]; reflexivity].
  split; [exact Hready |]. split; [reflexivity |].
  fold (audio_field f) in Hnew. unfold worker_try in Hnew.
  destruct (String.eqb_spec (strip (compress_mb_var f)) "") as [Hmb | Hmb];
    cbn [negb] in Hnew.
  - split; [intros Hne; now contradiction Hne | intros _ Hvbr].
    unfold single_pass_cmd in Hnew.
    apply String.eqb_neq in Hvbr. rewrite Hvbr in Hnew. cbn [negb] in Hnew.
    destruct (int_of_string (strip (vbr_k_var f))) as [vb |]; cbn [bind_result] in Hnew.
    + destruct (int_of_string (audio_field f)) as [ab |]; cbn [bind_result] in Hnew;
        [now split |].
      exfalso. eapply Hstop; [| exact Hnew]. reflexivity.
    + exfalso. eapply Hstop; [| exact Hnew]. reflexivity.
  - split; [intros _ | intros Hempty; now contradiction Hmb].
    destruct (PyFloat.float_of_string (strip (compress_mb_var f))) as [mb |];
      cbn [bind_result] in Hnew.
    + destruct (int_of_string (audio_field f)) as [ab |]; cbn [bind_result] in Hnew;
        [now split |].
      exfalso. eapply Hstop; [| exact Hnew]. reflexivity.
    + exfalso. eapply Hstop; [| exact Hnew]. reflexivity.
Qed.

Lemma start_conversion_encodes_only_if_valid_sample :
  form_ready
    (Bench.two_pass (Sample.encoder_exit 0 Sample.progress [])
       (Sample.encoder_exit 0 Sample.progress []))
    Bench.folders (Bench.fields "23" "5" "" true) (quiet (outside Bench.window))
  /\ ensure_parent_dir Bench.folders (strip Sample.target) = Ok tt
  /\ mode_fields_parse (Bench.fields "23" "5" "" true).
Proof.
  apply (start_conversion_encodes_only_if_valid
           (Bench.two_pass (Sample.encoder_exit 0 Sample.progress [])
              (Sample.encoder_exit 0 Sample.progress []))
           Bench.folders (Bench.fields "23" "5" "" true) Bench.window
           (pass1_cmd (Bench.two_pass (Sample.encoder_exit 0 Sample.progress [])
                         (Sample.encoder_exit 0 Sample.progress []))
              Sample.source Sample.passlog 554 "medium")).
  - vm_compute. do 3 right. left. reflexivity.
  - intros [].
Defined.

(** With a target size filled in, the bitrate field, the re-encode box and
    the value of the CRF field make no difference to what a click does --
    as long as the CRF field holds a number. *)
Theorem target_size_overrides_other_modes (E : env) (H : host) (f f' : form)
    (g : gui) :
  src_var f' = src_var f ->
  dst_var f' = dst_var f ->
  preset_var f' = preset_var f ->
  compress_mb_var f' = compress_mb_var f ->
  ab_k_var f' = ab_k_var f ->
  strip (compress_mb_var f) <> ""%string ->
  is_ok (int_of_string (crf_var f)) = true ->
  is_ok (int_of_string (crf_var f')) = true ->
  start_conversion E H f' g = start_conversion E H f g.
Proof.
  intros Hsrc Hdst Hpre Hmb Hab Hne Hcrf Hcrf'.
  unfold start_conversion. rewrite Hsrc, Hdst, Hpre, Hmb, Hab.
  destruct ((strip (src_var f) =? "")%string || negb (isfile H (strip (src_var f))));
    [reflexivity |].
  destruct (strip (dst_var f) =? "")%string; [reflexivity |].
  destruct (engine (check_ffmpeg E) g) as [[[ok ver] | e] g1]; [| reflexivity].
  destruct (negb ok); [reflexivity |].
  destruct (int_of_string (crf_var f)) as [crf |]; [| discriminate].
  destruct (int_of_string (crf_var f')) as [crf' |]; [| discriminate].
  unfold worker, worker_try.
  apply String.eqb_neq in Hne. rewrite Hne. reflexivity.
Qed.

Lemma target_size_overrides_other_modes_sample :
  start_conversion
    (Bench.two_pass (Sample.encoder_exit 0 Sample.progress [])
       (Sample.encoder_exit 0 Sample.progress []))
    Bench.folders (Bench.fields "18" "5" "1500" false) Bench.window
  = start_conversion
      (Bench.two_pass (Sample.encoder_exit 0 Sample.progress [])
         (Sample.encoder_exit 0 Sample.progress []))
      Bench.folders (Bench.fields "23" "5" "" true) Bench.window.
Proof.
  apply target_size_overrides_other_modes; try reflexivity. discriminate.
Defined.

(** A CRF field that is not a number makes the click raise [ValueError]
    after the version query -- also in the modes that do not use the CRF:
    nothing is shown, the button is not touched and no encoder is
    started. *)
Theorem non_numeric_crf_aborts_click (E : env) (H : host) (f : form) (g : gui)
    (ver : option string) :
  strip (src_var f) <> ""%string ->
  isfile H (strip (src_var f)) = true ->
  strip (dst_var f) <> ""%string ->
  fst (check_ffmpeg E (quiet (outside g))) = Ok (true, ver) ->
  is_ok (int_of_string (crf_var f)) = false ->
  fst (start_conversion E H f g) = Raise ValueError
  /\ screen (snd (start_conversion E H f g)) = screen g
  /\ forall cmd,
       In (Popen cmd) (trace (outside (snd (start_conversion E H f g)))) ->
       In (Popen cmd) (trace (outside g)).
Proof.
  intros Hsrc Hfile Hdst Hchk Hcrf. unfold start_conversion.
  apply String.eqb_neq in Hsrc, Hdst. rewrite Hsrc, Hfile, Hdst. cbn [orb negb].
  destruct (engine_check_ffmpeg E g) as (r & started & -> & Hruns & Hr).
  rewrite Hchk in Hr. injection Hr as <-. cbn [negb].
  destruct (int_of_string (crf_var f)) as [crf | e] eqn:Hint; [discriminate |].
  apply int_of_string_raises in Hint. subst e. cbn [fst snd screen outside].
  repeat split. intros cmd. now apply new_start_is_old.
Qed.

Lemma non_numeric_crf_aborts_click_sample :
  fst (start_conversion
         (Bench.two_pass (Sample.encoder_exit 0 Sample.progress [])
            (Sample.encoder_exit 0 Sample.progress []))
         Bench.folders (Bench.fields "" "5" "" false) Bench.window)
  = Raise ValueError.
Proof.
  apply (non_numeric_crf_aborts_click
           (Bench.two_pass (Sample.encoder_exit 0 Sample.progress [])
              (Sample.encoder_exit 0 Sample.progress []))
           Bench.folders (Bench.fields "" "5" "" false) Bench.window
           (Some "ffmpeg version 6.1")); try reflexivity; discriminate.
Defined.

(** When the folder of the output is missing and cannot be made, the click
    returns normally with the button disabled and the log emptied, and that
    is all: nothing is shown, nothing is encoded and the button is never
    released. *)
Theorem missing_folder_leaves_button_disabled (E : env) (H : host) (f : form)
    (g : gui) (ver : option string) (e : exn) :
  strip (src_var f) <> ""%string ->
  isfile H (strip (src_var f)) = true ->
  strip (dst_var f) <> ""%string ->
  fst (check_ffmpeg E (quiet (outside g))) = Ok (true, ver) ->
  is_ok (int_of_string (crf_var f)) = true ->
  ensure_parent_dir H (strip (dst_var f)) = Raise e ->
  fst (start_conversion E H f g) = Ok tt
  /\ screen (snd (start_conversion E H f g))
     = (screen g ++ [ButtonState false; LogClear])%list
  /\ forall cmd,
       In (Popen cmd) (trace (outside (snd (start_conversion E H f g)))) ->
       In (Popen cmd) (trace (outside g)).
Proof.
  intros Hsrc Hfile Hdst Hchk Hcrf Hdir. unfold start_conversion.
  apply String.eqb_neq in Hsrc, Hdst. rewrite Hsrc, Hfile, Hdst. cbn [orb negb].
  destruct (engine_check_ffmpeg E g) as (r & started & -> & Hruns & Hr).
  rewrite Hchk in Hr. injection Hr as <-. cbn [negb].
  destruct (int_of_string (crf_var f)) as [crf | e']; [| discriminate].
  unfold worker. rewrite Hdir. cbn [fst snd].
  rewrite !screen_post, !outside_post. cbn [screen outside].
  split; [reflexivity |]. split; [now rewrite <- List.app_assoc |].
  intros cmd. now apply new_start_is_old.
Qed.

Lemma missing_folder_leaves_button_disabled_sample :
  screen (snd (start_conversion
                 (Bench.two_pass (Sample.encoder_exit 0 Sample.progress [])
                    (Sample.encoder_exit 0 Sample.progress []))
                 Bench.read_only (Bench.fields "23" "" "" true) Bench.window))
  = [ButtonState false; LogClear].
Proof.
  apply (proj1 (proj2 (missing_folder_leaves_button_disabled
                         (Bench.two_pass (Sample.encoder_exit 0 Sample.progress [])
                            (Sample.encoder_exit 0 Sample.progress []))
                         Bench.read_only (Bench.fields "23" "" "" true) Bench.window
                         (Some "ffmpeg version 6.1") OSError
                         ltac:(discriminate) eq_refl ltac:(discriminate)
                         eq_refl eq_refl eq_refl))).
Defined.

Lemma feed_gui_on_line (lines seen : list string) :
  feed (Some gui_on_line) lines seen = (seen ++ lines)%list.
Proof.
  revert seen. unfold feed, gui_on_line.
  induction lines as [| l lines IH]; intros seen; cbn [fold_left].
  - now rewrite app_nil_r.
  - rewrite IH. now rewrite <- List.app_assoc.
Qed.

(** Target-size mode on a source whose duration is unknown or not
    positive: the worker announces the compression, shows the duration
    error of the engine and calls [configure] with the positional
    dictionary; only the duration queries were run. *)
Theorem unknown_duration_is_shown (E : env) (H : host) (src dst : string)
    (reencode : bool) (crf : Z) (preset compress_mb vbr_k ab_k : string) (g : gui)
    (target_mb : PyFloat.float) (audio_bitrate_k : Z) (duration : option PyFloat.float) :
  ensure_parent_dir H dst = Ok tt ->
  compress_mb <> ""%string ->
  PyFloat.float_of_string compress_mb = Ok target_mb ->
  int_of_string ab_k = Ok audio_bitrate_k ->
  fst (get_media_duration E src (quiet (outside g))) = Ok duration ->
  duration = None \/ (exists d, duration = Some d /\ PyFloat.leb d (PyFloat.nearest 0) = true) ->
  exists g' probes,
    worker E H src dst reencode crf preset compress_mb vbr_k ab_k g = (Ok tt, g')
    /\ screen g'
       = (screen g
          ++ [LogWrite ("Comprimir a ~" ++ fmt_float E target_mb ++ " MB (audio "
                        ++ str_of_int audio_bitrate_k ++ " kbps)" ++ LF);
              ShowException (RuntimeError no_duration_msg);
              ButtonConfigure [("state", "normal")]])%list
    /\ Forall (is_probe E src) probes
    /\ trace (outside g') = (trace (outside g) ++ probes)%list.
Proof.
  intros Hdir Hmb Hfl Hint Hdur Hbad.
  unfold worker, worker_try. rewrite Hdir.
  apply String.eqb_neq in Hmb. rewrite Hmb, Hfl, Hint. cbn [negb bind_result].
  destruct (get_media_duration_world E src (quiet (outside g)))
    as (r & probes & Hg & Hp).
  rewrite Hg in Hdur. cbn [fst] in Hdur. injection Hdur as ->.
  unfold engine. rewrite outside_post.
  rewrite (convert_without_duration E src dst preset (Some gui_on_line) target_mb
             audio_bitrate_k (quiet (outside g)) _ duration Hg Hbad).
  eexists. exists probes. split; [reflexivity |].
  rewrite !screen_post. cbn [screen outside trace sink after_probes quiet map].
  rewrite app_nil_r. split; [now rewrite <- !List.app_assoc |]. now split.
Qed.

Lemma unknown_duration_is_shown_sample :
  exists g' probes,
    worker
      (Sample.machine (Sample.exited 0 ("0.000000" ++ LF) "") (Raise OSError)
         (Sample.encoder_exit 0 [] []) (Sample.encoder_exit 0 [] []) (fun _ => true))
      Bench.folders Sample.source Sample.target true 23 "medium" "5" "" "128"
      Bench.window = (Ok tt, g')
    /\ screen g'
       = [LogWrite ("Comprimir a ~5.0 MB (audio 128 kbps)" ++ LF);
          ShowException (RuntimeError no_duration_msg);
          ButtonConfigure [("state", "normal")]]
    /\ Forall (is_probe
                 (Sample.machine (Sample.exited 0 ("0.000000" ++ LF) "") (Raise OSError)
                    (Sample.encoder_exit 0 [] []) (Sample.encoder_exit 0 [] [])
                    (fun _ => true)) Sample.source) probes
    /\ trace (outside g') = probes.
Proof.
  apply (unknown_duration_is_shown
           (Sample.machine (Sample.exited 0 ("0.000000" ++ LF) "") (Raise OSError)
              (Sample.encoder_exit 0 [] []) (Sample.encoder_exit 0 [] [])
              (fun _ => true))
           Bench.folders Sample.source Sample.target true 23 "medium" "5" "" "128"
           Bench.window (PyFloat.nearest 5) 128 (Some (PyFloat.nearest 0))); try reflexivity.
  - discriminate.
  - right. exists (PyFloat.nearest 0). split; reflexivity.
Defined.

(** A single-pass mode (fixed bitrate, re-encode or remux): the log is
    sent the command line, then in order every line read from the
    diagnostics of the encoder -- all of them when they decode --, then the
    verdict with the exit code; a dialog repeats the verdict and [configure]
    is called with the positional dictionary; when the encoder cannot be
    started the error of the launch is shown instead. *)
Theorem single_pass_outcome_is_shown (E : env) (H : host) (src dst : string)
    (reencode : bool) (crf : Z) (preset vbr_k ab_k : string) (g : gui)
    (cmd : list string) :
  ensure_parent_dir H dst = Ok tt ->
  single_pass_cmd E src dst reencode crf preset vbr_k ab_k = Some cmd ->
  (forall proc,
     spawn E cmd = Ok proc ->
     exists g',
       worker E H src dst reencode crf preset "" vbr_k ab_k g = (Ok tt, g')
       /\ screen g'
          = (screen g
             ++ LogWrite ("Ejecutando: " ++ String.concat " " cmd ++ LF ++ LF)
                :: map LogWrite (stderr_lines proc)
             ++ report_events (exit_code proc)
             ++ [ButtonConfigure [("state", "normal")]])%list
       /\ trace (outside g') = (trace (outside g) ++ [Popen cmd])%list
       /\ (forall lines, diagnostics proc = map Text lines -> stderr_lines proc = lines))
  /\
  (forall e,
     spawn E cmd = Raise e ->
     exists g',
       worker E H src dst reencode crf preset "" vbr_k ab_k g = (Ok tt, g')
       /\ screen g'
          = (screen g
             ++ [LogWrite ("Ejecutando: " ++ String.concat " " cmd ++ LF ++ LF);
                 ShowException (launch_error E e);
                 ButtonConfigure [("state", "normal")]])%list).
Proof.
  intros Hdir Hcmd. split.
  - intros proc Hsp. unfold worker, worker_try. rewrite Hdir, Hcmd. cbn [String.eqb negb].
    unfold engine. rewrite outside_post.
    destruct (run_command_started E (Some gui_on_line) cmd (quiet (outside g)) proc Hsp)
      as (w' & -> & Ht & Hs & Hf).
    eexists. split; [reflexivity |].
    rewrite screen_post, screen_report, outside_post, outside_report.
    cbn [screen outside trace]. rewrite screen_post, Hs, Ht, feed_gui_on_line.
    cbn [quiet sink trace app]. split; [| split; [reflexivity |]].
    + now rewrite <- !List.app_assoc.
    + intros lines Hl. unfold stderr_lines. rewrite Hl. apply readable_all.
  - intros e Hsp. unfold worker, worker_try. rewrite Hdir, Hcmd. cbn [String.eqb negb].
    unfold engine. rewrite outside_post.
    rewrite (run_command_not_started E (Some gui_on_line) cmd _ e Hsp).
    eexists. split; [reflexivity |].
    rewrite !screen_post. cbn [screen sink log_event quiet map].
    rewrite app_nil_r. now rewrite <- !List.app_assoc.
Qed.

(** A remux whose encoder exits with 1 after two lines. *)
Lemma single_pass_outcome_is_shown_sample :
  exists g',
    worker (Bench.single_pass (Sample.encoder_exit 1 Sample.progress []))
      Bench.folders Sample.source Sample.target false 23 "medium" "" "" "128"
      Bench.window = (Ok tt, g')
    /\ screen g'
       = (LogWrite ("Ejecutando: /usr/bin/ffmpeg -y -i /videos/clip.mkv -c copy "
                    ++ "-movflags +faststart /videos/clip.mp4" ++ LF ++ LF)
          :: map LogWrite Sample.progress
          ++ [LogWrite (LF ++ exit_msg 1 ++ LF);
              ShowError "Error" (exit_msg 1 ++ ". Revisa el log.");
              ButtonConfigure [("state", "normal")]])%list
    /\ trace (outside g')
       = [Popen ["/usr/bin/ffmpeg"; "-y"; "-i"; Sample.source; "-c"; "copy";
                 "-movflags"; "+faststart"; Sample.target]].
Proof.
  destruct (proj1 (single_pass_outcome_is_shown
                  (Bench.single_pass (Sample.encoder_exit 1 Sample.progress []))
                  Bench.folders Sample.source Sample.target false 23 "medium" "" "128"
                  Bench.window _ eq_refl eq_refl)
           {| diagnostics := map Text Sample.progress; exit_code := 1; created := [] |}
           eq_refl) as (g' & Hw & Hs & Ht & _).
  exists g'. split; [exact Hw |]. split; [exact Hs | exact Ht].
Defined.

(** ** The terminal session *)

Lemma cli_engine_check_ffmpeg (E : env) (c : console) :
  exists r started,
    cli_engine (check_ffmpeg E) c
    = (Ok r, {| room := after_probes started (room c); shown := shown c;
                opened := opened c; saved := saved c |})
    /\ Forall (fun e => exists cmd, e = Run cmd) started
    /\ fst (check_ffmpeg E (quiet (room c))) = Ok r.
Proof.
  destruct (check_ffmpeg_world E (quiet (room c))) as (r & started & Heq & Hs).
  exists r, started. unfold cli_engine. rewrite Heq.
  unfold after_probes, quiet. cbn [files trace sink map]. rewrite app_nil_r.
  now repeat split.
Qed.

Lemma cli_interactive_quit (E : env) (Sh : shell) (H : host) (lines rest : list string)
    (c c' : console) (ver : option string) (started : list event) :
  cli_engine (check_ffmpeg E) c
  = (Ok (true, ver), {| room := after_probes started (room c); shown := shown c;
                        opened := opened c; saved := saved c |}) ->
  ask_source Sh H lines (greeted ver started c) = (Quit, rest, c') ->
  cli_interactive E Sh H lines c = (None, rest, c').
Proof.
  intros Heng Hask. unfold cli_interactive. rewrite Heng.
  change (negb true) with false. cbv iota.
  fold (greeted ver started c). rewrite Hask. reflexivity.
Qed.

Lemma ask_source_step_exit (Sh : shell) (H : host) (l : string) (rest : list string)
    (c : console) :
  lower (strip l) = "exit"%string ->
  ask_source Sh H (l :: rest) c
  = (Quit, rest, say (Print "Saliendo...") (say source_prompt c)).
Proof.
  intros Hexit. unfold ask_source. rewrite Hexit. reflexivity.
Qed.

Lemma ask_source_step_skip (Sh : shell) (H : host) (l : string) (rest : list string)
    (c : console) :
  not_a_source H l ->
  ask_source Sh H (l :: rest) c
  = ask_source Sh H rest
      (say (Print "Archivo no encontrado. Intenta de nuevo.") (say source_prompt c)).
Proof.
  intros Hl. unfold not_a_source in Hl. destruct Hl as (Hb1 & Hb2 & Hb3).
  apply String.eqb_neq in Hb1, Hb2.
  unfold ask_source at 1. fold ask_source. rewrite Hb1, Hb2, Hb3. reflexivity.
Qed.

Lemma ask_source_exit (Sh : shell) (H : host) (bad rest : list string) (l : string)
    (c : console) :
  Forall (not_a_source H) bad ->
  lower (strip l) = "exit"%string ->
  exists c' evs,
    ask_source Sh H (bad ++ l :: rest) c = (Quit, rest, c')
    /\ room c' = room c
    /\ shown c' = (shown c ++ evs ++ [Print "Saliendo..."])%list.
Proof.
  intros Hbad Hexit. revert c.
  induction Hbad as [| b bad Hb _ IH]; intros c.
  - rewrite app_nil_l, (ask_source_step_exit Sh H l rest c Hexit).
    exists (say (Print "Saliendo...") (say source_prompt c)), [source_prompt].
    split; [reflexivity |]. split; [reflexivity |].
    unfold say. cbn [shown]. now rewrite <- List.app_assoc.
  - rewrite <- app_comm_cons, (ask_source_step_skip Sh H b _ c Hb).
    destruct (IH (say (Print "Archivo no encontrado. Intenta de nuevo.")
                    (say source_prompt c))) as (c' & evs & Heq & Hroom & Hshown).
    exists c', (source_prompt :: Print "Archivo no encontrado. Intenta de nuevo." :: evs).
    split; [exact Heq |]. split; [exact Hroom |].
    rewrite Hshown. unfold say. cbn [shown]. rewrite <- !List.app_assoc. reflexivity.
Qed.

(** With the encoder found: after any number of answers that are neither
    a command nor a file, the answer [exit] -- in any case, with blanks
    around it -- ends the session normally; the rest of the input is not
    read, no encoder is started, and the last thing printed is the
    farewell. *)
Theorem exit_ends_session (E : env) (Sh : shell) (H : host)
    (bad rest : list string) (l : string) (c : console) (ver : option string) :
  fst (check_ffmpeg E (quiet (room c))) = Ok (true, ver) ->
  Forall (not_a_source H) bad ->
  lower (strip l) = "exit"%string ->
  exists c' evs,
    cli_interactive E Sh H (bad ++ l :: rest) c = (None, rest, c')
    /\ shown c' = (shown c ++ evs ++ [Print "Saliendo..."])%list
    /\ forall cmd, In (Popen cmd) (trace (room c')) -> In (Popen cmd) (trace (room c)).
Proof.
  intros Hchk Hbad Hexit.
  destruct (cli_engine_check_ffmpeg E c) as (r & started & Heng & Hruns & Hr).
  rewrite Hchk in Hr. injection Hr as <-.
  destruct (ask_source_exit Sh H bad rest l (greeted ver started c) Hbad Hexit)
    as (c' & evs & Hask & Hroom & Hshown).
  exists c'.
  exists (Print "Conversor a MP4 - modo CLI"
          :: Print ("ffmpeg detectado: "
                    ++ match ver with Some v => v | None => "None" end)
          :: evs).
  split.
  - exact (cli_interactive_quit E Sh H _ rest c c' ver started Heng Hask).
  - split.
    + rewrite Hshown. unfold greeted, say. cbv [shown].
      rewrite <- !List.app_assoc. reflexivity.
    + rewrite Hroom. unfold greeted, say. cbv [room].
      intros cmd. now apply new_start_is_old.
Qed.

Lemma exit_ends_session_sample :
  exists c' evs,
    cli_interactive
      (Bench.two_pass (Sample.encoder_exit 0 [] []) (Sample.encoder_exit 0 [] []))
      Booth.terminal Bench.folders
      ["/videos/missing.mkv"; ""; "  EXIT "; "never read"] Booth.session
    = (None, ["never read"], c')
    /\ shown c' = (shown Booth.session ++ evs ++ [Print "Saliendo..."])%list
    /\ forall cmd,
         In (Popen cmd) (trace (room c')) -> In (Popen cmd) (trace (room Booth.session)).
Proof.
  apply (exit_ends_session
           (Bench.two_pass (Sample.encoder_exit 0 [] []) (Sample.encoder_exit 0 [] []))
           Booth.terminal Bench.folders ["/videos/missing.mkv"; ""] ["never read"]
           "  EXIT " Booth.session (Some "ffmpeg version 6.1")).
  - vm_compute. reflexivity.
  - constructor; [| constructor; [| constructor]];
      unfold not_a_source; vm_compute; repeat split; discriminate.
  - vm_compute. reflexivity.
Defined.

(** The target-size mode of the terminal session never lets anything
    escape: missing or unparsable answers and every exception of the engine
    end in a message.  The fixed-bitrate mode has no such guard around the
    encoder: when the encoder cannot be started the error of the launch
    leaves [cli_interactive]. *)
Theorem size_mode_guarded_bitrate_mode_not (E : env) (input_path output_path : string)
    (c : console) :
  (forall lines, fst (fst (cli_size_mode E input_path output_path lines c)) = None)
  /\
  (forall (v a : string) (rest : list string) (vb_k ab_k : Z) (e : exn),
     int_of_string (if (strip v =? "")%string then "1500" else strip v) = Ok vb_k ->
     int_of_string (if (strip a =? "")%string then "128" else strip a) = Ok ab_k ->
     spawn E (fixed_bitrate_cmd E input_path output_path vb_k ab_k "medium") = Raise e ->
     fst (fst (cli_bitrate_mode E input_path output_path (v :: a :: rest) c))
     = Some (Uncaught (launch_error E e))).
Proof.
  split.
  - intros lines. unfold cli_size_mode, read.
    destruct lines as [| l1 lines]; [reflexivity |].
    destruct (PyFloat.float_of_string (strip l1)); [| reflexivity].
    destruct lines as [| l2 lines]; [reflexivity |].
    destruct (int_of_string _); [| reflexivity].
    destruct (cli_engine _ _) as [[[rc t] | e] c']; reflexivity.
  - intros v a rest vb_k ab_k e Hv Ha Hsp.
    unfold cli_bitrate_mode, read. rewrite Hv, Ha.
    unfold cli_run, cli_engine.
    rewrite (run_command_not_started E (Some cli_on_line) _ _ e Hsp). reflexivity.
Qed.

(** The encoder is missing.  Target-size mode on a clip of unknown
    duration ends normally; fixed-bitrate mode raises. *)
Lemma size_mode_guarded_bitrate_mode_not_sample :
  fst (fst (cli_size_mode
              (Bench.single_pass (Raise FileNotFoundError))
              Sample.source Sample.target ["5"; ""] Booth.session)) = None
  /\ fst (fst (cli_bitrate_mode
                 (Bench.single_pass (Raise FileNotFoundError))
                 Sample.source Sample.target ["1000"; ""] Booth.session))
     = Some (Uncaught
               (RuntimeError
                  (not_found_msg (Bench.single_pass (Raise FileNotFoundError))))).
Proof.
  split.
  - apply (proj1 (size_mode_guarded_bitrate_mode_not
                    (Bench.single_pass (Raise FileNotFoundError))
                    Sample.source Sample.target Booth.session)).
  - apply (proj2 (size_mode_guarded_bitrate_mode_not
                    (Bench.single_pass (Raise FileNotFoundError))
                    Sample.source Sample.target Booth.session)
             "1000" "" [] 1000 128 FileNotFoundError eq_refl eq_refl eq_refl).
Defined.
